(** * Urban Lens: a shallow embedding of the dashboard's filter, panel,
    import-portal and map-loading logic and of the PostGIS schema.

    Part I holds the definitions, one module per source unit; Part II the
    theorems.  JavaScript values are parsed JSON, with [None] standing for
    [undefined], and code that can raise returns in [Exc].  The schema is
    kept as data (tables, columns, types, constraints, defaults) and run by
    a small statement engine over a database of rows; NULL is [VNull]. *)

From Stdlib Require Import String Ascii List ZArith QArith Qround Lia Bool.
From stdpp Require Import base decidable option list strings gmap pretty.

Close Scope Q_scope.

(* ===================================================================== *)
(** * Part I: definitions *)
(* ===================================================================== *)

(** ** JavaScript values as they come out of [res.json()] *)

Module Js.

#[warnings="-register-all"]
Inductive Json : Type :=
| JNull
| JBool (b : bool)
| JNum (q : Q)
| JStr (s : string)
| JArr (items : list Json)
| JObj (fields : list (string * Json)).

(** A JavaScript value: [None] is [undefined]. *)
Definition JsVal : Type := option Json.

Inductive JsError : Type := TypeError | LeafletError.

Inductive Exc (A : Type) : Type :=
| Ok (a : A)
| Throw (e : JsError).
Arguments Ok {A} a.
Arguments Throw {A} e.

Definition bind {A B} (m : Exc A) (k : A → Exc B) : Exc B :=
  match m with Ok a => k a | Throw e => Throw e end.

Notation "'do' x <- m ; k" := (bind m (fun x => k))
  (at level 10, x name, m at level 100, k at level 200).

(** [try { body } catch (e) {}] on a state [s]: a raised body leaves the
    state as it was before the block (the bodies below touch the state only
    in their last step). *)
Definition try_catch {S} (s : S) (body : Exc S) : S :=
  match body with Ok s' => s' | Throw _ => s end.

(** [xs.map(f)] where [f] may raise: the first raise aborts the map. *)
Fixpoint map_exc {A B} (f : A → Exc B) (xs : list A) : Exc (list B) :=
  match xs with
  | [] => Ok []
  | x :: xs' => do y <- f x; do ys <- map_exc f xs'; Ok (y :: ys)
  end.

(** [xs.forEach(cb)] threading a state; a raise in the callback escapes. *)
Fixpoint forEach {A S} (cb : A → S → Exc S) (xs : list A) (s : S) : Exc S :=
  match xs with
  | [] => Ok s
  | x :: xs' => do s' <- cb x s; forEach cb xs' s'
  end.

Definition of_nat (n : nat) : Json := JNum (inject_Z (Z.of_nat n)).

Definition q_is_zero (q : Q) : bool := (Qnum q =? 0)%Z.

(** ToBoolean. JSON has no NaN, so the falsy values are [undefined],
    [null], [false], [0] and the empty string. *)
Definition truthy (v : JsVal) : bool :=
  match v with
  | None | Some JNull => false
  | Some (JBool b) => b
  | Some (JNum q) => negb (q_is_zero q)
  | Some (JStr s) => negb (String.eqb s "")
  | Some (JArr _) | Some (JObj _) => true
  end.

(** [a || b] *)
Definition js_or (a b : JsVal) : JsVal := if truthy a then a else b.

Definition nullish (v : JsVal) : bool :=
  match v with None | Some JNull => true | _ => false end.

Fixpoint assoc (k : string) (fs : list (string * Json)) : JsVal :=
  match fs with
  | [] => None
  | (k', v) :: fs' => if String.eqb k k' then Some v else assoc k fs'
  end.

(** Reading a named property [v.k] of a value that is neither [null] nor
    [undefined].  The names read by this program are plain data keys
    ([coordinates], [type], [building_type], ...) and [length]; none is an
    array index or a member of a built-in prototype. Strings are counted in
    the units of [String.length]. *)
Definition member (v : Json) (k : string) : JsVal :=
  match v with
  | JObj fs => assoc k fs
  | JArr l => if String.eqb k "length" then Some (of_nat (length l)) else None
  | JStr s => if String.eqb k "length" then Some (of_nat (String.length s)) else None
  | JNull | JBool _ | JNum _ => None
  end.

(** [v.k]: raises on [null] and [undefined]. *)
Definition get (v : JsVal) (k : string) : Exc JsVal :=
  match v with
  | None | Some JNull => Throw TypeError
  | Some j => Ok (member j k)
  end.

(** [v?.k] *)
Definition get_opt (v : JsVal) (k : string) : JsVal :=
  match v with
  | None | Some JNull => None
  | Some j => member j k
  end.

(** [v[i]] for a literal index [i]: raises on [null] and [undefined]. *)
Definition index (v : JsVal) (i : nat) : Exc JsVal :=
  match v with
  | None | Some JNull => Throw TypeError
  | Some (JArr l) => Ok (l !! i)
  | Some (JStr s) =>
      Ok (match String.get i s with
          | Some c => Some (JStr (String c EmptyString))
          | None => None
          end)
  | Some (JObj fs) => Ok (assoc (pretty i) fs)
  | Some (JBool _) | Some (JNum _) => Ok None
  end.

(** [v === 'lit'] *)
Definition strict_eq_str (v : JsVal) (lit : string) : bool :=
  match v with Some (JStr s) => String.eqb s lit | _ => false end.

(** [v !== undefined] *)
Definition is_defined (v : JsVal) : bool :=
  match v with None => false | Some _ => true end.

(** Whether ToPrimitive returns on a value out of [res.json()].  An object
    is converted by its [toString] member and, failing that, [valueOf].  An
    own member of either name holds JSON data, which is not callable, and
    the inherited [valueOf] answers the object itself: an object with an own
    [toString] key has no primitive value and the conversion raises a
    TypeError, while every other object becomes the text [[object Object]].
    An array joins the conversions of its entries ([null] counts as the
    empty text) and so raises when one of them does. *)
Fixpoint has_primitive (j : Json) : bool :=
  match j with
  | JObj fs => negb (is_defined (assoc "toString" fs))
  | JArr l => forallb has_primitive l
  | JNull | JBool _ | JNum _ | JStr _ => true
  end.

(** [undefined] is a primitive value already. *)
Definition convertible (v : JsVal) : bool :=
  match v with Some j => has_primitive j | None => true end.

(** ToPrimitive as far as it can fail.  It is the first step of ToString,
    which a template literal applies to a substitution, of ToPropertyKey,
    which a computed member access [t[v]] applies to [v], and of ToNumber;
    the steps that follow it do not raise on JSON data.  The converted
    value itself is not kept. *)
Definition to_primitive (v : JsVal) : Exc unit :=
  if convertible v then Ok tt else Throw TypeError.

(** [arr.includes(v)] on a [string[]]: SameValueZero against strings. *)
Definition includes (arr : list string) (v : JsVal) : bool :=
  match v with
  | Some (JStr s) => bool_decide (s ∈ arr)
  | _ => false
  end.

(** The part of ECMAScript's ToNumber that parses text: what a string, or
    an array or object that has a primitive value, converts to ([None] is
    NaN).  It belongs to the language runtime and is left abstract. *)
Class Runtime : Type := { coerce_number : Json → option Q }.

Definition to_number `{rt : Runtime} (v : JsVal) : option Q :=
  match v with
  | None => None
  | Some JNull => Some (inject_Z 0)
  | Some (JBool b) => Some (inject_Z (if b then 1 else 0))
  | Some (JNum q) => Some q
  | Some j => coerce_number j
  end.

(** The outcome of [v >= n] for a literal [n] once [v] has been made
    primitive; comparisons with NaN are false. *)
Definition ge_lit `{rt : Runtime} (v : JsVal) (n : nat) : bool :=
  match to_number v with
  | Some q => Qle_bool (inject_Z (Z.of_nat n)) q
  | None => false
  end.

(** [v >= n] *)
Definition ge `{rt : Runtime} (v : JsVal) (n : nat) : Exc bool :=
  do _ <- to_primitive v; Ok (ge_lit v n).

End Js.
Import Js.

(** ** types.ts *)

Record FilterState : Type := mkFilterState {
  operators : list string;
  categories : list string;
  showInfrastructure : bool;
  showBuildings : bool;
}.

(** A GeoJSON.Feature object as received: an object whose members may be of
    any JSON shape, or absent. *)
Record Feature : Type := mkFeature {
  f_id : JsVal;
  f_geometry : JsVal;
  f_properties : JsVal;
}.

(** [feature.properties || {}], as both the panel and the map loaders
    read a feature's properties. *)
Definition props_of (feature : Feature) : Json :=
  match js_or (f_properties feature) (Some (JObj [])) with
  | Some j => j
  | None => JObj []
  end.

(** ** Sidebar.tsx *)

Module Sidebar.

(** The updater passed to [setFilters] by [toggleOperator]. *)
Definition toggleOperator (code : string) (prev : FilterState) : FilterState :=
  {| operators :=
       if bool_decide (code ∈ operators prev)
       then filter (λ o, o ≠ code) (operators prev)
       else operators prev ++ [code];
     categories := categories prev;
     showInfrastructure := showInfrastructure prev;
     showBuildings := showBuildings prev |}.

(** The updater passed to [setFilters] by [toggleCategory]. *)
Definition toggleCategory (code : string) (prev : FilterState) : FilterState :=
  {| operators := operators prev;
     categories :=
       if bool_decide (code ∈ categories prev)
       then filter (λ c, c ≠ code) (categories prev)
       else categories prev ++ [code];
     showInfrastructure := showInfrastructure prev;
     showBuildings := showBuildings prev |}.

Definition clearFilters : FilterState :=
  {| operators := []; categories := [];
     showInfrastructure := true; showBuildings := true |}.

(** [const hasFilters = filters.operators.length > 0 || filters.categories.length > 0] *)
Definition hasFilters (filters : FilterState) : bool :=
  (0 <? length (operators filters)) || (0 <? length (categories filters)).

(** App.tsx: the filter state [AppContent] starts with. *)
Definition initial_filters : FilterState :=
  {| operators := []; categories := [];
     showInfrastructure := true; showBuildings := true |}.

(** What the sidebar's controls do to the filter state: the operator and
    category checkboxes, the clear button and the two layer checkboxes. *)
Inductive Action : Type :=
| ToggleOperator (code : string)
| ToggleCategory (code : string)
| ClearFilters
| SetShowInfrastructure (checked : bool)
| SetShowBuildings (checked : bool).

Definition act (prev : FilterState) (a : Action) : FilterState :=
  match a with
  | ToggleOperator code => toggleOperator code prev
  | ToggleCategory code => toggleCategory code prev
  | ClearFilters => clearFilters
  | SetShowInfrastructure b =>
      {| operators := operators prev; categories := categories prev;
         showInfrastructure := b; showBuildings := showBuildings prev |}
  | SetShowBuildings b =>
      {| operators := operators prev; categories := categories prev;
         showInfrastructure := showInfrastructure prev; showBuildings := b |}
  end.

(** The filter state after a sequence of clicks from the start. *)
Definition after (acts : list Action) : FilterState :=
  fold_left act acts initial_filters.

End Sidebar.

(** ** FeaturePanel.tsx: the feature detail panel *)

Module FeaturePanel.

(** [const isBuilding = props.building_type !== undefined] *)
Definition isBuilding (feature : Feature) : bool :=
  is_defined (member (props_of feature) "building_type").

(** The collection badge in the panel footer. *)
Definition collection_label (feature : Feature) : string :=
  if isBuilding feature then "buildings" else "infrastructure".

(** What the component shows: nothing for a null feature, otherwise the
    panel, of which the model keeps the badge and the STAC id. *)
Record Panel : Type := mkPanel { badge : string; stac_id_shown : JsVal }.

Definition FeaturePanel (feature : option Feature) : option Panel :=
  match feature with
  | None => None
  | Some f => Some {| badge := collection_label f; stac_id_shown := f_id f |}
  end.

(** [statusText] *)
Definition statusText (status : string) : string :=
  if String.eqb status "active" then "Aktiv"
  else if String.eqb status "maintenance" then "Təmirdə"
  else if String.eqb status "planned" then "Planlaşdırılıb"
  else if String.eqb status "decommissioned" then "İstifadədən çıxarılıb"
  else status.

Definition sample_cable : Feature :=
  {| f_id := Some (JStr "infra-1");
     f_geometry := None;
     f_properties := Some (JObj [("infrastructure_type", JStr "Fiber Optic Cable");
                                 ("category", JStr "telecom")]) |}.

End FeaturePanel.

(** ** FeaturePanel.tsx, second unit: the operator portal *)

Module Portal.

Record Operator : Type := mkOperator {
  op_id : string;
  op_name : string;
  op_name_short : option string;
  op_category : string;
}.

Record Stats : Type := mkStats {
  st_operator : string;
  infrastructure_count : Z;
  building_count : Z;
  last_import : option string;
}.

Record ImportResult : Type := mkImportResult {
  total : Z;
  imported : Z;
  errors : Z;
  message : string;
  first_error : option string;
  detected_type : option string;
}.

(** A browser [File]: its name and its bytes. *)
Record File : Type := mkFile { file_name : string; file_bytes : string }.

(** Requests the component sends to the server. *)
Inductive Request : Type :=
| GetOperatorList
| GetStats (operator_id : string)
| PostLogin (operator_id password : string)
| PostImport (operator_id : string) (file : File).

Record State : Type := mkState {
  operator_list : list Operator;
  currentOperator : option Operator;
  password : string;
  selectedOperatorId : string;
  loginError : string;
  stats : option Stats;
  importing : bool;
  importResult : option ImportResult;
  selectedFile : option File;
  dragActive : bool;
}.

Definition initial : State :=
  {| operator_list := []; currentOperator := None; password := "";
     selectedOperatorId := ""; loginError := ""; stats := None;
     importing := false; importResult := None; selectedFile := None;
     dragActive := false |}.

(** [s.endsWith(suffix)] *)
Definition endsWith (s suffix : string) : bool :=
  let n := String.length s in
  let m := String.length suffix in
  (m <=? n) && String.eqb (substring (n - m) m s) suffix.

Definition accepted_name (name : string) : bool :=
  endsWith name ".geojson" || endsWith name ".json".

Definition rejected_result : ImportResult :=
  {| total := 0; imported := 0; errors := 1;
     message := "Yalnız GeoJSON faylları qəbul edilir";
     first_error := None; detected_type := None |}.

Definition failed_result : ImportResult :=
  {| total := 0; imported := 0; errors := 1;
     message := "Import xətası baş verdi";
     first_error := None; detected_type := None |}.

(** The effect on [currentOperator, importResult]: when one of the two
    changed and an operator is logged in, the statistics are fetched again.
    [changed] says whether the handler replaced one of the two.  The effect
    is listed once per handler; how often React runs it within one handler
    plays no part below. *)
Definition stats_effect (changed : bool) (st : State) : list Request :=
  if changed then
    match currentOperator st with
    | Some op => [GetStats (op_id op)]
    | None => []
    end
  else [].

Definition set_importResult (r : option ImportResult) (st : State) : State :=
  {| operator_list := operator_list st; currentOperator := currentOperator st;
     password := password st; selectedOperatorId := selectedOperatorId st;
     loginError := loginError st; stats := stats st; importing := importing st;
     importResult := r; selectedFile := selectedFile st;
     dragActive := dragActive st |}.

Definition set_selectedFile (f : option File) (st : State) : State :=
  {| operator_list := operator_list st; currentOperator := currentOperator st;
     password := password st; selectedOperatorId := selectedOperatorId st;
     loginError := loginError st; stats := stats st; importing := importing st;
     importResult := importResult st; selectedFile := f;
     dragActive := dragActive st |}.

Definition set_importing (b : bool) (st : State) : State :=
  {| operator_list := operator_list st; currentOperator := currentOperator st;
     password := password st; selectedOperatorId := selectedOperatorId st;
     loginError := loginError st; stats := stats st; importing := b;
     importResult := importResult st; selectedFile := selectedFile st;
     dragActive := dragActive st |}.

Definition set_stats (s : option Stats) (st : State) : State :=
  {| operator_list := operator_list st; currentOperator := currentOperator st;
     password := password st; selectedOperatorId := selectedOperatorId st;
     loginError := loginError st; stats := s; importing := importing st;
     importResult := importResult st; selectedFile := selectedFile st;
     dragActive := dragActive st |}.

Definition set_dragActive (b : bool) (st : State) : State :=
  {| operator_list := operator_list st; currentOperator := currentOperator st;
     password := password st; selectedOperatorId := selectedOperatorId st;
     loginError := loginError st; stats := stats st; importing := importing st;
     importResult := importResult st; selectedFile := selectedFile st;
     dragActive := b |}.

(** [handleFileSelect]: the new state and the requests that follow from it
    (only the statistics effect can fire; the handler itself sends nothing). *)
Definition handleFileSelect (file : option File) (st : State) : State * list Request :=
  match file with
  | Some f =>
      if accepted_name (file_name f) then
        let st' := set_importResult None (set_selectedFile (Some f) st) in
        (st', stats_effect (bool_decide (importResult st ≠ None)) st')
      else
        let st' := set_importResult (Some rejected_result) st in
        (st', stats_effect true st')
  | None => (st, [])
  end.

(** [handleDrop]: [e.dataTransfer.files?.[0]] goes to [handleFileSelect]. *)
Definition handleDrop (files : list File) (st : State) : State * list Request :=
  let st1 := set_dragActive false st in
  match files with
  | f :: _ => handleFileSelect (Some f) st1
  | [] => (st1, [])
  end.

(** [handleImport]. The two awaited replies are arguments: [reply] is the
    parsed body of the import response and [stats_reply] that of the
    statistics refresh; [None] stands for a fetch or parse that raised. *)
Definition handleImport (reply : option ImportResult) (stats_reply : option Stats)
    (st : State) : State * list Request :=
  match selectedFile st, currentOperator st with
  | Some file, Some op =>
      let st1 := set_importResult None (set_importing true st) in
      let upload := PostImport (op_id op) file in
      let '(st2, sent) :=
        match reply with
        | Some data =>
            let st_ok := set_importResult (Some data) st1 in
            if (0 <? imported data)%Z then
              match stats_reply with
              | Some s => (set_stats (Some s) st_ok, [upload; GetStats (op_id op)])
              | None => (set_importResult (Some failed_result) st_ok,
                         [upload; GetStats (op_id op)])
              end
            else (st_ok, [upload])
        | None => (set_importResult (Some failed_result) st1, [upload])
        end in
      let st3 := set_selectedFile None (set_importing false st2) in
      (st3, sent ++ stats_effect true st3)
  | _, _ => (st, [])
  end.

(** [handleLogin] with the server's reply: the operator on success, the
    message otherwise; [None] when the request raised. *)
Definition handleLogin (reply : option (Operator + string)) (st : State)
    : State * list Request :=
  let sent := [PostLogin (selectedOperatorId st) (password st)] in
  let with_login cur err :=
    {| operator_list := operator_list st; currentOperator := cur;
       password := password st; selectedOperatorId := selectedOperatorId st;
       loginError := err; stats := stats st; importing := importing st;
       importResult := importResult st; selectedFile := selectedFile st;
       dragActive := dragActive st |} in
  match reply with
  | Some (inl op) =>
      let st' := with_login (Some op) "" in (st', sent ++ stats_effect true st')
  | Some (inr msg) => (with_login (currentOperator st) msg, sent)
  | None => (with_login (currentOperator st) "Bağlantı xətası", sent)
  end.

Definition handleLogout (st : State) : State * list Request :=
  ({| operator_list := operator_list st; currentOperator := None;
      password := ""; selectedOperatorId := ""; loginError := loginError st;
      stats := None; importing := importing st; importResult := None;
      selectedFile := selectedFile st; dragActive := dragActive st |}, []).

(** What can happen to the component. *)
Inductive Event : Type :=
| FileChosen (file : option File)
| Dropped (files : list File)
| DragChanged (active : bool)
| ImportClicked (reply : option ImportResult) (stats_reply : option Stats)
| LoginClicked (reply : option (Operator + string))
| LogoutClicked
| OperatorsArrived (ops : list Operator)
| StatsArrived (s : Stats).

Definition step (ev : Event) (st : State) : State * list Request :=
  match ev with
  | FileChosen f => handleFileSelect f st
  | Dropped fs => handleDrop fs st
  | DragChanged b => (set_dragActive b st, [])
  | ImportClicked r s => handleImport r s st
  | LoginClicked r => handleLogin r st
  | LogoutClicked => handleLogout st
  | OperatorsArrived ops =>
      ({| operator_list := ops; currentOperator := currentOperator st;
          password := password st; selectedOperatorId := selectedOperatorId st;
          loginError := loginError st; stats := stats st;
          importing := importing st; importResult := importResult st;
          selectedFile := selectedFile st; dragActive := dragActive st |}, [])
  | StatsArrived s => (set_stats (Some s) st, [])
  end.

(** A session: the events in order, from a state, collecting what is sent. *)
Fixpoint run (evs : list Event) (st : State) : State * list Request :=
  match evs with
  | [] => (st, [])
  | ev :: evs' =>
      let '(st1, sent1) := step ev st in
      let '(st2, sent2) := run evs' st1 in
      (st2, sent1 ++ sent2)
  end.

(** The component mounts in [initial] and asks for the operator list. *)
Definition session (evs : list Event) : State * list Request :=
  let '(st, sent) := run evs initial in (st, GetOperatorList :: sent).

Definition uploaded_files (sent : list Request) : list File :=
  omap (λ r, match r with PostImport _ f => Some f | _ => None end) sent.

(** How the result box is coloured and which icon it shows: the same two
    tests decide both. *)
Inductive Banner : Type := Success | Warning | Failure.

Definition banner (r : ImportResult) : Banner :=
  if (errors r =? 0)%Z && (0 <? imported r)%Z then Success
  else if (0 <? imported r)%Z then Warning
  else Failure.

(** What the component shows of an import, if anything. *)
Definition shown_banner (st : State) : option Banner :=
  banner <$> importResult st.

(** A sample session: log in, choose a good file, then a bad one, import. *)
Definition good_file : File := {| file_name := "a.json"; file_bytes := "{}" |}.
Definition bad_file : File := {| file_name := "b.csv"; file_bytes := "x" |}.
Definition sample_operator : Operator :=
  {| op_id := "azersu"; op_name := "Azersu OJSC"; op_name_short := None;
     op_category := "water" |}.
Definition sample_session : list Event :=
  [LoginClicked (Some (inl sample_operator)); FileChosen (Some good_file);
   FileChosen (Some bad_file); ImportClicked None None].

(** The component once [sample_operator] has logged in. *)
Definition logged_in : State := (handleLogin (Some (inl sample_operator)) initial).1.

(** The selected file, if any, has passed the name check. *)
Definition selection_checked (st : State) : Prop :=
  ∀ f, selectedFile st = Some f → accepted_name (file_name f) = true.

Definition uploads_checked (sent : list Request) : Prop :=
  ∀ f, f ∈ uploaded_files sent → accepted_name (file_name f) = true.

End Portal.

(** ** Map.tsx: the two layer loaders *)

Module MapView.

(** Leaflet is an external library.  Of it the model keeps the one call of
    the [try] blocks that is documented to raise: [L.latLng(lat, lng)], on
    arguments it cannot read as numbers.  Which arguments those are is
    Leaflet's business and left abstract; building the polyline, polygon or
    marker from accepted points and adding it to the group is taken to
    succeed. *)
Class Leaflet : Type := { latLng_ok : JsVal → JsVal → bool }.

Record LatLng : Type := mkLatLng { lat : JsVal; lng : JsVal }.

Definition L_latLng `{lf : Leaflet} (a b : JsVal) : Exc LatLng :=
  if latLng_ok a b then Ok {| lat := a; lng := b |} else Throw LeafletError.

(** What is put on a layer group.  The colour and the popup markup are
    text computed from [props] alone and are kept as [props]; computing
    them can raise, which [colour], [createInfraPopup] and
    [createBuildingPopup] below keep. *)
Inductive Shape : Type :=
| Polyline (pts : list LatLng)
| Polygon (pts : list LatLng)
| CircleMarker (center : LatLng).

Record Layer : Type := mkLayer { shape : Shape; props : Json }.

(** [v.map(f)]: only arrays have a callable [map]. *)
Definition array_map {B} (v : JsVal) (f : JsVal → Exc B) : Exc (list B) :=
  match v with
  | Some (JArr l) => map_exc (λ c, f (Some c)) l
  | _ => Throw TypeError
  end.

(** [(c: number[]) => L.latLng(c[1], c[0])] *)
Definition position_latLng `{lf : Leaflet} (c : JsVal) : Exc LatLng :=
  do a <- index c 1; do b <- index c 0; L_latLng a b.

(** [geom.coordinates.length >= n] *)
Definition coordinates_length_ge `{rt : Runtime} (geom : JsVal) (n : nat) : Exc bool :=
  do cs <- get geom "coordinates"; do len <- get cs "length"; ge len n.

(** [props.operator_color || TABLE[props.key] || '#...']: the table is
    consulted, and [props.key] turned into a property name, only when the
    operator colour is falsy.  What the table answers (a colour, a member
    inherited from [Object.prototype], or nothing) is kept in no layer. *)
Definition colour (props : Json) (key : string) : Exc unit :=
  if truthy (member props "operator_color") then Ok tt
  else to_primitive (member props key).

(** A substitution [${v || 'text'}] or [${v ? `... ${v} ...` : ''}]: [v] is
    converted to text only when it is truthy. *)
Definition shown_if_truthy (v : JsVal) : Exc unit :=
  if truthy v then to_primitive v else Ok tt.

(** [createInfraPopup(props)], as far as it can fail: the two table
    look-ups, then the substitutions of the template in order.  The
    category label is a label of the table or a member it inherits, which
    convert to text, and otherwise [props.category]; the three entries read
    from the status style are texts or [undefined]. *)
Definition createInfraPopup (props : Json) : Exc unit :=
  do _ <- to_primitive (member props "status");
  do _ <- to_primitive (member props "category");
  do _ <- shown_if_truthy (member props "operator_color");
  do _ <- shown_if_truthy (member props "operator_color");
  do _ <- shown_if_truthy (member props "infrastructure_type");
  do _ <- shown_if_truthy (member props "operator");
  do _ <- shown_if_truthy (member props "category");
  do _ <- shown_if_truthy (member props "depth_meters");
  shown_if_truthy (member props "material").

(** [createBuildingPopup(props)], likewise: the fill colour, substituted
    twice, is the operator colour when that is truthy and otherwise a colour
    of the table, a member it inherits, or the default. *)
Definition createBuildingPopup (props : Json) : Exc unit :=
  do _ <- colour props "building_type";
  do _ <- shown_if_truthy (member props "operator_color");
  do _ <- shown_if_truthy (member props "operator_color");
  do _ <- shown_if_truthy (member props "name");
  do _ <- shown_if_truthy (member props "building_type");
  do _ <- shown_if_truthy (member props "operator");
  do _ <- shown_if_truthy (member props "floors");
  shown_if_truthy (member props "year_built").

(** [geom.type === lit && rest] with short-circuit evaluation. *)
Definition type_is_and (geom : JsVal) (lit : string) (rest : Exc bool) : Exc bool :=
  do ty <- get geom "type"; if strict_eq_str ty lit then rest else Ok false.

(** The [try] block of the infrastructure callback, on the layers added so
    far. *)
Definition infra_try `{rt : Runtime, lf : Leaflet} (feature : Feature) (layers : list Layer)
    : Exc (list Layer) :=
  let geom := f_geometry feature in
  if negb (truthy (get_opt geom "coordinates")) then Ok layers else
  let props := props_of feature in
  do _ <- colour props "category";
  do is_line <- type_is_and geom "LineString" (coordinates_length_ge geom 2);
  if is_line then
    do cs <- get geom "coordinates";
    do latLngs <- array_map cs position_latLng;
    do _ <- createInfraPopup props;
    Ok (layers ++ [{| shape := Polyline latLngs; props := props |}])
  else
    do is_point <- type_is_and geom "Point" (coordinates_length_ge geom 2);
    if is_point then
      do cs <- get geom "coordinates";
      do a <- index cs 1;
      do b <- index cs 0;
      do center <- L_latLng a b;
      do _ <- createInfraPopup props;
      Ok (layers ++ [{| shape := CircleMarker center; props := props |}])
    else Ok layers.

(** [filters.xs.length > n && !filters.xs.includes(feature.properties?.key)] *)
Definition excluded (selected : list string) (n : nat) (feature : Feature)
    (key : string) : bool :=
  (n <? length selected) && negb (includes selected (get_opt (f_properties feature) key)).

(** The callback given to [data.features.forEach] in [loadInfrastructure]. *)
Definition infra_callback `{rt : Runtime, lf : Leaflet} (filters : FilterState)
    (feature : Feature) (layers : list Layer) : Exc (list Layer) :=
  if excluded (operators filters) 1 feature "operator_code" then Ok layers else
  if excluded (categories filters) 1 feature "category" then Ok layers else
  Ok (try_catch layers (infra_try feature layers)).

(** The query string of [loadInfrastructure], as key/value pairs. *)
Definition infra_params (filters : FilterState) : list (string * string) :=
  [("limit", "1000")]
  ++ match categories filters with [c] => [("category", c)] | _ => [] end
  ++ match operators filters with [o] => [("operator", o)] | _ => [] end.

(** What [loadInfrastructure] asks the server, if anything. *)
Definition loadInfrastructure_request (filters : FilterState)
    : option (list (string * string)) :=
  if showInfrastructure filters then Some (infra_params filters) else None.

(** The [.then] handler of [loadInfrastructure] on the cleared layer group. *)
Definition loadInfrastructure_then `{rt : Runtime, lf : Leaflet} (filters : FilterState)
    (features : list Feature) : Exc (list Layer) :=
  forEach (infra_callback filters) features [].

(** [geom.coordinates[0]?.length >= n] *)
Definition outer_ring_length_ge `{rt : Runtime} (geom : JsVal) (n : nat) : Exc bool :=
  do cs <- get geom "coordinates";
  do ring <- index cs 0;
  ge (get_opt ring "length") n.

(** The [try] block of the buildings callback. *)
Definition building_try `{rt : Runtime, lf : Leaflet} (feature : Feature) (layers : list Layer)
    : Exc (list Layer) :=
  let geom := f_geometry feature in
  if negb (truthy (get_opt geom "coordinates")) then Ok layers else
  let props := props_of feature in
  do _ <- colour props "building_type";
  do is_polygon <- type_is_and geom "Polygon" (outer_ring_length_ge geom 4);
  if is_polygon then
    do cs <- get geom "coordinates";
    do ring <- index cs 0;
    do latLngs <- array_map ring position_latLng;
    do _ <- createBuildingPopup props;
    Ok (layers ++ [{| shape := Polygon latLngs; props := props |}])
  else
    do is_point <- type_is_and geom "Point" (coordinates_length_ge geom 2);
    if is_point then
      do cs <- get geom "coordinates";
      do a <- index cs 1;
      do b <- index cs 0;
      do center <- L_latLng a b;
      do _ <- createBuildingPopup props;
      Ok (layers ++ [{| shape := CircleMarker center; props := props |}])
    else Ok layers.

(** The callback given to [data.features.forEach] in [loadBuildings]. *)
Definition building_callback `{rt : Runtime, lf : Leaflet} (filters : FilterState)
    (feature : Feature) (layers : list Layer) : Exc (list Layer) :=
  if excluded (operators filters) 0 feature "operator_code" then Ok layers else
  Ok (try_catch layers (building_try feature layers)).

Definition loadBuildings_request (filters : FilterState)
    : option (list (string * string)) :=
  if showBuildings filters then Some [("limit", "500")] else None.

Definition loadBuildings_then `{rt : Runtime, lf : Leaflet} (filters : FilterState)
    (features : list Feature) : Exc (list Layer) :=
  forEach (building_callback filters) features [].

(** What one feature alone puts on an empty group. *)
Definition infra_layers_of `{rt : Runtime, lf : Leaflet} (filters : FilterState)
    (feature : Feature) : list Layer :=
  match infra_callback filters feature [] with Ok ls => ls | Throw _ => [] end.

Definition building_layers_of `{rt : Runtime, lf : Leaflet} (filters : FilterState)
    (feature : Feature) : list Layer :=
  match building_callback filters feature [] with Ok ls => ls | Throw _ => [] end.



(** The defects listed for infrastructure features: no geometry, no
    coordinates, a geometry type other than LineString and Point, or fewer
    than two entries in the coordinates. *)
Definition infra_defect `{rt : Runtime} (feature : Feature) : bool :=
  let geom := f_geometry feature in
  let cs := get_opt geom "coordinates" in
  nullish geom
  || negb (truthy cs)
  || negb (strict_eq_str (get_opt geom "type") "LineString"
           || strict_eq_str (get_opt geom "type") "Point")
  || negb (ge_lit (get_opt cs "length") 2).


(** The properties a popup turns into text, or into a property name, all
    have a primitive value. *)
Definition converts (props : Json) (keys : list string) : bool :=
  forallb (λ k, convertible (member props k)) keys.

Definition infra_popup_keys : list string :=
  ["operator_color"; "category"; "status"; "infrastructure_type"; "operator";
   "depth_meters"; "material"].

Definition building_popup_keys : list string :=
  ["operator_color"; "building_type"; "name"; "operator"; "floors"; "year_built"].


(** An example runtime and Leaflet for evaluating the loaders on data in
    which lengths are numbers and coordinates are numbers. *)
Definition plain_runtime : Runtime := {| coerce_number := λ _, None |}.

Definition numeric_leaflet : Leaflet :=
  {| latLng_ok := λ a b,
       match a, b with Some (JNum _), Some (JNum _) => true | _, _ => false end |}.

(** Sample data: a two-point cable of a given operator, and selections. *)
Definition sample_line_geometry : list (string * Json) :=
  [("type", JStr "LineString");
   ("coordinates", JArr [JArr [JNum (49837 # 1000); JNum (40369 # 1000)];
                         JArr [JNum (49838 # 1000); JNum (40370 # 1000)]])].

Definition sample_line (operator_code : string) : Feature :=
  {| f_id := Some (JStr "infra-7");
     f_geometry := Some (JObj sample_line_geometry);
     f_properties := Some (JObj [("operator_code", JStr operator_code);
                                 ("category", JStr "water")]) |}.

(** The layer drawn for [sample_line]. *)
Definition sample_polyline (operator_code : string) : Layer :=
  {| shape := Polyline
       [{| lat := Some (JNum (40369 # 1000)); lng := Some (JNum (49837 # 1000)) |};
        {| lat := Some (JNum (40370 # 1000)); lng := Some (JNum (49838 # 1000)) |}];
     props := JObj [("operator_code", JStr operator_code); ("category", JStr "water")] |}.

Definition select_operators (ops : list string) : FilterState :=
  {| operators := ops; categories := [];
     showInfrastructure := true; showBuildings := true |}.

(** A LineString whose two entries are [null] instead of positions. *)
Definition null_positions_line : Feature :=
  {| f_id := Some (JStr "infra-8");
     f_geometry := Some (JObj [("type", JStr "LineString");
                               ("coordinates", JArr [JNull; JNull])]);
     f_properties := Some (JObj []) |}.

(** A well-formed cable whose [category] is an object with a [toString]
    entry, as [{"category": {"toString": 1}}] parses. *)
Definition odd_category_line : Feature :=
  {| f_id := Some (JStr "infra-9");
     f_geometry := Some (JObj sample_line_geometry);
     f_properties := Some (JObj [("category", JObj [("toString", JNum 1)])]) |}.

(** The filter state with another operator (resp. category) selection. *)
Definition with_operators (ops : list string) (filters : FilterState) : FilterState :=
  {| operators := ops; categories := categories filters;
     showInfrastructure := showInfrastructure filters;
     showBuildings := showBuildings filters |}.

Definition with_categories (cats : list string) (filters : FilterState) : FilterState :=
  {| operators := operators filters; categories := cats;
     showInfrastructure := showInfrastructure filters;
     showBuildings := showBuildings filters |}.

(** **** The popups *)

(** Reading [TABLE[key]] on an object literal used as a lookup table: the
    key is turned into a property name, and a name the literal does not
    have is looked for on [Object.prototype].  Which names that object
    answers to, and how a value that is not a string becomes a property
    name, belong to the language runtime and are left abstract. *)
Class ObjectModel : Type := {
  property_key : Json → string;
  inherited : string → bool;
}.

Inductive Member (A : Type) : Type :=
| Own (a : A)
| Inherited (name : string)
| Absent.
Arguments Own {A} a.
Arguments Inherited {A} name.
Arguments Absent {A}.

Definition key_of `{om : ObjectModel} (key : JsVal) : string :=
  match key with
  | None => "undefined"
  | Some (JStr s) => s
  | Some j => property_key j
  end.

Fixpoint own {A} (table : list (string * A)) (name : string) : option A :=
  match table with
  | [] => None
  | (k, a) :: table' => if String.eqb name k then Some a else own table' name
  end.

Definition table_get `{om : ObjectModel} {A} (table : list (string * A)) (key : JsVal)
    : Member A :=
  match own table (key_of key) with
  | Some a => Own a
  | None => if inherited (key_of key) then Inherited (key_of key) else Absent
  end.

Record StatusStyle : Type := mkStatusStyle { bg : string; text : string; label : string }.

Definition STATUS_CONFIG : list (string * StatusStyle) :=
  [ ("active", {| bg := "#dcfce7"; text := "#166534"; label := "Aktiv" |});
    ("inactive", {| bg := "#fef3c7"; text := "#92400e"; label := "Qeyri-aktiv" |});
    ("maintenance", {| bg := "#fee2e2"; text := "#991b1b"; label := "Təmirdə" |}) ].

Definition STATUS_active : StatusStyle :=
  {| bg := "#dcfce7"; text := "#166534"; label := "Aktiv" |}.

(** [STATUS_CONFIG[props.status] || STATUS_CONFIG.active] in
    [createInfraPopup], and the [label] read from it: a style of the table,
    the active style when the table has none, or a member inherited from
    the prototype, which is truthy and has no [label]. *)
Definition popup_status_label `{om : ObjectModel} (props : Json) : option string :=
  match table_get STATUS_CONFIG (member props "status") with
  | Own style => Some (label style)
  | Inherited _ => None
  | Absent => Some (label STATUS_active)
  end.

(** An object model for evaluating examples: nothing is inherited under the
    names used, and other values are not used as keys. *)
Definition bare_objects : ObjectModel :=
  {| property_key := λ _, ""; inherited := λ _, false |}.

(** A building outline of a given operator and the layer drawn for it. *)
Definition sample_outline (operator_code : string) : Feature :=
  {| f_id := Some (JStr "bldg-3");
     f_geometry :=
       Some (JObj [("type", JStr "Polygon");
                   ("coordinates",
                    JArr [JArr [JArr [JNum 0; JNum 0]; JArr [JNum 1; JNum 0];
                                JArr [JNum 1; JNum 1]; JArr [JNum 0; JNum 0]]])]);
     f_properties := Some (JObj [("operator_code", JStr operator_code);
                                 ("building_type", JStr "residential")]) |}.

Definition sample_outline_layer (operator_code : string) : Layer :=
  {| shape := Polygon
       [{| lat := Some (JNum 0); lng := Some (JNum 0) |};
        {| lat := Some (JNum 0); lng := Some (JNum 1) |};
        {| lat := Some (JNum 1); lng := Some (JNum 1) |};
        {| lat := Some (JNum 0); lng := Some (JNum 0) |}];
     props := JObj [("operator_code", JStr operator_code);
                    ("building_type", JStr "residential")] |}.

(** The filter state with nothing selected and the same layers shown. *)
Definition without_selection (filters : FilterState) : FilterState :=
  with_categories [] (with_operators [] filters).

End MapView.

(** ** scripts/01_create_schema.sql *)

Module Schema.

(** *** Values and column types *)

Inductive GeomType : Type :=
| Point | LineString | Polygon
| MultiPoint | MultiLineString | MultiPolygon | GeometryCollection.

Definition geomtype_eqb (a b : GeomType) : bool :=
  match a, b with
  | Point, Point | LineString, LineString | Polygon, Polygon
  | MultiPoint, MultiPoint | MultiLineString, MultiLineString
  | MultiPolygon, MultiPolygon | GeometryCollection, GeometryCollection => true
  | _, _ => false
  end.

(** A PostGIS geometry value: its type, its SRID (0 when unknown) and its
    coordinates. *)
Record Geometry : Type := mkGeometry {
  gtype : GeomType;
  srid : Z;
  coordinates : Json;
}.

Inductive SqlType : Type :=
| TUuid
| TVarchar (n : nat)
| TText
| TTextArray
| TInteger
| TBigint
| TDecimal (precision scale : nat)
| TDate
| TTimestamptz
| TJsonb
| TGeometry (ty : option GeomType) (column_srid : Z).

(** Dates and timestamps are carried as their text. *)
Inductive Value : Type :=
| VNull
| VUuid (u : string)
| VText (s : string)
| VTextArray (l : list string)
| VInt (z : Z)
| VNum (q : Q)
| VDate (d : string)
| VTime (t : string)
| VJson (j : Json)
| VGeom (g : Geometry).

Inductive DefaultExpr : Type :=
| NoDefault
| Literal (v : Value)
| UuidGenerateV4
| Now.

Record Column : Type := mkColumn {
  col_name : string;
  col_type : SqlType;
  col_not_null : bool;
  col_unique : bool;
  col_default : DefaultExpr;
  col_references : option (string * string);
}.

Record TableDef : Type := mkTableDef {
  columns : list Column;
  (** [BEFORE UPDATE ... EXECUTE FUNCTION urban.update_timestamp()] *)
  update_timestamp_trigger : bool;
}.

(** Column builders in the order of the DDL clauses. *)
Definition primary_key (name : string) (ty : SqlType) (d : DefaultExpr) : Column :=
  {| col_name := name; col_type := ty; col_not_null := true; col_unique := true;
     col_default := d; col_references := None |}.

Definition unique_not_null (name : string) (ty : SqlType) : Column :=
  {| col_name := name; col_type := ty; col_not_null := true; col_unique := true;
     col_default := NoDefault; col_references := None |}.

Definition not_null (name : string) (ty : SqlType) : Column :=
  {| col_name := name; col_type := ty; col_not_null := true; col_unique := false;
     col_default := NoDefault; col_references := None |}.

Definition nullable (name : string) (ty : SqlType) : Column :=
  {| col_name := name; col_type := ty; col_not_null := false; col_unique := false;
     col_default := NoDefault; col_references := None |}.

Definition with_default (name : string) (ty : SqlType) (d : DefaultExpr) : Column :=
  {| col_name := name; col_type := ty; col_not_null := false; col_unique := false;
     col_default := d; col_references := None |}.

Definition references (name : string) (ty : SqlType) (table column : string) : Column :=
  {| col_name := name; col_type := ty; col_not_null := false; col_unique := false;
     col_default := NoDefault; col_references := Some (table, column) |}.

(** *** The tables *)

Definition operators_def : TableDef :=
  {| columns :=
       [ primary_key "id" TUuid UuidGenerateV4;
         unique_not_null "code" (TVarchar 50);
         not_null "name" (TVarchar 255);
         nullable "name_az" (TVarchar 255);
         not_null "category" (TVarchar 100);
         with_default "color" (TVarchar 7) (Literal (VText "#3388ff"));
         nullable "icon" (TVarchar 100);
         nullable "contact_info" TJsonb;
         with_default "created_at" TTimestamptz Now;
         with_default "updated_at" TTimestamptz Now ];
     update_timestamp_trigger := true |}.

Definition infrastructure_types_def : TableDef :=
  {| columns :=
       [ primary_key "id" TUuid UuidGenerateV4;
         unique_not_null "code" (TVarchar 50);
         not_null "name" (TVarchar 255);
         nullable "name_az" (TVarchar 255);
         not_null "category" (TVarchar 100);
         nullable "properties_schema" TJsonb;
         with_default "created_at" TTimestamptz Now ];
     update_timestamp_trigger := false |}.

Definition infrastructure_def : TableDef :=
  {| columns :=
       [ primary_key "id" TUuid UuidGenerateV4;
         unique_not_null "stac_id" (TVarchar 255);
         references "type_id" TUuid "infrastructure_types" "id";
         references "operator_id" TUuid "operators" "id";
         not_null "geometry" (TGeometry None 4326);
         with_default "properties" TJsonb (Literal (VJson (JObj [])));
         with_default "status" (TVarchar 50) (Literal (VText "active"));
         nullable "installed_date" TDate;
         nullable "depth_meters" (TDecimal 5 2);
         nullable "material" (TVarchar 100);
         nullable "capacity" (TVarchar 100);
         with_default "created_at" TTimestamptz Now;
         with_default "updated_at" TTimestamptz Now ];
     update_timestamp_trigger := true |}.

Definition buildings_def : TableDef :=
  {| columns :=
       [ primary_key "id" TUuid UuidGenerateV4;
         unique_not_null "stac_id" (TVarchar 255);
         nullable "osm_id" TBigint;
         not_null "geometry" (TGeometry (Some Polygon) 4326);
         references "operator_id" TUuid "operators" "id";
         nullable "name" (TVarchar 255);
         nullable "name_az" (TVarchar 255);
         nullable "building_type" (TVarchar 100);
         nullable "floors" TInteger;
         nullable "year_built" TInteger;
         nullable "address" TJsonb;
         with_default "properties" TJsonb (Literal (VJson (JObj [])));
         with_default "created_at" TTimestamptz Now;
         with_default "updated_at" TTimestamptz Now ];
     update_timestamp_trigger := true |}.

Definition streets_def : TableDef :=
  {| columns :=
       [ primary_key "id" TUuid UuidGenerateV4;
         nullable "osm_id" TBigint;
         not_null "geometry" (TGeometry (Some LineString) 4326);
         nullable "name" (TVarchar 255);
         nullable "name_az" (TVarchar 255);
         nullable "highway_type" (TVarchar 100);
         with_default "properties" TJsonb (Literal (VJson (JObj [])));
         with_default "created_at" TTimestamptz Now ];
     update_timestamp_trigger := false |}.

Definition stac_collections_def : TableDef :=
  {| columns :=
       [ primary_key "id" (TVarchar 255) NoDefault;
         not_null "title" (TVarchar 255);
         nullable "description" TText;
         nullable "keywords" TTextArray;
         with_default "license" (TVarchar 100) (Literal (VText "proprietary"));
         not_null "extent" TJsonb;
         with_default "properties" TJsonb (Literal (VJson (JObj [])));
         with_default "created_at" TTimestamptz Now;
         with_default "updated_at" TTimestamptz Now ];
     update_timestamp_trigger := false |}.

Definition catalog : list (string * TableDef) :=
  [ ("operators", operators_def);
    ("infrastructure_types", infrastructure_types_def);
    ("infrastructure", infrastructure_def);
    ("buildings", buildings_def);
    ("streets", streets_def);
    ("stac_collections", stac_collections_def) ].

Fixpoint table_def_in (cat : list (string * TableDef)) (table : string) : option TableDef :=
  match cat with
  | [] => None
  | (t, d) :: cat' => if String.eqb table t then Some d else table_def_in cat' table
  end.

Definition table_def (table : string) : option TableDef := table_def_in catalog table.

(** *** Rows and database states *)

Definition Row : Type := list (string * Value).

Fixpoint cell (r : Row) (column : string) : Value :=
  match r with
  | [] => VNull
  | (c, v) :: r' => if String.eqb column c then v else cell r' column
  end.

(** The row with the value under one column replaced. *)
Definition with_cell (column : string) (v : Value) (r : Row) : Row :=
  map (λ kv, if String.eqb kv.1 column then (column, v) else kv) r.

Fixpoint assigned (assign : list (string * Value)) (column : string) : option Value :=
  match assign with
  | [] => None
  | (c, v) :: a' => if String.eqb column c then Some v else assigned a' column
  end.

Abbreviation Database := (gmap string (list Row)).

Definition rows_of (db : Database) (table : string) : list Row :=
  default [] (db !! table).

(** The state once the [CREATE TABLE] statements have run. *)
Definition created : Database := ∅.

Inductive SqlError : Type :=
| UndefinedTable
| UndefinedColumn
| DatatypeMismatch
| StringTooLong
| NumericOutOfRange
| GeometrySridMismatch
| GeometryTypeMismatch
| NotNullViolation
| UniqueViolation
| ForeignKeyViolation.

Inductive Outcome (A : Type) : Type :=
| Accepted (a : A)
| Rejected (e : SqlError).
Arguments Accepted {A} a.
Arguments Rejected {A} e.

Definition and_then {A B} (m : Outcome A) (k : A → Outcome B) : Outcome B :=
  match m with Accepted a => k a | Rejected e => Rejected e end.

Notation "'let!' x := m 'in' k" := (and_then m (fun x => k))
  (at level 10, x name, m at level 100, k at level 200).

Fixpoint for_each {A B} (f : A → Outcome B) (xs : list A) : Outcome (list B) :=
  match xs with
  | [] => Accepted []
  | x :: xs' => let! y := f x in let! ys := for_each f xs' in Accepted (y :: ys)
  end.

(** What the engine supplies to a statement: the next [uuid_generate_v4()]
    and [NOW()]. *)
Record Env : Type := mkEnv { fresh_uuid : string; now : string }.

(** *** Storing a value in a column *)

Fixpoint all_spaces (s : string) : bool :=
  match s with
  | EmptyString => true
  | String c s' => Ascii.eqb c " "%char && all_spaces s'
  end.

(** Text is held as its bytes in the database encoding, UTF-8, in which a
    character is a leading byte followed by up to three bytes of the form
    [10xxxxxx]. *)
Definition continuation (c : ascii) : bool :=
  (128 <=? nat_of_ascii c) && (nat_of_ascii c <? 192).

(** The number of characters of a text. *)
Fixpoint characters (s : string) : nat :=
  match s with
  | EmptyString => 0
  | String c s' => (if continuation c then 0 else 1) + characters s'
  end.

(** The first [n] characters of a text, and what follows them. *)
Fixpoint first_characters (n : nat) (s : string) : string :=
  match s with
  | EmptyString => EmptyString
  | String c s' =>
      if continuation c then String c (first_characters n s')
      else match n with
           | 0 => EmptyString
           | S n' => String c (first_characters n' s')
           end
  end.

Fixpoint after_characters (n : nat) (s : string) : string :=
  match s with
  | EmptyString => EmptyString
  | String c s' =>
      if continuation c then after_characters n s'
      else match n with
           | 0 => s
           | S n' => after_characters n' s'
           end
  end.

(** [VARCHAR(n)]: a text of more than [n] characters is an error unless the
    excess is spaces, which are cut. *)
Definition store_varchar (n : nat) (s : string) : Outcome Value :=
  if characters s <=? n then Accepted (VText s)
  else if all_spaces (after_characters n s)
       then Accepted (VText (first_characters n s))
       else Rejected StringTooLong.

(** Rounding half away from zero to an integer. *)
Definition round_half_away (q : Q) : Z :=
  if Qle_bool 0 q then Qfloor (Qplus q (1 # 2)) else (- Qfloor (Qplus (Qopp q) (1 # 2)))%Z.

(** [DECIMAL(p, s)]: round to [s] places, then at most [p] digits. *)
Definition store_decimal (p s : nat) (q : Q) : Outcome Value :=
  let scale := (10 ^ Z.of_nat s)%Z in
  let r := round_half_away (Qmult q (inject_Z scale)) in
  if (Z.abs r <? 10 ^ Z.of_nat p)%Z
  then Accepted (VNum (Qmake r (Z.to_pos scale)))
  else Rejected NumericOutOfRange.

Definition set_srid (s : Z) (g : Geometry) : Geometry :=
  {| gtype := gtype g; srid := s; coordinates := coordinates g |}.

(** PostGIS's check of a geometry against the column's type modifier: a
    geometry of unknown SRID takes the column's, any other SRID must equal
    it, and a column declared for one geometry type takes only that type.
    (Neither feature table declares [GEOMETRYCOLLECTION], the one type with
    looser matching.) *)
Definition store_geometry (ty : option GeomType) (column_srid : Z) (g : Geometry)
    : Outcome Value :=
  let g1 := if (0 <? column_srid)%Z && (srid g =? 0)%Z then set_srid column_srid g else g in
  if (0 <? column_srid)%Z && negb (srid g1 =? column_srid)%Z
  then Rejected GeometrySridMismatch
  else match ty with
       | Some t => if geomtype_eqb t (gtype g1) then Accepted (VGeom g1)
                   else Rejected GeometryTypeMismatch
       | None => Accepted (VGeom g1)
       end.

Definition in_range (bits : Z) (z : Z) : bool :=
  ((- 2 ^ (bits - 1) <=? z) && (z <? 2 ^ (bits - 1)))%Z.

(** Storing a value in a column of a given type; NULL fits every type. *)
Definition store (ty : SqlType) (v : Value) : Outcome Value :=
  match v, ty with
  | VNull, _ => Accepted VNull
  | VUuid u, TUuid => Accepted (VUuid u)
  | VText s, TVarchar n => store_varchar n s
  | VText s, TText => Accepted (VText s)
  | VTextArray l, TTextArray => Accepted (VTextArray l)
  | VInt z, TInteger => if in_range 32 z then Accepted (VInt z) else Rejected NumericOutOfRange
  | VInt z, TBigint => if in_range 64 z then Accepted (VInt z) else Rejected NumericOutOfRange
  | VInt z, TDecimal p s => store_decimal p s (inject_Z z)
  | VNum q, TDecimal p s => store_decimal p s q
  | VDate d, TDate => Accepted (VDate d)
  | VTime t, TTimestamptz => Accepted (VTime t)
  | VJson j, TJsonb => Accepted (VJson j)
  | VGeom g, TGeometry t s => store_geometry t s g
  | _, _ => Rejected DatatypeMismatch
  end.

Definition is_null (v : Value) : bool :=
  match v with VNull => true | _ => false end.

(** Equality on the kinds of value that key columns hold. *)
Definition value_eqb (a b : Value) : bool :=
  match a, b with
  | VUuid x, VUuid y | VText x, VText y | VDate x, VDate y | VTime x, VTime y =>
      String.eqb x y
  | VInt x, VInt y => (x =? y)%Z
  | VNum x, VNum y => Qeq_bool x y
  | _, _ => false
  end.

Definition default_value (env : Env) (c : Column) : Value :=
  match col_default c with
  | NoDefault => VNull
  | Literal v => v
  | UuidGenerateV4 => VUuid (fresh_uuid env)
  | Now => VTime (now env)
  end.

(** Storing into one column, with its NOT NULL constraint. *)
Definition store_cell (c : Column) (v : Value) : Outcome (string * Value) :=
  let! v' := store (col_type c) v in
  if col_not_null c && is_null v' then Rejected NotNullViolation
  else Accepted (col_name c, v').

Definition known_columns (cols : list Column) (assign : list (string * Value)) : bool :=
  forallb (λ kv, existsb (λ c, String.eqb kv.1 (col_name c)) cols) assign.

(** The row an [INSERT] builds: listed columns take the given value, the
    others their default. *)
Definition inserted_row (env : Env) (cols : list Column) (assign : list (string * Value))
    : Outcome Row :=
  if known_columns cols assign then
    for_each (λ c, store_cell c (match assigned assign (col_name c) with
                                 | Some v => v
                                 | None => default_value env c
                                 end)) cols
  else Rejected UndefinedColumn.

(** The row an [UPDATE] leaves: assigned columns are stored anew, the others
    keep their value; the timestamp trigger then overwrites [updated_at]. *)
Definition updated_row (env : Env) (def : TableDef) (assign : list (string * Value))
    (old : Row) : Outcome Row :=
  if known_columns (columns def) assign then
    for_each (λ c,
      if update_timestamp_trigger def && String.eqb (col_name c) "updated_at"
      then store_cell c (VTime (now env))
      else match assigned assign (col_name c) with
           | Some v => store_cell c v
           | None => Accepted (col_name c, cell old (col_name c))
           end) (columns def)
  else Rejected UndefinedColumn.

(** No other row holds the same non-null value in a unique column. *)
Definition unique_against (cols : list Column) (others : list Row) (r : Row) : bool :=
  forallb (λ c,
    negb (col_unique c)
    || is_null (cell r (col_name c))
    || forallb (λ r', negb (value_eqb (cell r' (col_name c)) (cell r (col_name c)))) others)
    cols.

Fixpoint all_unique (cols : list Column) (rows : list Row) : bool :=
  match rows with
  | [] => true
  | r :: rows' => unique_against cols rows' r && all_unique cols rows'
  end.

(** Every foreign key of every table points at an existing row. *)
Definition foreign_keys_hold (db : Database) : bool :=
  forallb (λ td,
    forallb (λ c,
      match col_references c with
      | None => true
      | Some (table, column) =>
          forallb (λ r,
            is_null (cell r (col_name c))
            || existsb (λ r', value_eqb (cell r' column) (cell r (col_name c)))
                 (rows_of db table))
            (rows_of db td.1)
      end) (columns td.2)) catalog.

(** *** Statements *)

Inductive Statement : Type :=
| Insert (table : string) (assign : list (string * Value))
| Update (table : string) (where_ : Row → bool) (assign : list (string * Value))
| Delete (table : string) (where_ : Row → bool).

Definition checked (db : Database) : Outcome Database :=
  if foreign_keys_hold db then Accepted db else Rejected ForeignKeyViolation.

Definition execute (env : Env) (stmt : Statement) (db : Database) : Outcome Database :=
  match stmt with
  | Insert table assign =>
      match table_def table with
      | None => Rejected UndefinedTable
      | Some def =>
          let! r := inserted_row env (columns def) assign in
          if unique_against (columns def) (rows_of db table) r
          then checked (<[table := rows_of db table ++ [r]]> db)
          else Rejected UniqueViolation
      end
  | Update table where_ assign =>
      match table_def table with
      | None => Rejected UndefinedTable
      | Some def =>
          let! rows' := for_each (λ r, if where_ r then updated_row env def assign r
                                       else Accepted r) (rows_of db table) in
          if all_unique (columns def) rows'
          then checked (<[table := rows']> db)
          else Rejected UniqueViolation
      end
  | Delete table where_ =>
      match table_def table with
      | None => Rejected UndefinedTable
      | Some def =>
          checked (<[table := List.filter (λ r, negb (where_ r)) (rows_of db table)]> db)
      end
  end.

(** A rejected statement leaves the database as it was. *)
Definition apply_statement (db : Database) (s : Env * Statement) : Database :=
  match execute s.1 s.2 db with
  | Accepted db' => db'
  | Rejected _ => db
  end.

Definition run_statements (script : list (Env * Statement)) (db : Database) : Database :=
  fold_left apply_statement script db.

(** Two columns by name. *)
Definition status_column : Column :=
  with_default "status" (TVarchar 50) (Literal (VText "active")).

Definition building_geometry_column : Column :=
  not_null "geometry" (TGeometry (Some Polygon) 4326).

(** *** What the declared constraints say of a table *)

(** A stored value fits its column type. *)
Definition conforms (ty : SqlType) (v : Value) : bool :=
  match v, ty with
  | VNull, _ => true
  | VText s, TVarchar n => characters s <=? n
  | VGeom g, TGeometry t s =>
      (negb (0 <? s)%Z || (srid g =? s)%Z)
      && match t with Some t' => geomtype_eqb t' (gtype g) | None => true end
  | VUuid _, TUuid | VText _, TText | VTextArray _, TTextArray
  | VInt _, TInteger | VInt _, TBigint | VNum _, TDecimal _ _
  | VDate _, TDate | VTime _, TTimestamptz | VJson _, TJsonb => true
  | _, _ => false
  end.

Definition cell_ok (c : Column) (v : Value) : bool :=
  conforms (col_type c) v && negb (col_not_null c && is_null v).

Definition row_ok (cols : list Column) (r : Row) : bool :=
  forallb (λ c, cell_ok c (cell r (col_name c))) cols.

Definition table_ok (def : TableDef) (rows : list Row) : bool :=
  forallb (row_ok (columns def)) rows && all_unique (columns def) rows.

Definition db_ok (db : Database) : Prop :=
  ∀ table def, table_def table = Some def → table_ok def (rows_of db table) = true.

Fixpoint names_distinct (names : list string) : bool :=
  match names with
  | [] => true
  | n :: names' => negb (existsb (String.eqb n) names') && names_distinct names'
  end.

(** *** The view [urban.stac_items] *)

(** The PostGIS functions the view calls.  An empty geometry (as
    [POLYGON EMPTY], which the geometry columns accept) has a GeoJSON form
    but no bounding box: the four box functions answer NULL for it, [None]
    here. *)
Class PostGIS : Type := {
  ST_AsGeoJSON : Geometry → Json;
  ST_XMin : Geometry → option Q;
  ST_YMin : Geometry → option Q;
  ST_XMax : Geometry → option Q;
  ST_YMax : Geometry → option Q;
}.

(** A [double precision] result as a column value. *)
Definition of_number (q : option Q) : Value :=
  match q with Some x => VNum x | None => VNull end.

(** A function of a geometry applied to a column; NULL on NULL. *)
Definition of_geometry (f : Geometry → Value) (v : Value) : Value :=
  match v with VGeom g => f g | _ => VNull end.

(** [to_jsonb] on the column types the view passes to
    [jsonb_build_object]. *)
Definition to_jsonb (v : Value) : Json :=
  match v with
  | VNull => JNull
  | VUuid s | VText s | VDate s | VTime s => JStr s
  | VTextArray l => JArr (map JStr l)
  | VInt z => JNum (inject_Z z)
  | VNum q => JNum q
  | VJson j => j
  | VGeom _ => JNull
  end.

Definition object_fields (pairs : list (string * Value)) : list (string * Json) :=
  map (λ kv, (kv.1, to_jsonb kv.2)) pairs.

Definition jsonb_build_object (pairs : list (string * Value)) : Value :=
  VJson (JObj (object_fields pairs)).

Definition jsonb_build_array (items : list Value) : Value :=
  VJson (JArr (map to_jsonb items)).

Definition has_key (fs : list (string * Json)) (k : string) : bool :=
  match assoc k fs with Some _ => true | None => false end.

(** Union of two objects' keys, the second object's value winning. *)
Definition merge_objects (first second : list (string * Json)) : list (string * Json) :=
  second ++ List.filter (λ kv, negb (has_key second kv.1)) first.

(** The [jsonb || jsonb] operator: NULL if either side is NULL; two objects
    merge, two arrays concatenate, and otherwise a non-array side counts as
    a one-element array. *)
Definition jsonb_concat (a b : Value) : Value :=
  match a, b with
  | VJson x, VJson y =>
      VJson (match x, y with
             | JObj f, JObj g => JObj (merge_objects f g)
             | JArr l, JArr m => JArr (l ++ m)
             | JArr l, _ => JArr (l ++ [y])
             | _, JArr m => JArr (x :: m)
             | _, _ => JArr [x; y]
             end)
  | _, _ => VNull
  end.

(** The text [||] operator. *)
Definition text_concat (a b : Value) : Value :=
  match a, b with
  | VText x, VText y => VText (x +:+ y)
  | _, _ => VNull
  end.

(** [l LEFT JOIN right ON on]: the matching rows of [right], or one row of
    NULLs when there is none. *)
Definition left_join (right : list Row) (on : Row → bool) : list Row :=
  match List.filter on right with
  | [] => [[]]
  | matches => matches
  end.

Record StacItem : Type := mkStacItem {
  item_id : Value;
  item_type : Value;
  item_geometry : Value;
  bbox_minx : Value;
  bbox_miny : Value;
  bbox_maxx : Value;
  bbox_maxy : Value;
  item_properties : Value;
  item_collection : list string;
  item_links : Value;
}.

(** The object the first branch builds before [|| i.properties]. *)
Definition infrastructure_object (i o t : Row) : list (string * Value) :=
  [ ("datetime", cell i "created_at");
    ("operator", cell o "name");
    ("operator_code", cell o "code");
    ("operator_color", cell o "color");
    ("infrastructure_type", cell t "name");
    ("type_code", cell t "code");
    ("category", cell t "category");
    ("status", cell i "status");
    ("depth_meters", cell i "depth_meters");
    ("material", cell i "material") ].

(** The object the second branch builds before [|| b.properties]. *)
Definition building_object (b o : Row) : list (string * Value) :=
  [ ("datetime", cell b "created_at");
    ("operator", cell o "name");
    ("operator_code", cell o "code");
    ("operator_color", cell o "color");
    ("building_type", cell b "building_type");
    ("floors", cell b "floors");
    ("year_built", cell b "year_built");
    ("name", cell b "name") ].

Definition item_of `{pg : PostGIS} (r : Row) (object : list (string * Value))
    (collection : string) : StacItem :=
  {| item_id := cell r "stac_id";
     item_type := VText "Feature";
     item_geometry := of_geometry (λ g, VJson (ST_AsGeoJSON g)) (cell r "geometry");
     bbox_minx := of_geometry (λ g, of_number (ST_XMin g)) (cell r "geometry");
     bbox_miny := of_geometry (λ g, of_number (ST_YMin g)) (cell r "geometry");
     bbox_maxx := of_geometry (λ g, of_number (ST_XMax g)) (cell r "geometry");
     bbox_maxy := of_geometry (λ g, of_number (ST_YMax g)) (cell r "geometry");
     item_properties := jsonb_concat (jsonb_build_object object) (cell r "properties");
     item_collection := [collection];
     item_links :=
       jsonb_build_array
         [ jsonb_build_object
             [("rel", VText "self");
              ("href", text_concat (VText "/api/stac/items/") (cell r "stac_id"))];
           jsonb_build_object
             [("rel", VText "collection");
              ("href", VText ("/api/stac/collections/" +:+ collection))] ] |}.

Definition infrastructure_item `{pg : PostGIS} (i o t : Row) : StacItem :=
  item_of i (infrastructure_object i o t) "infrastructure".

Definition building_item `{pg : PostGIS} (b o : Row) : StacItem :=
  item_of b (building_object b o) "buildings".

Definition operator_of (db : Database) (r : Row) : list Row :=
  left_join (rows_of db "operators")
    (λ o, value_eqb (cell r "operator_id") (cell o "id")).

Definition type_of (db : Database) (r : Row) : list Row :=
  left_join (rows_of db "infrastructure_types")
    (λ t, value_eqb (cell r "type_id") (cell t "id")).

(** The rows of the view, listed branch by branch and table row by table
    row.  The view has no [ORDER BY]: the engine may hand the same rows out
    in any order, so only what holds of the rows as a multiset is a
    property of the view. *)
Definition stac_items `{pg : PostGIS} (db : Database) : list StacItem :=
  flat_map (λ i, flat_map (λ o, map (λ t, infrastructure_item i o t) (type_of db i))
                   (operator_of db i))
    (rows_of db "infrastructure")
  ++ flat_map (λ b, map (λ o, building_item b o) (operator_of db b))
       (rows_of db "buildings").

(** *** The seed rows *)

(** One [INSERT ... VALUES (...), (...)] statement: the rows go in one after
    the other, each with its own [uuid_generate_v4()] and all with the
    statement's [NOW()], and the statement is rejected as a whole if one row
    is. *)
Fixpoint insert_rows (now_ : string) (table : string)
    (rows : list (string * list (string * Value))) (db : Database) : Outcome Database :=
  match rows with
  | [] => Accepted db
  | (uuid, assign) :: rest =>
      let! db' := execute {| fresh_uuid := uuid; now := now_ |} (Insert table assign) db in
      insert_rows now_ table rest db'
  end.

Definition operator_values (code name name_az category color : string)
    : list (string * Value) :=
  [("code", VText code); ("name", VText name); ("name_az", VText name_az);
   ("category", VText category); ("color", VText color)].

Definition type_values (code name name_az category : string) : list (string * Value) :=
  [("code", VText code); ("name", VText name); ("name_az", VText name_az);
   ("category", VText category)].

Definition seed_operators : list (list (string * Value)) :=
  [ operator_values "aztelekom" "Aztelekom LLC" "Aztelekom MMC" "telecom" "#e74c3c";
    operator_values "baktelekom" "Baktelecom LLC" "Baktelekom MMC" "telecom" "#9b59b6";
    operator_values "delta" "Delta Telecom" "Delta Telekom" "telecom" "#3498db";
    operator_values "azersu" "Azersu OJSC" "Azərsu ASC" "water" "#1abc9c";
    operator_values "azeriqaz" "Azerigaz PU" "Azəriqaz İB" "gas" "#f39c12";
    operator_values "azerenerji" "Azerenerji OJSC" "Azərenerji ASC" "electricity" "#e67e22";
    operator_values "bna" "Baku City Executive Power" "Bakı Nəqliyyat Agentliyi"
      "government" "#2c3e50";
    operator_values "socar" "SOCAR" "SOCAR" "oil_gas" "#27ae60";
    operator_values "private" "Private Ownership" "Özəl Mülkiyyət" "private" "#7f8c8d";
    operator_values "municipal" "Municipal Property" "Bələdiyyə Mülkiyyəti"
      "government" "#34495e" ].

Definition seed_types : list (list (string * Value)) :=
  [ type_values "fiber_optic" "Fiber Optic Cable" "Fiber Optik Kabel" "telecom";
    type_values "copper_cable" "Copper Cable" "Mis Kabel" "telecom";
    type_values "coaxial" "Coaxial Cable" "Koaksial Kabel" "telecom";
    type_values "water_main" "Water Main Pipe" "Əsas Su Borusu" "water";
    type_values "water_distribution" "Water Distribution Pipe" "Su Paylanma Borusu" "water";
    type_values "sewage" "Sewage Pipe" "Kanalizasiya Borusu" "water";
    type_values "gas_main" "Gas Main Pipeline" "Əsas Qaz Xətti" "gas";
    type_values "gas_distribution" "Gas Distribution Pipeline" "Qaz Paylanma Xətti" "gas";
    type_values "power_high" "High Voltage Power Line" "Yüksək Gərginlik Xətti" "electricity";
    type_values "power_medium" "Medium Voltage Power Line" "Orta Gərginlik Xətti"
      "electricity";
    type_values "power_low" "Low Voltage Power Line" "Aşağı Gərginlik Xətti" "electricity";
    type_values "heating" "District Heating Pipe" "Mərkəzi İstilik Borusu" "heating" ].

(** The two seed statements of the script, on the created schema, with the
    UUIDs and the two timestamps the engine hands out. *)
Definition run_seeds (operator_ids type_ids : list string) (now1 now2 : string)
    : Outcome Database :=
  let! db := insert_rows now1 "operators" (zip operator_ids seed_operators) created in
  insert_rows now2 "infrastructure_types" (zip type_ids seed_types) db.

Definition sample_operator_ids : list string :=
  ["o01"; "o02"; "o03"; "o04"; "o05"; "o06"; "o07"; "o08"; "o09"; "o10"].

Definition sample_type_ids : list string :=
  ["t01"; "t02"; "t03"; "t04"; "t05"; "t06"; "t07"; "t08"; "t09"; "t10"; "t11"; "t12"].

(** The row an insert of given values stores when every check passes. *)
Definition stored_as (uuid now_ : string) (def : TableDef) (assign : list (string * Value))
    : Row :=
  map (λ c, (col_name c,
             match assigned assign (col_name c) with
             | Some v => v
             | None => default_value {| fresh_uuid := uuid; now := now_ |} c
             end)) (columns def).

(** The values of a key column are pairwise different, NULLs apart. *)
Fixpoint keys_distinct (vs : list Value) : bool :=
  match vs with
  | [] => true
  | v :: vs' => forallb (λ v', negb (value_eqb v v')) vs' && keys_distinct vs'
  end.

(** *** The function [urban.generate_stac_id] *)

(** [REPLACE(s, '-', '')] *)
Fixpoint remove_dashes (s : string) : string :=
  match s with
  | EmptyString => EmptyString
  | String c s' =>
      if Ascii.eqb c "-"%char then remove_dashes s' else String c (remove_dashes s')
  end.

(** [prefix || '-' || REPLACE(uuid_generate_v4()::VARCHAR, '-', '')] *)
Definition generate_stac_id (env : Env) (prefix : Value) : Value :=
  text_concat (text_concat prefix (VText "-")) (VText (remove_dashes (fresh_uuid env))).

Fixpoint dash_free (s : string) : bool :=
  match s with
  | EmptyString => true
  | String c s' => negb (Ascii.eqb c "-"%char) && dash_free s'
  end.




(** *** Properties of stored rows *)

Definition documented_statuses : list string :=
  ["active"; "maintenance"; "planned"; "decommissioned"].

(** The persisted status is one of the four documented values. *)
Definition status_documented (r : Row) : Prop :=
  ∃ s, cell r "status" = VText s ∧ In s documented_statuses.

(** What the column type does guarantee of a status. *)
Definition status_fits_column (r : Row) : Prop :=
  cell r "status" = VNull
  ∨ ∃ s, cell r "status" = VText s ∧ characters s ≤ 50.

(** A non-null identifier and a non-null geometry in SRID 4326. *)
Definition identified_and_located (r : Row) : Prop :=
  (∃ s, cell r "stac_id" = VText s)
  ∧ ∃ g, cell r "geometry" = VGeom g ∧ srid g = 4326%Z.

(** No two rows of the table share an identifier. *)
Definition stac_ids_distinct (rows : list Row) : Prop :=
  ∀ (i j : nat) (r1 r2 : Row),
    rows !! i = Some r1 → rows !! j = Some r2 → i ≠ j →
    cell r1 "stac_id" ≠ cell r2 "stac_id".

Definition polygon_in_4326 (r : Row) : Prop :=
  ∃ g, cell r "geometry" = VGeom g ∧ gtype g = Polygon ∧ srid g = 4326%Z.

(** The object of the reference-table columns alone: operator name, code
    and colour and type name, code and category. *)
Definition listed_infrastructure_object (o t : Row) : list (string * Value) :=
  [ ("operator", cell o "name");
    ("operator_code", cell o "code");
    ("operator_color", cell o "color");
    ("infrastructure_type", cell t "name");
    ("type_code", cell t "code");
    ("category", cell t "category") ].

(** *** Sample data *)

(** A stand-in for PostGIS on sample data: geometries print as their type
    name and coordinates, and the box is taken over the flattened
    positions. *)
Definition geomtype_name (t : GeomType) : string :=
  match t with
  | Point => "Point" | LineString => "LineString" | Polygon => "Polygon"
  | MultiPoint => "MultiPoint" | MultiLineString => "MultiLineString"
  | MultiPolygon => "MultiPolygon" | GeometryCollection => "GeometryCollection"
  end.

Fixpoint positions (j : Json) : list (Q * Q) :=
  match j with
  | JArr (JNum x :: JNum y :: _) => [(x, y)]
  | JArr l => flat_map positions l
  | _ => []
  end.

Definition least (qs : list Q) : option Q :=
  match qs with
  | [] => None
  | q :: qs' => Some (fold_left (λ a b, if Qle_bool a b then a else b) qs' q)
  end.

Definition greatest (qs : list Q) : option Q :=
  match qs with
  | [] => None
  | q :: qs' => Some (fold_left (λ a b, if Qle_bool a b then b else a) qs' q)
  end.

Definition sample_postgis : PostGIS :=
  {| ST_AsGeoJSON := λ g, JObj [("type", JStr (geomtype_name (gtype g)));
                               ("coordinates", coordinates g)];
     ST_XMin := λ g, least (map fst (positions (coordinates g)));
     ST_YMin := λ g, least (map snd (positions (coordinates g)));
     ST_XMax := λ g, greatest (map fst (positions (coordinates g)));
     ST_YMax := λ g, greatest (map snd (positions (coordinates g))) |}.

Definition sample_env (n : string) : Env :=
  {| fresh_uuid := "00000000-0000-4000-8000-00000000000" +:+ n;
     now := "2025-01-01T00:00:0" +:+ n +:+ "Z" |}.

Definition sample_point : Geometry :=
  {| gtype := Point; srid := 4326;
     coordinates := JArr [JNum (49837 # 1000); JNum (40369 # 1000)] |}.

Definition sample_square : Geometry :=
  {| gtype := Polygon; srid := 4326;
     coordinates := JArr [JArr [JArr [JNum 0; JNum 0]; JArr [JNum 1; JNum 0];
                                JArr [JNum 1; JNum 1]; JArr [JNum 0; JNum 0]]] |}.

Definition insert_cable (stac_id : string) (status : option string) : Statement :=
  Insert "infrastructure"
    ([("stac_id", VText stac_id); ("geometry", VGeom sample_point)]
     ++ match status with Some s => [("status", VText s)] | None => [] end).

Definition insert_building (stac_id : string) (g : Geometry) : Statement :=
  Insert "buildings" [("stac_id", VText stac_id); ("geometry", VGeom g)].

(** A cable row whose free-form properties are NULL, and one whose
    properties override the status. *)
Definition cable_with_properties (properties : Value) : Row :=
  [ ("id", VUuid "00000000-0000-4000-8000-000000000009"); ("stac_id", VText "infra-9");
    ("type_id", VNull); ("operator_id", VNull); ("geometry", VGeom sample_point);
    ("properties", properties); ("status", VText "active");
    ("installed_date", VNull); ("depth_meters", VNull); ("material", VNull);
    ("capacity", VNull); ("created_at", VTime "2025-01-01T00:00:09Z");
    ("updated_at", VTime "2025-01-01T00:00:09Z") ].

(** An operator and a cable of that operator. *)
Definition insert_operator (code name category : string) : Statement :=
  Insert "operators"
    [("code", VText code); ("name", VText name); ("category", VText category)].

Definition insert_owned_cable (stac_id owner : string) : Statement :=
  Insert "infrastructure"
    [("stac_id", VText stac_id); ("geometry", VGeom sample_point);
     ("operator_id", VUuid owner)].

Definition owned_script : list (Env * Statement) :=
  [ (sample_env "1", insert_operator "azersu" "Azersu OJSC" "water");
    (sample_env "2", insert_owned_cable "infra-1" (fresh_uuid (sample_env "1"))) ].

Definition stored_operator : Row :=
  [ ("id", VUuid (fresh_uuid (sample_env "1"))); ("code", VText "azersu");
    ("name", VText "Azersu OJSC"); ("name_az", VNull); ("category", VText "water");
    ("color", VText "#3388ff"); ("icon", VNull); ("contact_info", VNull);
    ("created_at", VTime (now (sample_env "1")));
    ("updated_at", VTime (now (sample_env "1"))) ].

Definition stored_owned_cable : Row :=
  [ ("id", VUuid (fresh_uuid (sample_env "2"))); ("stac_id", VText "infra-1");
    ("type_id", VNull); ("operator_id", VUuid (fresh_uuid (sample_env "1")));
    ("geometry", VGeom sample_point); ("properties", VJson (JObj []));
    ("status", VText "active"); ("installed_date", VNull); ("depth_meters", VNull);
    ("material", VNull); ("capacity", VNull);
    ("created_at", VTime (now (sample_env "2")));
    ("updated_at", VTime (now (sample_env "2"))) ].

Definition sample_script : list (Env * Statement) :=
  [ (sample_env "1", insert_cable "infra-1" None);
    (sample_env "2", insert_cable "infra-2" (Some "inactive"));
    (sample_env "3", insert_cable "infra-2" (Some "active"));
    (sample_env "4", insert_building "b-1" sample_point);
    (sample_env "5", insert_building "b-2" sample_square) ].

Definition sample_db : Database := run_statements sample_script created.

(** The rows the sample script leaves, as the engine stores them. *)
Definition stored_cable (n stac_id status : string) : Row :=
  [ ("id", VUuid (fresh_uuid (sample_env n))); ("stac_id", VText stac_id);
    ("type_id", VNull); ("operator_id", VNull); ("geometry", VGeom sample_point);
    ("properties", VJson (JObj [])); ("status", VText status);
    ("installed_date", VNull); ("depth_meters", VNull); ("material", VNull);
    ("capacity", VNull); ("created_at", VTime (now (sample_env n)));
    ("updated_at", VTime (now (sample_env n))) ].

(** A building stored with NULL for its free-form properties. *)
Definition insert_bare_building (stac_id : string) : Statement :=
  Insert "buildings"
    [("stac_id", VText stac_id); ("geometry", VGeom sample_square); ("properties", VNull)].

Definition stored_bare_building (n stac_id : string) : Row :=
  [ ("id", VUuid (fresh_uuid (sample_env n))); ("stac_id", VText stac_id);
    ("osm_id", VNull); ("geometry", VGeom sample_square); ("operator_id", VNull);
    ("name", VNull); ("name_az", VNull); ("building_type", VNull);
    ("floors", VNull); ("year_built", VNull); ("address", VNull);
    ("properties", VNull); ("created_at", VTime (now (sample_env n)));
    ("updated_at", VTime (now (sample_env n))) ].

Definition stored_square (n stac_id : string) : Row :=
  [ ("id", VUuid (fresh_uuid (sample_env n))); ("stac_id", VText stac_id);
    ("osm_id", VNull); ("geometry", VGeom sample_square); ("operator_id", VNull);
    ("name", VNull); ("name_az", VNull); ("building_type", VNull);
    ("floors", VNull); ("year_built", VNull); ("address", VNull);
    ("properties", VJson (JObj [])); ("created_at", VTime (now (sample_env n)));
    ("updated_at", VTime (now (sample_env n))) ].

End Schema.

(** ** The import endpoint [/api/operator/import/{id}] *)

Module Importer.

(** Modelled from the spec: the server-side importer, whose code is not in
    the repository's sources (only its caller [handleImport] and the shape
    of its reply, [ImportResult], are).  The spec gives: a feature is meant
    for buildings when its properties carry a building-type key and for
    infrastructure when they carry an infrastructure-type or category key,
    the operator's category deciding when that is ambiguous; a feature is
    rejected when its geometry type is not of the table's family (point or
    line for infrastructure, polygon for buildings) or its coordinate array
    is malformed; valid features are inserted, every feature is counted in
    [total] and in one of [imported] and [errors], the first error message
    is kept, and a rejected feature does not stop the pass.  A file that
    does not parse is reported as a single error. *)

Inductive Collection : Type := Infrastructure | Buildings.

Definition collection_name (c : Collection) : string :=
  match c with Infrastructure => "infrastructure" | Buildings => "buildings" end.

Definition has_property (f : Feature) (key : string) : bool :=
  is_defined (get_opt (f_properties f) key).

(** The operator's configured category as a collection. *)
Definition category_collection (operator_category : string) : Collection :=
  if String.eqb operator_category "building" then Buildings else Infrastructure.

(** The detection rule. *)
Definition detect (operator_category : string) (f : Feature) : Collection :=
  let building := has_property f "building_type" in
  let infra := has_property f "infrastructure_type" || has_property f "category" in
  if building && negb infra then Buildings
  else if infra && negb building then Infrastructure
  else category_collection operator_category.

Definition is_number (j : Json) : bool :=
  match j with JNum _ => true | _ => false end.

(** A position: an array of at least two numbers. *)
Definition is_position (j : Json) : bool :=
  match j with
  | JArr (x :: y :: rest) => is_number x && is_number y && forallb is_number rest
  | _ => false
  end.

Definition is_line (j : Json) : bool :=
  match j with
  | JArr ps => (2 <=? length ps) && forallb is_position ps
  | _ => false
  end.

Definition is_ring (j : Json) : bool :=
  match j with
  | JArr ps => (4 <=? length ps) && forallb is_position ps
  | _ => false
  end.

Definition is_polygon (j : Json) : bool :=
  match j with
  | JArr (r :: rs) => is_ring r && forallb is_ring rs
  | _ => false
  end.

(** Validation of one feature for its table: [None] when it passes, the
    error message otherwise. *)
Definition validate (target : Collection) (f : Feature) : option string :=
  let ty := get_opt (f_geometry f) "type" in
  let cs := get_opt (f_geometry f) "coordinates" in
  match target, cs with
  | _, None => Some "geometry has no coordinates"
  | Infrastructure, Some c =>
      if strict_eq_str ty "Point"
      then if is_position c then None else Some "malformed coordinates"
      else if strict_eq_str ty "LineString"
      then if is_line c then None else Some "malformed coordinates"
      else Some "geometry type does not match infrastructure"
  | Buildings, Some c =>
      if strict_eq_str ty "Polygon"
      then if is_polygon c then None else Some "malformed coordinates"
      else Some "geometry type does not match buildings"
  end.

Definition well_formed (operator_category : string) (f : Feature) : bool :=
  match validate (detect operator_category f) f with None => true | Some _ => false end.

(** The running state of the pass. *)
Record Progress : Type := mkProgress {
  seen : Z;
  stored : Z;
  failed : Z;
  first_message : option string;
  inserted : list (Collection * Feature);
}.

Definition start : Progress :=
  {| seen := 0; stored := 0; failed := 0; first_message := None; inserted := [] |}.

(** One feature of the pass. *)
Definition import_feature (operator_category : string) (p : Progress) (f : Feature)
    : Progress :=
  let target := detect operator_category f in
  match validate target f with
  | None =>
      {| seen := seen p + 1; stored := stored p + 1; failed := failed p;
         first_message := first_message p;
         inserted := inserted p ++ [(target, f)] |}
  | Some msg =>
      {| seen := seen p + 1; stored := stored p; failed := failed p + 1;
         first_message := match first_message p with
                          | Some m => Some m
                          | None => Some msg
                          end;
         inserted := inserted p |}
  end.

Definition import_features (operator_category : string) (features : list Feature)
    : Progress :=
  fold_left (import_feature operator_category) features start.

(** The reply for an upload: [parsed] is the feature list of the file, or
    [None] when the file is not a GeoJSON feature collection.  The wording
    of [message] is not given by the spec and is an argument; the detected
    type reported is that of the first feature. *)
Definition import_file (message : string) (operator_category : string)
    (parsed : option (list Feature)) : Portal.ImportResult :=
  match parsed with
  | None =>
      {| Portal.total := 0; Portal.imported := 0; Portal.errors := 1;
         Portal.message := message;
         Portal.first_error := Some "file is not a GeoJSON feature collection";
         Portal.detected_type := None |}
  | Some features =>
      let p := import_features operator_category features in
      {| Portal.total := seen p; Portal.imported := stored p;
         Portal.errors := failed p; Portal.message := message;
         Portal.first_error := first_message p;
         Portal.detected_type :=
           match features with
           | f :: _ => Some (collection_name (detect operator_category f))
           | [] => None
           end |}
  end.

(** A sample upload: one good cable, one cable with a single position, one
    good building outline. *)
Definition short_cable : Feature :=
  {| f_id := None;
     f_geometry := Some (JObj [("type", JStr "LineString");
                               ("coordinates", JArr [JArr [JNum 1; JNum 2]])]);
     f_properties := Some (JObj [("infrastructure_type", JStr "fiber_optic")]) |}.

Definition good_cable : Feature :=
  {| f_id := None;
     f_geometry := Some (JObj [("type", JStr "LineString");
                               ("coordinates", JArr [JArr [JNum 1; JNum 2];
                                                     JArr [JNum 3; JNum 4]])]);
     f_properties := Some (JObj [("infrastructure_type", JStr "fiber_optic")]) |}.

Definition good_outline : Feature :=
  {| f_id := None;
     f_geometry := Some (JObj [("type", JStr "Polygon");
                               ("coordinates",
                                JArr [JArr [JArr [JNum 0; JNum 0]; JArr [JNum 1; JNum 0];
                                            JArr [JNum 1; JNum 1]; JArr [JNum 0; JNum 0]]])]);
     f_properties := Some (JObj [("building_type", JStr "residential")]) |}.

Definition sample_upload : list Feature := [good_cable; short_cable; good_outline].

End Importer.

(* ===================================================================== *)
(** * Part II: theorems *)
(* ===================================================================== *)

Module SidebarFacts.
Import Sidebar.

Lemma toggle_list_twice (code : string) (l : list string) :
  let once := if bool_decide (code ∈ l) then filter (λ o, o ≠ code) l else l ++ [code] in
  let twice := if bool_decide (code ∈ once) then filter (λ o, o ≠ code) once else once ++ [code] in
  list_to_set twice =@{gset string} list_to_set l.
Proof.
  simpl. destruct (bool_decide_reflect (code ∈ l)) as [Hin | Hnin].
  - (* selected: the first toggle removes it, the second puts it back *)
    rewrite bool_decide_eq_false_2
      by (rewrite list_elem_of_filter; intros [Hne _]; by apply Hne).
    apply set_eq. intros x.
    rewrite !elem_of_list_to_set, elem_of_app, list_elem_of_filter, list_elem_of_singleton.
    split.
    + intros [[_ Hx] | ->]; assumption.
    + intros Hx. destruct (decide (x = code)) as [-> | Hne]; [by right | by left].
  - (* not selected: the first toggle appends it, the second removes it *)
    rewrite bool_decide_eq_true_2
      by (rewrite elem_of_app, list_elem_of_singleton; by right).
    apply set_eq. intros x.
    rewrite !elem_of_list_to_set, list_elem_of_filter, elem_of_app, list_elem_of_singleton.
    split.
    + intros [Hne [Hx | ->]]; [assumption | by destruct Hne].
    + intros Hx. split; [| by left]. intros ->. by apply Hnin.
Qed.

(** C10. Toggling the same operator code (resp. category code) twice gives
    back the original selection as a set, and a single toggle leaves every
    other field of the filter state as it was. *)
Theorem toggle_twice_same_set (prev : FilterState) (code : string) :
  (list_to_set (operators (toggleOperator code (toggleOperator code prev)))
     =@{gset string} list_to_set (operators prev)
   ∧ categories (toggleOperator code prev) = categories prev
   ∧ showInfrastructure (toggleOperator code prev) = showInfrastructure prev
   ∧ showBuildings (toggleOperator code prev) = showBuildings prev)
  ∧
  (list_to_set (categories (toggleCategory code (toggleCategory code prev)))
     =@{gset string} list_to_set (categories prev)
   ∧ operators (toggleCategory code prev) = operators prev
   ∧ showInfrastructure (toggleCategory code prev) = showInfrastructure prev
   ∧ showBuildings (toggleCategory code prev) = showBuildings prev).
Proof.
  split; (split; [| by repeat split]).
  - unfold toggleOperator; simpl. apply (toggle_list_twice code (operators prev)).
  - unfold toggleCategory; simpl. apply (toggle_list_twice code (categories prev)).
Qed.

End SidebarFacts.

Module FeaturePanelFacts.
Import FeaturePanel.

Lemma member_building_type (j : Json) (v : Json) :
  member j "building_type" = Some v →
  ∃ fs, j = JObj fs ∧ assoc "building_type" fs = Some v.
Proof.
  destruct j as [| b | q | s | l | fs]; simpl; try discriminate.
  intros H. exists fs. split; [reflexivity | exact H].
Qed.

Lemma props_of_object (f : Feature) (fs : list (string * Json)) :
  f_properties f = Some (JObj fs) → props_of f = JObj fs.
Proof. intros H. unfold props_of, js_or. rewrite H. reflexivity. Qed.

Lemma props_of_cases (f : Feature) :
  (truthy (f_properties f) = true ∧ f_properties f = Some (props_of f))
  ∨ (truthy (f_properties f) = false ∧ props_of f = JObj []).
Proof.
  unfold props_of, js_or.
  destruct (truthy (f_properties f)) eqn:Ht.
  - left. split; [reflexivity |].
    destruct (f_properties f) as [j |]; [reflexivity | discriminate].
  - right. split; reflexivity.
Qed.

(** C3. The panel labels a feature [buildings] exactly when its properties
    object has a [building_type] member (of any value, [null] included), and
    [infrastructure] when it has none but carries [infrastructure_type] or
    [category]; the badge shown is that label. *)
Theorem panel_label_by_building_type (f : Feature) :
  (collection_label f = "buildings" ↔
     ∃ fs v, f_properties f = Some (JObj fs) ∧ assoc "building_type" fs = Some v)
  ∧ (∀ fs, f_properties f = Some (JObj fs) →
       assoc "building_type" fs = None →
       assoc "infrastructure_type" fs ≠ None ∨ assoc "category" fs ≠ None →
       collection_label f = "infrastructure")
  ∧ (badge <$> FeaturePanel (Some f)) = Some (collection_label f).
Proof.
  split; [| split].
  - unfold collection_label, isBuilding. split.
    + destruct (member (props_of f) "building_type") as [v |] eqn:Hm; simpl; [| discriminate].
      intros _. apply member_building_type in Hm as [fs [Hp Ha]].
      exists fs, v. split; [| exact Ha].
      destruct (props_of_cases f) as [[_ Hs] | [_ He]].
      * rewrite Hs, Hp. reflexivity.
      * rewrite He in Hp. injection Hp as <-. discriminate.
    + intros [fs [v [Hp Ha]]]. rewrite (props_of_object f fs Hp). simpl.
      rewrite Ha. reflexivity.
  - intros fs Hp Hnone _. unfold collection_label, isBuilding.
    rewrite (props_of_object f fs Hp). simpl. rewrite Hnone. reflexivity.
  - reflexivity.
Qed.

Lemma panel_label_by_building_type_witness :
  collection_label sample_cable = "infrastructure".
Proof.
  apply (proj1 (proj2 (panel_label_by_building_type sample_cable))
           [("infrastructure_type", JStr "Fiber Optic Cable"); ("category", JStr "telecom")]).
  - reflexivity.
  - reflexivity.
  - left. discriminate.
Defined.

Example label_of_null_building_type :
  collection_label {| f_id := None; f_geometry := None;
                      f_properties := Some (JObj [("building_type", JNull)]) |}
  = "buildings".
Proof. reflexivity. Qed.

Example label_without_properties :
  collection_label {| f_id := None; f_geometry := None; f_properties := Some JNull |}
  = "infrastructure".
Proof. reflexivity. Qed.

End FeaturePanelFacts.

Module PortalFacts.
Import Portal.

Lemma append_empty (s : string) : "" +:+ s = s.
Proof. reflexivity. Qed.

Lemma append_String (c : ascii) (p s : string) :
  String c p +:+ s = String c (p +:+ s).
Proof. reflexivity. Qed.

Lemma substring_whole (s : string) : substring 0 (String.length s) s = s.
Proof. induction s as [| c s IHs]; simpl; [reflexivity | by rewrite IHs]. Qed.

Lemma substring_all_after (p s : string) :
  substring (String.length p) (String.length s) (p +:+ s) = s.
Proof.
  induction p as [| c p IH].
  - rewrite append_empty. apply substring_whole.
  - rewrite append_String. simpl. exact IH.
Qed.

Lemma length_app_string (p s : string) :
  String.length (p +:+ s) = String.length p + String.length s.
Proof.
  induction p as [| c p IH].
  - reflexivity.
  - rewrite append_String. simpl. by rewrite IH.
Qed.

Lemma substring_split (s : string) (k : nat) :
  k ≤ String.length s →
  s = substring 0 k s +:+ substring k (String.length s - k) s.
Proof.
  revert k. induction s as [| c s IH]; intros k Hk.
  - destruct k; simpl in *; [reflexivity | lia].
  - destruct k as [| k].
    + simpl. rewrite append_empty. f_equal. symmetry. apply substring_whole.
    + simpl in Hk. simpl. rewrite append_String. f_equal. apply IH. lia.
Qed.

(** [endsWith] holds exactly of the strings that are some stem followed by
    the suffix. *)
Lemma endsWith_spec (s suffix : string) :
  endsWith s suffix = true ↔ ∃ stem, s = stem +:+ suffix.
Proof.
  unfold endsWith. rewrite andb_true_iff, Nat.leb_le, String.eqb_eq. split.
  - intros [Hle Hsub].
    exists (substring 0 (String.length s - String.length suffix) s).
    pose proof (substring_split s (String.length s - String.length suffix)) as Hs.
    replace (String.length s - (String.length s - String.length suffix))
      with (String.length suffix) in Hs by lia.
    rewrite Hsub in Hs. apply Hs. lia.
  - intros [stem ->]. rewrite length_app_string. split; [lia |].
    replace (String.length stem + String.length suffix - String.length suffix)
      with (String.length stem) by lia.
    apply substring_all_after.
Qed.

Lemma accepted_name_spec (name : string) :
  accepted_name name = true ↔
  ∃ stem, name = stem +:+ ".geojson" ∨ name = stem +:+ ".json".
Proof.
  unfold accepted_name. rewrite orb_true_iff, !endsWith_spec. split.
  - intros [[stem H] | [stem H]]; exists stem; auto.
  - intros [stem [H | H]]; [left | right]; exists stem; exact H.
Qed.

Lemma stats_effect_no_upload (changed : bool) (st : State) :
  uploaded_files (stats_effect changed st) = [].
Proof.
  unfold stats_effect. destruct changed; [| reflexivity].
  destruct (currentOperator st); reflexivity.
Qed.

Lemma uploaded_files_app (a b : list Request) :
  uploaded_files (a ++ b) = uploaded_files a ++ uploaded_files b.
Proof. unfold uploaded_files. apply omap_app. Qed.

Lemma handleFileSelect_no_upload (file : option File) (st : State) :
  uploaded_files (handleFileSelect file st).2 = [].
Proof.
  unfold handleFileSelect. destruct file as [f |]; [| reflexivity].
  destruct (accepted_name (file_name f)); cbn [snd]; apply stats_effect_no_upload.
Qed.

Lemma handleFileSelect_checked (file : option File) (st : State) :
  selection_checked st → selection_checked (handleFileSelect file st).1.
Proof.
  intros Hinv. unfold handleFileSelect. destruct file as [f |]; [| exact Hinv].
  destruct (accepted_name (file_name f)) eqn:Hacc; simpl.
  - intros g Hg. simpl in Hg. injection Hg as <-. exact Hacc.
  - exact Hinv.
Qed.

Lemma handleImport_uploads (r : option ImportResult) (s : option Stats) (st : State) :
  selection_checked st → uploads_checked (handleImport r s st).2.
Proof.
  intros Hinv f. unfold handleImport.
  destruct (selectedFile st) as [file |] eqn:Hsel;
    destruct (currentOperator st) as [op |] eqn:Hop;
    try (cbn [snd uploaded_files omap list_omap]; by intros ?%elem_of_nil).
  assert (Hfile : accepted_name (file_name file) = true) by (apply Hinv; exact Hsel).
  destruct r as [data |]; [destruct (0 <? imported data)%Z; [destruct s |] |];
    cbn [snd]; rewrite uploaded_files_app, stats_effect_no_upload; simpl;
    intros Hf; apply list_elem_of_singleton in Hf; subst f; exact Hfile.
Qed.

Lemma handleImport_checked (r : option ImportResult) (s : option Stats) (st : State) :
  selection_checked st → selection_checked (handleImport r s st).1.
Proof.
  intros Hinv. unfold handleImport.
  destruct (selectedFile st) as [file |] eqn:Hsel;
    destruct (currentOperator st) as [op |] eqn:Hop; try exact Hinv.
  destruct r as [data |]; [destruct (0 <? imported data)%Z; [destruct s |] |];
    intros g Hg; discriminate.
Qed.

Lemma step_checked (ev : Event) (st : State) :
  selection_checked st →
  selection_checked (step ev st).1 ∧ uploads_checked (step ev st).2.
Proof.
  intros Hinv. destruct ev as [f | fs | b | r s | r | | ops | s]; simpl.
  - split; [by apply handleFileSelect_checked |].
    intros g. rewrite handleFileSelect_no_upload. by intros ?%elem_of_nil.
  - unfold handleDrop. destruct fs as [| f fs].
    + split; [exact Hinv | by intros g ?%elem_of_nil].
    + split; [by apply handleFileSelect_checked |].
      intros g. rewrite handleFileSelect_no_upload. by intros ?%elem_of_nil.
  - split; [exact Hinv | by intros g ?%elem_of_nil].
  - split; [by apply handleImport_checked | by apply handleImport_uploads].
  - unfold handleLogin. destruct r as [[op | msg] |]; simpl.
    + split; [exact Hinv |]. intros g.
      change (g ∈ uploaded_files ([PostLogin (selectedOperatorId st) (password st)] ++
                stats_effect true {| operator_list := operator_list st;
                  currentOperator := Some op; password := password st;
                  selectedOperatorId := selectedOperatorId st; loginError := "";
                  stats := stats st; importing := importing st;
                  importResult := importResult st; selectedFile := selectedFile st;
                  dragActive := dragActive st |}) → accepted_name (file_name g) = true).
      rewrite uploaded_files_app, stats_effect_no_upload. by intros ?%elem_of_nil.
    + split; [exact Hinv | by intros g ?%elem_of_nil].
    + split; [exact Hinv | by intros g ?%elem_of_nil].
  - split; [exact Hinv | by intros g ?%elem_of_nil].
  - split; [exact Hinv | by intros g ?%elem_of_nil].
  - split; [exact Hinv | by intros g ?%elem_of_nil].
Qed.

Lemma run_checked (evs : list Event) (st : State) :
  selection_checked st →
  selection_checked (run evs st).1 ∧ uploads_checked (run evs st).2.
Proof.
  revert st. induction evs as [| ev evs IH]; intros st Hinv; simpl.
  - split; [exact Hinv | by intros g ?%elem_of_nil].
  - destruct (step ev st) as [st1 sent1] eqn:Hstep.
    destruct (run evs st1) as [st2 sent2] eqn:Hrun.
    pose proof (step_checked ev st Hinv) as [H1 H1']. rewrite Hstep in H1, H1'.
    pose proof (IH st1 H1) as [H2 H2']. rewrite Hrun in H2, H2'.
    split; [exact H2 |]. simpl. intros g. rewrite uploaded_files_app, elem_of_app.
    intros [Hg | Hg]; [by apply H1' | by apply H2'].
Qed.

(** C8, as the component has it. A chosen file becomes the selected file
    exactly when its name ends in [.geojson] or [.json]; otherwise the
    selection is left alone and the result shown is total 0, imported 0,
    errors 1 with a message.  Choosing a file uploads nothing, and over a
    whole session every file that is ever uploaded has an accepted name, so
    a rejected file never reaches the server.  The rejection is not without
    a request, though: the result it sets makes the statistics effect run,
    which asks the server for the statistics of the operator logged in, if
    there is one. *)
Theorem rejected_file_never_uploaded :
  (∀ name, accepted_name name = true ↔
           ∃ stem, name = stem +:+ ".geojson" ∨ name = stem +:+ ".json")
  ∧ (∀ (f : File) (st : State),
       uploaded_files (handleFileSelect (Some f) st).2 = []
       ∧ if accepted_name (file_name f)
         then selectedFile (handleFileSelect (Some f) st).1 = Some f
              ∧ importResult (handleFileSelect (Some f) st).1 = None
         else selectedFile (handleFileSelect (Some f) st).1 = selectedFile st
              ∧ (∃ r, importResult (handleFileSelect (Some f) st).1 = Some r
                      ∧ total r = 0%Z ∧ imported r = 0%Z ∧ errors r = 1%Z
                      ∧ message r ≠ "")
              ∧ (handleFileSelect (Some f) st).2
                = match currentOperator st with
                  | Some op => [GetStats (op_id op)]
                  | None => []
                  end)
  ∧ (∀ (evs : list Event) (f : File),
       f ∈ uploaded_files (session evs).2 → accepted_name (file_name f) = true).
Proof.
  split; [exact accepted_name_spec | split].
  - intros f st. split; [apply handleFileSelect_no_upload |].
    unfold handleFileSelect. destruct (accepted_name (file_name f)); simpl.
    + split; reflexivity.
    + split; [reflexivity |].
      split; [exists rejected_result; repeat split; discriminate | reflexivity].
  - intros evs f. unfold session.
    destruct (run evs initial) as [st sent] eqn:Hrun. simpl.
    assert (Hinit : selection_checked initial) by (intros g Hg; discriminate).
    pose proof (run_checked evs initial Hinit) as [_ Hup]. rewrite Hrun in Hup.
    exact (Hup f).
Qed.

(** With an operator logged in, choosing a file whose name is rejected
    sends a request: the server is contacted, for the statistics. *)
Lemma rejected_file_refreshes_statistics :
  accepted_name (file_name bad_file) = false
  ∧ currentOperator logged_in = Some sample_operator
  ∧ (handleFileSelect (Some bad_file) logged_in).2 = [GetStats "azersu"]
  ∧ ¬ (∀ (f : File) (st : State),
         accepted_name (file_name f) = false → (handleFileSelect (Some f) st).2 = []).
Proof.
  split; [reflexivity |]. split; [reflexivity |]. split; [reflexivity |].
  intros Hnone. specialize (Hnone bad_file logged_in eq_refl). discriminate.
Qed.

Example json_name_accepted : accepted_name "pipes.geojson" = true ∧ accepted_name "a.json" = true.
Proof. split; reflexivity. Qed.

Example other_name_rejected : accepted_name "pipes.geojson.zip" = false ∧ accepted_name "json" = false.
Proof. split; reflexivity. Qed.

Example stale_selection_is_what_gets_uploaded :
  uploaded_files (session sample_session).2 = [good_file]
  ∧ (session sample_session).2
    = [GetOperatorList; PostLogin "" ""; GetStats "azersu"; GetStats "azersu";
       PostImport "azersu" good_file; GetStats "azersu"].
Proof. split; reflexivity. Qed.

Lemma rejected_file_never_uploaded_witness :
  accepted_name (file_name good_file) = true.
Proof.
  apply (proj2 (proj2 rejected_file_never_uploaded) sample_session good_file).
  rewrite (proj1 stale_selection_is_what_gets_uploaded). left.
Defined.

End PortalFacts.

Module MapFacts.
Import MapView.

Section Loaders.
Context `{rt : Runtime, lf : Leaflet}.





Lemma bind_Ok {A B} (a : A) (k : A → Exc B) : bind (Ok a) k = k a.
Proof. reflexivity. Qed.



(** **** The popups *)

Lemma shown_if_truthy_eq (v : JsVal) : shown_if_truthy v = to_primitive v.
Proof.
  unfold shown_if_truthy, to_primitive.
  destruct v as [[| [|] | q | s | l | fs] |]; simpl; try reflexivity.
  - by destruct (negb (q_is_zero q)).
  - by destruct (negb (String.eqb s "")).
Qed.

Lemma createInfraPopup_spec (props : Json) :
  createInfraPopup props
  = if converts props infra_popup_keys then Ok tt else Throw TypeError.
Proof.
  unfold createInfraPopup, converts, infra_popup_keys. rewrite !shown_if_truthy_eq.
  unfold to_primitive. cbn [forallb].
  destruct (convertible (member props "operator_color"));
    destruct (convertible (member props "category"));
    destruct (convertible (member props "status"));
    destruct (convertible (member props "infrastructure_type"));
    destruct (convertible (member props "operator"));
    destruct (convertible (member props "depth_meters"));
    destruct (convertible (member props "material")); reflexivity.
Qed.

Lemma createBuildingPopup_spec (props : Json) :
  createBuildingPopup props
  = if converts props building_popup_keys then Ok tt else Throw TypeError.
Proof.
  unfold createBuildingPopup, colour, converts, building_popup_keys.
  rewrite !shown_if_truthy_eq. unfold to_primitive. cbn [forallb].
  destruct (truthy (member props "operator_color"));
    destruct (convertible (member props "operator_color"));
    destruct (convertible (member props "building_type"));
    destruct (convertible (member props "name"));
    destruct (convertible (member props "operator"));
    destruct (convertible (member props "floors"));
    destruct (convertible (member props "year_built")); reflexivity.
Qed.


(** What a [try] block does to the group does not depend on what the group
    holds: it leaves it alone, raises, or appends one layer, and a layer is
    appended only when the popup could be built. *)
Lemma infra_try_cases (f : Feature) :
  (∀ layers, infra_try f layers = Ok layers)
  ∨ (∃ e, ∀ layers, infra_try f layers = Throw e)
  ∨ (∃ l, (∀ layers, infra_try f layers = Ok (layers ++ [l]))
          ∧ converts (props_of f) infra_popup_keys = true).
Proof.
  unfold infra_try.
  destruct (negb (truthy _)); [by left |].
  destruct (colour _ _) as [[] | e]; cbn [bind]; [| right; left; by exists e].
  destruct (type_is_and _ "LineString" _) as [[|] | e]; cbn [bind];
    [| | right; left; by exists e].
  - destruct (get _ _) as [cs | e]; cbn [bind]; [| right; left; by exists e].
    destruct (array_map _ _) as [latLngs | e]; cbn [bind]; [| right; left; by exists e].
    destruct (createInfraPopup _) as [[] | e] eqn:Hpop; cbn [bind];
      [| right; left; by exists e].
    right. right. eexists. split; [reflexivity |].
    rewrite createInfraPopup_spec in Hpop. by destruct (converts _ _).
  - destruct (type_is_and _ "Point" _) as [[|] | e]; cbn [bind];
      [| by left | right; left; by exists e].
    destruct (get _ _) as [cs | e]; cbn [bind]; [| right; left; by exists e].
    destruct (index cs 1) as [a | e]; cbn [bind]; [| right; left; by exists e].
    destruct (index cs 0) as [b | e]; cbn [bind]; [| right; left; by exists e].
    destruct (L_latLng a b) as [center | e]; cbn [bind]; [| right; left; by exists e].
    destruct (createInfraPopup _) as [[] | e] eqn:Hpop; cbn [bind];
      [| right; left; by exists e].
    right. right. eexists. split; [reflexivity |].
    rewrite createInfraPopup_spec in Hpop. by destruct (converts _ _).
Qed.

(** A [try] block only ever appends to the group. *)
Lemma infra_try_appends (f : Feature) (layers : list Layer) :
  infra_try f layers =
  match infra_try f [] with Ok l => Ok (layers ++ l) | Throw e => Throw e end.
Proof.
  destruct (infra_try_cases f) as [H | [[e H] | [l [H _]]]]; rewrite !H;
    [by rewrite app_nil_r | reflexivity | reflexivity].
Qed.

Lemma infra_callback_appends (filters : FilterState) (f : Feature) (layers : list Layer) :
  infra_callback filters f layers = Ok (layers ++ infra_layers_of filters f).
Proof.
  unfold infra_layers_of, infra_callback.
  destruct (excluded (operators filters) 1 f "operator_code"); [by rewrite app_nil_r |].
  destruct (excluded (categories filters) 1 f "category"); [by rewrite app_nil_r |].
  rewrite (infra_try_appends f layers). unfold try_catch.
  destruct (infra_try f []); by rewrite ?app_nil_r.
Qed.

Lemma forEach_appends {A} (cb : A → list Layer → Exc (list Layer))
    (one : A → list Layer) (xs : list A) (layers : list Layer) :
  (∀ x ls, cb x ls = Ok (ls ++ one x)) →
  forEach cb xs layers = Ok (layers ++ flat_map one xs).
Proof.
  intros Hcb. revert layers. induction xs as [| x xs IH]; intros layers; simpl.
  - by rewrite app_nil_r.
  - rewrite Hcb, bind_Ok, IH. by rewrite <- app_assoc.
Qed.

(** The infrastructure pass returns normally, and what it puts on the group
    is, feature by feature and in order, what each feature gives alone. *)
Lemma loadInfrastructure_then_flat (filters : FilterState) (features : list Feature) :
  loadInfrastructure_then filters features
  = Ok (flat_map (infra_layers_of filters) features).
Proof.
  unfold loadInfrastructure_then.
  rewrite (forEach_appends _ (infra_layers_of filters)); [reflexivity |].
  intros x ls. apply infra_callback_appends.
Qed.





Lemma building_try_cases (f : Feature) :
  (∀ layers, building_try f layers = Ok layers)
  ∨ (∃ e, ∀ layers, building_try f layers = Throw e)
  ∨ (∃ l, (∀ layers, building_try f layers = Ok (layers ++ [l]))
          ∧ converts (props_of f) building_popup_keys = true).
Proof.
  unfold building_try.
  destruct (negb (truthy _)); [by left |].
  destruct (colour _ _) as [[] | e]; cbn [bind]; [| right; left; by exists e].
  destruct (type_is_and _ "Polygon" _) as [[|] | e]; cbn [bind];
    [| | right; left; by exists e].
  - destruct (get _ _) as [cs | e]; cbn [bind]; [| right; left; by exists e].
    destruct (index cs 0) as [ring | e]; cbn [bind]; [| right; left; by exists e].
    destruct (array_map _ _) as [latLngs | e]; cbn [bind]; [| right; left; by exists e].
    destruct (createBuildingPopup _) as [[] | e] eqn:Hpop; cbn [bind];
      [| right; left; by exists e].
    right. right. eexists. split; [reflexivity |].
    rewrite createBuildingPopup_spec in Hpop. by destruct (converts _ _).
  - destruct (type_is_and _ "Point" _) as [[|] | e]; cbn [bind];
      [| by left | right; left; by exists e].
    destruct (get _ _) as [cs | e]; cbn [bind]; [| right; left; by exists e].
    destruct (index cs 1) as [a | e]; cbn [bind]; [| right; left; by exists e].
    destruct (index cs 0) as [b | e]; cbn [bind]; [| right; left; by exists e].
    destruct (L_latLng a b) as [center | e]; cbn [bind]; [| right; left; by exists e].
    destruct (createBuildingPopup _) as [[] | e] eqn:Hpop; cbn [bind];
      [| right; left; by exists e].
    right. right. eexists. split; [reflexivity |].
    rewrite createBuildingPopup_spec in Hpop. by destruct (converts _ _).
Qed.

Lemma building_try_appends (f : Feature) (layers : list Layer) :
  building_try f layers =
  match building_try f [] with Ok l => Ok (layers ++ l) | Throw e => Throw e end.
Proof.
  destruct (building_try_cases f) as [H | [[e H] | [l [H _]]]]; rewrite !H;
    [by rewrite app_nil_r | reflexivity | reflexivity].
Qed.

Lemma building_callback_appends (filters : FilterState) (f : Feature) (layers : list Layer) :
  building_callback filters f layers = Ok (layers ++ building_layers_of filters f).
Proof.
  unfold building_layers_of, building_callback.
  destruct (excluded (operators filters) 0 f "operator_code"); [by rewrite app_nil_r |].
  rewrite (building_try_appends f layers). unfold try_catch.
  destruct (building_try f []); by rewrite ?app_nil_r.
Qed.

Lemma loadBuildings_then_flat (filters : FilterState) (features : list Feature) :
  loadBuildings_then filters features
  = Ok (flat_map (building_layers_of filters) features).
Proof.
  unfold loadBuildings_then.
  rewrite (forEach_appends _ (building_layers_of filters)); [reflexivity |].
  intros x ls. apply building_callback_appends.
Qed.





Lemma infra_layers_of_excluded (filters : FilterState) (f : Feature) :
  excluded (operators filters) 1 f "operator_code" = true
  ∨ excluded (categories filters) 1 f "category" = true →
  infra_layers_of filters f = [].
Proof.
  unfold infra_layers_of, infra_callback. intros [-> | Hc]; [reflexivity |].
  rewrite Hc. by destruct (excluded (operators filters) 1 f "operator_code").
Qed.

Lemma excluded_false (selected : list string) (n : nat) (f : Feature) (key : string) :
  excluded selected n f key = false →
  n < length selected →
  ∃ s, get_opt (f_properties f) key = Some (JStr s) ∧ s ∈ selected.
Proof.
  unfold excluded. intros Hex Hn.
  apply Nat.ltb_lt in Hn. rewrite Hn in Hex. cbn [andb] in Hex.
  apply negb_false_iff in Hex. unfold includes in Hex.
  destruct (get_opt (f_properties f) key) as [[| | | s | |] |]; try discriminate.
  exists s. split; [reflexivity |]. by apply bool_decide_eq_true_1 in Hex.
Qed.

Lemma infra_params_operator (filters : FilterState) (o : string) :
  In ("operator", o) (infra_params filters) ↔ operators filters = [o].
Proof.
  unfold infra_params.
  destruct (categories filters) as [| c [| c' cs]],
           (operators filters) as [| o0 [| o' os]]; simpl;
    split; intros H; repeat (destruct H as [H | H]); try discriminate; try done;
    try (injection H as ->; reflexivity); try (injection H as ->; auto).
Qed.

Lemma infra_params_category (filters : FilterState) (c : string) :
  In ("category", c) (infra_params filters) ↔ categories filters = [c].
Proof.
  unfold infra_params.
  destruct (categories filters) as [| c0 [| c' cs]],
           (operators filters) as [| o [| o' os]]; simpl;
    split; intros H; repeat (destruct H as [H | H]); try discriminate; try done;
    try (injection H as ->; reflexivity); try (injection H as ->; auto).
Qed.

(** C2. In the infrastructure loader a feature is drawn only if, when more
    than one operator is selected, its [operator_code] is a selected
    operator, and when more than one category is selected, its [category] is
    a selected category.  With the layer switched on the loader sends one
    request, whose query string carries an [operator] (resp. [category])
    parameter exactly when a single operator (resp. category) is selected,
    with that value; and the callback then treats every feature as it
    would with no operator (resp. category) selected. *)
Theorem infra_selection_filter (filters : FilterState) (features : list Feature) :
  (∀ layer layers,
     loadInfrastructure_then filters features = Ok layers → layer ∈ layers →
     ∃ f, f ∈ features ∧ layer ∈ infra_layers_of filters f
          ∧ (1 < length (operators filters) →
             ∃ s, get_opt (f_properties f) "operator_code" = Some (JStr s)
                  ∧ s ∈ operators filters)
          ∧ (1 < length (categories filters) →
             ∃ s, get_opt (f_properties f) "category" = Some (JStr s)
                  ∧ s ∈ categories filters))
  ∧ (showInfrastructure filters = true →
     ∃ params,
       loadInfrastructure_request filters = Some params
       ∧ In ("limit", "1000") params
       ∧ (∀ o, In ("operator", o) params ↔ operators filters = [o])
       ∧ (∀ c, In ("category", c) params ↔ categories filters = [c]))
  ∧ (showInfrastructure filters = false → loadInfrastructure_request filters = None)
  ∧ (∀ o, operators filters = [o] →
       ∀ f layers, infra_callback filters f layers
                   = infra_callback (with_operators [] filters) f layers)
  ∧ (∀ c, categories filters = [c] →
       ∀ f layers, infra_callback filters f layers
                   = infra_callback (with_categories [] filters) f layers).
Proof.
  split; [| split; [| split; [| split]]].
  - intros layer layers Hload Hin.
    rewrite loadInfrastructure_then_flat in Hload. injection Hload as <-.
    apply list_elem_of_In, in_flat_map in Hin as [f [Hf Hl]].
    exists f. split; [by apply list_elem_of_In |]. split; [by apply list_elem_of_In |].
    destruct (excluded (operators filters) 1 f "operator_code") eqn:Ho.
    { rewrite infra_layers_of_excluded in Hl by auto. destruct Hl. }
    destruct (excluded (categories filters) 1 f "category") eqn:Hc.
    { rewrite infra_layers_of_excluded in Hl by auto. destruct Hl. }
    split; intros Hlen; eapply excluded_false; eauto.
  - intros Hshow. exists (infra_params filters).
    unfold loadInfrastructure_request. rewrite Hshow. split; [reflexivity |].
    split; [by left |].
    split; [apply infra_params_operator | apply infra_params_category].
  - intros Hshow. unfold loadInfrastructure_request. by rewrite Hshow.
  - intros o Ho f layers. unfold infra_callback, excluded, with_operators.
    rewrite Ho. reflexivity.
  - intros c Hc f layers. unfold infra_callback, excluded, with_categories.
    rewrite Hc. reflexivity.
Qed.








End Loaders.

Lemma infra_selection_filter_witness :
  (∃ f, f ∈ [sample_line "delta"; sample_line "azersu"]
        ∧ sample_polyline "azersu"
          ∈ infra_layers_of (rt := plain_runtime) (lf := numeric_leaflet)
              (select_operators ["aztelekom"; "azersu"]) f
        ∧ (1 < length (operators (select_operators ["aztelekom"; "azersu"])) →
           ∃ s, get_opt (f_properties f) "operator_code" = Some (JStr s)
                ∧ s ∈ operators (select_operators ["aztelekom"; "azersu"]))
        ∧ (1 < length (categories (select_operators ["aztelekom"; "azersu"])) →
           ∃ s, get_opt (f_properties f) "category" = Some (JStr s)
                ∧ s ∈ categories (select_operators ["aztelekom"; "azersu"])))
  ∧ (∃ params,
       loadInfrastructure_request (select_operators ["azersu"]) = Some params
       ∧ In ("limit", "1000") params
       ∧ (∀ o, In ("operator", o) params
               ↔ operators (select_operators ["azersu"]) = [o])
       ∧ (∀ c, In ("category", c) params
               ↔ categories (select_operators ["azersu"]) = [c]))
  ∧ infra_callback (rt := plain_runtime) (lf := numeric_leaflet)
      (select_operators ["azersu"]) (sample_line "delta") []
    = infra_callback (rt := plain_runtime) (lf := numeric_leaflet)
        (with_operators [] (select_operators ["azersu"])) (sample_line "delta") [].
Proof.
  split; [| split].
  - apply (proj1 (infra_selection_filter (rt := plain_runtime) (lf := numeric_leaflet)
                    (select_operators ["aztelekom"; "azersu"])
                    [sample_line "delta"; sample_line "azersu"])
             (sample_polyline "azersu") [sample_polyline "azersu"]).
    + reflexivity.
    + left.
  - apply (proj1 (proj2 (infra_selection_filter (rt := plain_runtime)
                           (lf := numeric_leaflet) (select_operators ["azersu"]) []))).
    reflexivity.
  - apply (proj1 (proj2 (proj2 (proj2
             (infra_selection_filter (rt := plain_runtime) (lf := numeric_leaflet)
                (select_operators ["azersu"]) []))))
             "azersu" eq_refl (sample_line "delta") []).
Defined.

Example two_operators_filter_client_side :
  loadInfrastructure_then (rt := plain_runtime) (lf := numeric_leaflet)
    (select_operators ["aztelekom"; "azersu"])
    [sample_line "delta"; sample_line "azersu"]
  = Ok [{| shape := Polyline
             [{| lat := Some (JNum (40369 # 1000)); lng := Some (JNum (49837 # 1000)) |};
              {| lat := Some (JNum (40370 # 1000)); lng := Some (JNum (49838 # 1000)) |}];
           props := JObj [("operator_code", JStr "azersu"); ("category", JStr "water")] |}]
  ∧ infra_params (select_operators ["aztelekom"; "azersu"]) = [("limit", "1000")].
Proof. split; reflexivity. Qed.



(** Entries that are [null] where positions are expected make [c[1]] raise;
    the [try] block swallows it and the feature is left out, under any
    Leaflet and with nothing selected. *)
Example null_positions_are_caught :
  infra_defect (rt := plain_runtime) null_positions_line = false
  ∧ ∀ lf : Leaflet,
      infra_try (rt := plain_runtime) null_positions_line [] = Throw TypeError
      ∧ loadInfrastructure_then (rt := plain_runtime) (select_operators [])
          [null_positions_line; sample_line "azersu"]
        = Ok (infra_layers_of (rt := plain_runtime) (select_operators [])
                (sample_line "azersu")).
Proof.
  split; [reflexivity |]. intros lf. split; [reflexivity |].
  rewrite loadInfrastructure_then_flat. simpl. by rewrite app_nil_r.
Qed.

(** A cable of two good positions whose [category] has no primitive value:
    looking the colour up raises, the [try] block swallows it, and the
    cable is left out although it has none of the listed defects. *)
Example odd_category_is_caught :
  infra_defect (rt := plain_runtime) odd_category_line = false
  ∧ infra_try (rt := plain_runtime) (lf := numeric_leaflet) odd_category_line []
    = Throw TypeError
  ∧ loadInfrastructure_then (rt := plain_runtime) (lf := numeric_leaflet)
      (select_operators []) [odd_category_line; sample_line "azersu"]
    = Ok [sample_polyline "azersu"].
Proof. repeat split; reflexivity. Qed.

End MapFacts.

Module SchemaFacts.
Import Schema.

(** **** Outcomes *)

Lemma for_each_accepted {A B} (f : A → Outcome B) (xs : list A) (ys : list B) :
  for_each f xs = Accepted ys → Forall2 (λ x y, f x = Accepted y) xs ys.
Proof.
  revert ys. induction xs as [| x xs IH]; intros ys; simpl.
  - intros [= <-]. constructor.
  - destruct (f x) as [y | e] eqn:Hx; [| discriminate]. simpl.
    destruct (for_each f xs) as [ys' | e]; [| discriminate]. simpl.
    intros [= <-]. constructor; [exact Hx | by apply IH].
Qed.

Lemma for_each_rejected {A B} (f : A → Outcome B) (xs : list A) (x : A) (e : SqlError) :
  In x xs → f x = Rejected e → ∃ e', for_each f xs = Rejected e'.
Proof.
  intros Hin Hx. induction xs as [| y xs IH]; [destruct Hin |]. simpl.
  destruct Hin as [-> | Hin].
  - rewrite Hx. by eexists.
  - destruct (f y); [| by eexists]. simpl.
    destruct (IH Hin) as [e' ->]. by eexists.
Qed.

(** **** Storing values *)

Lemma characters_first (n : nat) (s : string) : characters (first_characters n s) ≤ n.
Proof.
  revert n. induction s as [| c s IH]; intros n; simpl; [lia |].
  destruct (continuation c) eqn:Hc; simpl.
  - rewrite Hc. simpl. apply IH.
  - destruct n as [| n]; simpl; [lia |]. rewrite Hc. specialize (IH n). lia.
Qed.


Lemma store_varchar_fits (n : nat) (s : string) :
  characters s ≤ n → store_varchar n s = Accepted (VText s).
Proof. intros H. unfold store_varchar. apply Nat.leb_le in H. by rewrite H. Qed.

Lemma store_varchar_conforms (n : nat) (s : string) (v : Value) :
  store_varchar n s = Accepted v → ∃ s', v = VText s' ∧ characters s' ≤ n.
Proof.
  unfold store_varchar. destruct (Nat.leb_spec (characters s) n) as [Hle | Hgt].
  - intros [= <-]. by exists s.
  - destruct (all_spaces _); [| discriminate]. intros [= <-].
    exists (first_characters n s). split; [reflexivity | apply characters_first].
Qed.

Lemma store_geometry_conforms (ty : option GeomType) (cs : Z) (g : Geometry) (v : Value) :
  store_geometry ty cs g = Accepted v →
  ∃ g', v = VGeom g' ∧ conforms (TGeometry ty cs) v = true
        ∧ coordinates g' = coordinates g ∧ gtype g' = gtype g.
Proof.
  unfold store_geometry.
  set (g1 := if (0 <? cs)%Z && (srid g =? 0)%Z then set_srid cs g else g).
  assert (Hg1 : coordinates g1 = coordinates g ∧ gtype g1 = gtype g)
    by (subst g1; destruct (_ && _); by split).
  destruct ((0 <? cs)%Z && negb (srid g1 =? cs)%Z) eqn:Hs; [discriminate |].
  assert (Hsrid : negb (0 <? cs)%Z || (srid g1 =? cs)%Z = true).
  { destruct (0 <? cs)%Z; [| reflexivity]. simpl in *. by apply negb_false_iff. }
  destruct ty as [t |].
  - destruct (geomtype_eqb t (gtype g1)) eqn:Ht; [| discriminate].
    intros [= <-]. exists g1. split; [reflexivity |].
    split; [| exact Hg1]. simpl. by rewrite Hsrid, Ht.
  - intros [= <-]. exists g1. split; [reflexivity |].
    split; [| exact Hg1]. simpl. by rewrite Hsrid.
Qed.

Lemma store_conforms (ty : SqlType) (v v' : Value) :
  store ty v = Accepted v' → conforms ty v' = true.
Proof.
  destruct v, ty; simpl; try discriminate; try (by intros [= <-]).
  - intros (s' & -> & Hlen)%store_varchar_conforms. simpl. by apply Nat.leb_le.
  - destruct (in_range 32 z); [by intros [= <-] | discriminate].
  - destruct (in_range 64 z); [by intros [= <-] | discriminate].
  - unfold store_decimal. destruct (_ <? _)%Z; [by intros [= <-] | discriminate].
  - unfold store_decimal. destruct (_ <? _)%Z; [by intros [= <-] | discriminate].
  - intros (g' & -> & Hc & _)%store_geometry_conforms. exact Hc.
Qed.

Lemma store_cell_ok (c : Column) (v : Value) (kv : string * Value) :
  store_cell c v = Accepted kv → kv.1 = col_name c ∧ cell_ok c kv.2 = true.
Proof.
  unfold store_cell. destruct (store (col_type c) v) as [v' | e] eqn:Hst; [| discriminate].
  simpl. destruct (col_not_null c && is_null v') eqn:Hnn; [discriminate |].
  intros [= <-]. split; [reflexivity |]. unfold cell_ok. simpl.
  by rewrite (store_conforms _ _ _ Hst), Hnn.
Qed.

(** **** Rows *)

Lemma existsb_eqb_false (n : string) (names : list string) :
  existsb (String.eqb n) names = false → ∀ m, In m names → String.eqb m n = false.
Proof.
  intros Hex m Hin. destruct (String.eqb m n) eqn:Heq; [| reflexivity].
  apply String.eqb_eq in Heq as ->.
  assert (existsb (String.eqb n) names = true) as Hc; [| congruence].
  apply existsb_exists. exists n. split; [exact Hin | apply String.eqb_refl].
Qed.

(** A row built column by column holds, under each column's name, the value
    built for that column. *)
Lemma built_row_cells (P : Column → Value → Prop) (cols : list Column) (r : Row) :
  Forall2 (λ c kv, kv.1 = col_name c ∧ P c kv.2) cols r →
  names_distinct (map col_name cols) = true →
  ∀ c, In c cols → P c (cell r (col_name c)).
Proof.
  induction 1 as [| c0 [n v] cols r [Hn Hv] Hrest IH]; intros Hd c Hin; [destruct Hin |].
  simpl in Hn, Hv, Hd. subst n. apply andb_true_iff in Hd as [Hhead Hd].
  apply negb_true_iff in Hhead. simpl. destruct Hin as [-> | Hin].
  - rewrite String.eqb_refl. exact Hv.
  - rewrite (existsb_eqb_false _ _ Hhead (col_name c)) by (apply in_map; exact Hin).
    by apply IH.
Qed.

Lemma row_ok_of_cells (cols : list Column) (r : Row) :
  (∀ c, In c cols → cell_ok c (cell r (col_name c)) = true) → row_ok cols r = true.
Proof. intros H. apply forallb_forall. exact H. Qed.

Lemma row_ok_cell (cols : list Column) (r : Row) (c : Column) :
  row_ok cols r = true → In c cols → cell_ok c (cell r (col_name c)) = true.
Proof. intros H Hin. exact (proj1 (forallb_forall _ _) H c Hin). Qed.

Lemma inserted_row_ok (env : Env) (cols : list Column) (assign : list (string * Value))
    (r : Row) :
  names_distinct (map col_name cols) = true →
  inserted_row env cols assign = Accepted r → row_ok cols r = true.
Proof.
  intros Hd. unfold inserted_row. destruct (known_columns cols assign); [| discriminate].
  intros Hr%for_each_accepted. apply row_ok_of_cells.
  apply (built_row_cells (λ c v, cell_ok c v = true)); [| exact Hd].
  eapply Forall2_impl; [exact Hr |]. intros c kv Hkv. by apply store_cell_ok in Hkv.
Qed.

Lemma updated_row_ok (env : Env) (def : TableDef) (assign : list (string * Value))
    (old r : Row) :
  names_distinct (map col_name (columns def)) = true →
  row_ok (columns def) old = true →
  updated_row env def assign old = Accepted r → row_ok (columns def) r = true.
Proof.
  intros Hd Hold. unfold updated_row.
  destruct (known_columns (columns def) assign); [| discriminate].
  intros Hr%for_each_accepted. apply row_ok_of_cells.
  apply (built_row_cells (λ c v, cell_ok c v = true)); [| exact Hd].
  apply Forall2_same_length_lookup. split; [by eapply Forall2_length |].
  intros i c kv Hc Hkv.
  pose proof (Forall2_lookup_lr _ _ _ _ _ _ Hr Hc Hkv) as Hcell. simpl in Hcell.
  destruct (update_timestamp_trigger def && String.eqb (col_name c) "updated_at").
  { by apply store_cell_ok in Hcell. }
  destruct (assigned assign (col_name c)) as [v |].
  { by apply store_cell_ok in Hcell. }
  injection Hcell as <-. split; [reflexivity |]. simpl.
  apply (row_ok_cell _ _ _ Hold). apply list_elem_of_In.
  by eapply list_elem_of_lookup_2.
Qed.

(** **** Uniqueness *)

Lemma value_eqb_sym (a b : Value) : value_eqb a b = value_eqb b a.
Proof.
  destruct a, b; simpl; try reflexivity; try apply String.eqb_sym.
  - apply Z.eqb_sym.
  - unfold Qeq_bool. apply Z.eqb_sym.
Qed.

Lemma unique_against_app (cols : list Column) (rows : list Row) (r0 r : Row) :
  unique_against cols rows r0 = true →
  unique_against cols [r] r0 = true →
  unique_against cols (rows ++ [r]) r0 = true.
Proof.
  unfold unique_against. rewrite !forallb_forall. intros H1 H2 c Hc.
  specialize (H1 c Hc). specialize (H2 c Hc).
  destruct (negb (col_unique c)); [reflexivity |].
  destruct (is_null (cell r0 (col_name c))); [reflexivity |]. simpl in *.
  rewrite forallb_app, H1. simpl. exact H2.
Qed.

Lemma unique_against_flip (cols : list Column) (rows : list Row) (r r0 : Row) :
  unique_against cols rows r = true → In r0 rows → unique_against cols [r] r0 = true.
Proof.
  unfold unique_against. rewrite !forallb_forall. intros H Hin c Hc.
  specialize (H c Hc). destruct (negb (col_unique c)); [reflexivity |].
  destruct (is_null (cell r0 (col_name c))); [reflexivity |]. simpl in *.
  rewrite andb_true_r.
  destruct (is_null (cell r (col_name c))) eqn:Hnull; simpl in H.
  - destruct (cell r (col_name c)); try discriminate. reflexivity.
  - rewrite forallb_forall in H. rewrite value_eqb_sym. exact (H r0 Hin).
Qed.

Lemma all_unique_snoc (cols : list Column) (rows : list Row) (r : Row) :
  all_unique cols rows = true → unique_against cols rows r = true →
  all_unique cols (rows ++ [r]) = true.
Proof.
  induction rows as [| r0 rows IH]; simpl; intros Hall Hr.
  - unfold unique_against. rewrite andb_true_r. apply forallb_forall. intros c _.
    simpl. by rewrite !orb_true_r.
  - apply andb_true_iff in Hall as [H0 Hall].
    assert (Hr' : unique_against cols rows r = true).
    { revert Hr. unfold unique_against. rewrite !forallb_forall. intros Hr c Hc.
      specialize (Hr c Hc). destruct (negb (col_unique c)); [reflexivity |].
      destruct (is_null (cell r (col_name c))); [reflexivity |]. simpl in *.
      by apply andb_true_iff in Hr as [_ Hr]. }
    apply andb_true_iff. split; [| by apply IH].
    apply unique_against_app; [exact H0 |].
    apply (unique_against_flip cols (r0 :: rows) r r0 Hr). by left.
Qed.

Lemma unique_against_incl (cols : list Column) (rows rows' : list Row) (r : Row) :
  incl rows' rows → unique_against cols rows r = true → unique_against cols rows' r = true.
Proof.
  unfold unique_against. rewrite !forallb_forall. intros Hincl H c Hc.
  specialize (H c Hc). destruct (negb (col_unique c)); [reflexivity |].
  destruct (is_null (cell r (col_name c))); [reflexivity |]. simpl in *.
  rewrite forallb_forall in H |- *. intros r' Hr'. apply H, Hincl, Hr'.
Qed.

Lemma all_unique_filter (cols : list Column) (keep : Row → bool) (rows : list Row) :
  all_unique cols rows = true → all_unique cols (List.filter keep rows) = true.
Proof.
  induction rows as [| r rows IH]; simpl; [done |].
  intros [Hr Hall]%andb_true_iff. destruct (keep r); simpl; [| by apply IH].
  apply andb_true_iff. split; [| by apply IH].
  eapply unique_against_incl; [| exact Hr]. apply incl_filter.
Qed.

(** In a table whose rows are pairwise unique, two rows at different places
    differ in every unique column that is not null. *)
Lemma all_unique_distinct (cols : list Column) (rows : list Row) (c : Column)
    (i j : nat) (r1 r2 : Row) :
  all_unique cols rows = true → In c cols → col_unique c = true →
  rows !! i = Some r1 → rows !! j = Some r2 → i < j →
  is_null (cell r1 (col_name c)) = false →
  value_eqb (cell r2 (col_name c)) (cell r1 (col_name c)) = false.
Proof.
  revert i j. induction rows as [| r rows IH]; intros i j Hall Hc Hu H1 H2 Hij Hnn.
  - discriminate.
  - simpl in Hall. apply andb_true_iff in Hall as [Hr Hall].
    destruct i as [| i], j as [| j]; try lia.
    + simpl in H1, H2. injection H1 as ->.
      unfold unique_against in Hr. rewrite forallb_forall in Hr.
      specialize (Hr c Hc). rewrite Hu, Hnn in Hr. simpl in Hr.
      rewrite forallb_forall in Hr. apply negb_true_iff, Hr.
      apply list_elem_of_In. by eapply list_elem_of_lookup_2.
    + simpl in H1, H2. apply (IH i j); auto. lia.
Qed.

(** **** Database states *)

Lemma rows_of_insert (db : Database) (table table' : string) (rows : list Row) :
  rows_of (<[table := rows]> db) table'
  = if decide (table = table') then rows else rows_of db table'.
Proof.
  unfold rows_of. rewrite lookup_insert. by destruct (decide (table = table')).
Qed.

Lemma table_def_columns_distinct (table : string) (def : TableDef) :
  table_def table = Some def → names_distinct (map col_name (columns def)) = true.
Proof.
  unfold table_def, catalog. simpl.
  repeat (destruct (String.eqb table _); [intros [= <-]; reflexivity |]).
  discriminate.
Qed.

Lemma checked_accepted (db db' : Database) : checked db = Accepted db' → db' = db.
Proof. unfold checked. destruct (foreign_keys_hold db); [by intros [= <-] | discriminate]. Qed.

Lemma db_ok_replace (db : Database) (table : string) (def : TableDef) (rows : list Row) :
  db_ok db → table_def table = Some def → table_ok def rows = true →
  db_ok (<[table := rows]> db).
Proof.
  intros Hdb Hdef Hrows t d Ht. rewrite rows_of_insert.
  destruct (decide (table = t)) as [<- | Hne]; [| by apply Hdb].
  rewrite Hdef in Ht. injection Ht as <-. exact Hrows.
Qed.

Lemma updated_rows_ok (env : Env) (def : TableDef) (where_ : Row → bool)
    (assign : list (string * Value)) (rows rows' : list Row) :
  names_distinct (map col_name (columns def)) = true →
  forallb (row_ok (columns def)) rows = true →
  for_each (λ r, if where_ r then updated_row env def assign r else Accepted r) rows
    = Accepted rows' →
  forallb (row_ok (columns def)) rows' = true.
Proof.
  intros Hd Hok Hr%for_each_accepted. induction Hr as [| r r' rows rows' Hr _ IH]; [done |].
  simpl in Hok |- *. apply andb_true_iff in Hok as [Hr0 Hok].
  apply andb_true_iff. split; [| by apply IH].
  destruct (where_ r); [by eapply updated_row_ok | by injection Hr as <-].
Qed.

(** Every accepted statement leaves every table within its declared
    constraints. *)
Lemma execute_db_ok (env : Env) (stmt : Statement) (db db' : Database) :
  db_ok db → execute env stmt db = Accepted db' → db_ok db'.
Proof.
  intros Hdb. destruct stmt as [table assign | table where_ assign | table where_]; simpl;
    destruct (table_def table) as [def |] eqn:Hdef; try discriminate.
  - destruct (inserted_row env (columns def) assign) as [r | e] eqn:Hrow; [| discriminate].
    simpl. destruct (unique_against _ _ r) eqn:Hu; [| discriminate].
    intros ->%checked_accepted. apply (db_ok_replace db table def); auto.
    pose proof (Hdb table def Hdef) as [Hrows Hall]%andb_true_iff.
    apply andb_true_iff. split.
    + rewrite forallb_app, Hrows. simpl. rewrite andb_true_r.
      eapply inserted_row_ok; [| exact Hrow]. by eapply table_def_columns_distinct.
    + by apply all_unique_snoc.
  - destruct (for_each _ (rows_of db table)) as [rows' | e] eqn:Hrows'; [| discriminate].
    simpl. destruct (all_unique (columns def) rows') eqn:Hu; [| discriminate].
    intros ->%checked_accepted. apply (db_ok_replace db table def); auto.
    pose proof (Hdb table def Hdef) as [Hrows _]%andb_true_iff.
    apply andb_true_iff. split; [| exact Hu].
    eapply updated_rows_ok; [| exact Hrows | exact Hrows'].
    by eapply table_def_columns_distinct.
  - intros ->%checked_accepted. apply (db_ok_replace db table def); auto.
    pose proof (Hdb table def Hdef) as [Hrows Hall]%andb_true_iff.
    apply andb_true_iff. split; [| by apply all_unique_filter].
    apply forallb_forall. intros r [Hr _]%filter_In.
    exact (proj1 (forallb_forall _ _) Hrows r Hr).
Qed.

Lemma apply_statement_db_ok (db : Database) (s : Env * Statement) :
  db_ok db → db_ok (apply_statement db s).
Proof.
  intros Hdb. unfold apply_statement.
  destruct (execute s.1 s.2 db) eqn:Hex; [by eapply execute_db_ok | exact Hdb].
Qed.

Lemma created_db_ok : db_ok created.
Proof. intros t d _. reflexivity. Qed.

Lemma run_statements_db_ok (script : list (Env * Statement)) (db : Database) :
  db_ok db → db_ok (run_statements script db).
Proof.
  revert db. induction script as [| s script IH]; intros db Hdb; [exact Hdb |].
  simpl. apply IH. by apply apply_statement_db_ok.
Qed.

(** What the constraints of a table say of one of its rows and columns. *)
Lemma stored_cell_ok (db : Database) (table : string) (def : TableDef) (c : Column)
    (r : Row) :
  db_ok db → table_def table = Some def → In c (columns def) →
  In r (rows_of db table) → cell_ok c (cell r (col_name c)) = true.
Proof.
  intros Hdb Hdef Hc Hr.
  pose proof (Hdb table def Hdef) as [Hrows _]%andb_true_iff.
  apply (row_ok_cell (columns def)); [| exact Hc].
  exact (proj1 (forallb_forall _ _) Hrows r Hr).
Qed.

Lemma varchar_cell (n : nat) (nn u : bool) (name : string) (d : DefaultExpr)
    (refs : option (string * string)) (v : Value) :
  cell_ok {| col_name := name; col_type := TVarchar n; col_not_null := nn;
             col_unique := u; col_default := d; col_references := refs |} v = true →
  (nn = false ∧ v = VNull) ∨ ∃ s, v = VText s ∧ characters s ≤ n.
Proof.
  unfold cell_ok. simpl. intros [Hc Hn]%andb_true_iff.
  destruct v; try discriminate.
  - left. split; [| reflexivity]. destruct nn; [discriminate | reflexivity].
  - right. exists s. split; [reflexivity | by apply Nat.leb_le].
Qed.

Lemma geometry_cell (t : option GeomType) (name : string) (v : Value) :
  cell_ok (not_null name (TGeometry t 4326)) v = true →
  ∃ g, v = VGeom g ∧ srid g = 4326%Z
       ∧ match t with Some t' => gtype g = t' | None => True end.
Proof.
  unfold cell_ok. simpl. intros [Hc Hn]%andb_true_iff.
  destruct v; try discriminate. exists g. split; [reflexivity |].
  simpl in Hc. apply andb_true_iff in Hc as [Hs Ht]. split; [by apply Z.eqb_eq |].
  destruct t as [t' |]; [| exact I].
  destruct t', (gtype g); try discriminate; reflexivity.
Qed.

(** **** The feature tables *)

Lemma feature_row_identified (db : Database) (table : string) (def : TableDef)
    (t : option GeomType) (r : Row) :
  db_ok db → table_def table = Some def →
  In (unique_not_null "stac_id" (TVarchar 255)) (columns def) →
  In (not_null "geometry" (TGeometry t 4326)) (columns def) →
  In r (rows_of db table) →
  identified_and_located r
  ∧ match t with
    | Some t' => ∃ g, cell r "geometry" = VGeom g ∧ gtype g = t' ∧ srid g = 4326%Z
    | None => True
    end.
Proof.
  intros Hdb Hdef Hid Hgeom Hr.
  pose proof (stored_cell_ok db table def _ r Hdb Hdef Hid Hr) as Hs.
  pose proof (stored_cell_ok db table def _ r Hdb Hdef Hgeom Hr) as Hg.
  apply varchar_cell in Hs as [[Hf _] | [s [Hs _]]]; [discriminate |].
  apply geometry_cell in Hg as [g [Hg [Hsrid Hty]]]. simpl in Hs, Hg.
  split; [split; [by exists s | by exists g] |].
  destruct t as [t' |]; [| exact I]. by exists g.
Qed.

Lemma feature_rows_distinct (db : Database) (table : string) (def : TableDef) :
  db_ok db → table_def table = Some def →
  In (unique_not_null "stac_id" (TVarchar 255)) (columns def) →
  stac_ids_distinct (rows_of db table).
Proof.
  intros Hdb Hdef Hid i j r1 r2 H1 H2 Hij Heq.
  pose proof (Hdb table def Hdef) as [_ Hall]%andb_true_iff.
  assert (Hnn : ∀ k r, rows_of db table !! k = Some r → ∃ s, cell r "stac_id" = VText s).
  { intros k r Hk.
    assert (Hr : In r (rows_of db table))
      by (apply list_elem_of_In; by eapply list_elem_of_lookup_2).
    pose proof (stored_cell_ok db table def _ r Hdb Hdef Hid Hr) as Hs.
    apply varchar_cell in Hs as [[Hf _] | [s [Hs _]]]; [discriminate | by exists s]. }
  destruct (Hnn i r1 H1) as [s1 Hs1]. destruct (Hnn j r2 H2) as [s2 Hs2].
  assert (Hs : s1 = s2) by congruence. subst s2.
  assert (Hlt : i < j ∨ j < i) by lia. destruct Hlt as [Hlt | Hlt].
  - pose proof (all_unique_distinct _ _ _ i j r1 r2 Hall Hid eq_refl H1 H2 Hlt) as Hd.
    simpl in Hd. rewrite Hs1, Hs2 in Hd. simpl in Hd.
    rewrite String.eqb_refl in Hd. by specialize (Hd eq_refl).
  - pose proof (all_unique_distinct _ _ _ j i r2 r1 Hall Hid eq_refl H2 H1 Hlt) as Hd.
    simpl in Hd. rewrite Hs1, Hs2 in Hd. simpl in Hd.
    rewrite String.eqb_refl in Hd. by specialize (Hd eq_refl).
Qed.

(** C5. In every state the database can reach from the created schema,
    whatever statements were run, each row of [urban.infrastructure] and of
    [urban.buildings] has a non-null [stac_id] and a non-null geometry of
    SRID 4326, and no two rows of a table share a [stac_id]. *)
Theorem features_identified_and_located (script : list (Env * Statement)) :
  (∀ r, In r (rows_of (run_statements script created) "infrastructure") →
        identified_and_located r)
  ∧ stac_ids_distinct (rows_of (run_statements script created) "infrastructure")
  ∧ (∀ r, In r (rows_of (run_statements script created) "buildings") →
          identified_and_located r)
  ∧ stac_ids_distinct (rows_of (run_statements script created) "buildings").
Proof.
  pose proof (run_statements_db_ok script created created_db_ok) as Hdb.
  split; [| split; [| split]].
  - intros r Hr.
    apply (feature_row_identified _ "infrastructure" infrastructure_def None r Hdb);
      [reflexivity | simpl; tauto | simpl; tauto | exact Hr].
  - apply (feature_rows_distinct _ "infrastructure" infrastructure_def Hdb);
      [reflexivity | simpl; tauto].
  - intros r Hr.
    apply (feature_row_identified _ "buildings" buildings_def (Some Polygon) r Hdb);
      [reflexivity | simpl; tauto | simpl; tauto | exact Hr].
  - apply (feature_rows_distinct _ "buildings" buildings_def Hdb);
      [reflexivity | simpl; tauto].
Qed.

Lemma sample_rows :
  rows_of (run_statements sample_script created) "infrastructure"
    = [stored_cable "1" "infra-1" "active"; stored_cable "2" "infra-2" "inactive"]
  ∧ rows_of (run_statements sample_script created) "buildings"
    = [stored_square "5" "b-2"].
Proof. split; vm_compute; reflexivity. Qed.

Lemma sample_db_rows :
  rows_of sample_db "infrastructure"
    = [stored_cable "1" "infra-1" "active"; stored_cable "2" "infra-2" "inactive"]
  ∧ rows_of sample_db "buildings" = [stored_square "5" "b-2"].
Proof. unfold sample_db. exact sample_rows. Qed.

Lemma features_identified_and_located_witness :
  identified_and_located (stored_cable "1" "infra-1" "active")
  ∧ identified_and_located (stored_square "5" "b-2").
Proof.
  split.
  - apply (proj1 (features_identified_and_located sample_script)).
    rewrite (proj1 sample_rows). left. reflexivity.
  - apply (proj1 (proj2 (proj2 (features_identified_and_located sample_script)))).
    rewrite (proj2 sample_rows). left. reflexivity.
Defined.

(** **** An insert that differs in one column *)

Lemma cell_with_cell_other (name : string) (v : Value) (r : Row) (c : string) :
  c ≠ name → cell (with_cell name v r) c = cell r c.
Proof.
  intros Hne. apply String.eqb_neq in Hne.
  induction r as [| [k x] r IH]; simpl; [reflexivity |].
  destruct (String.eqb k name) eqn:Hk; simpl.
  - apply String.eqb_eq in Hk as ->. rewrite Hne. exact IH.
  - destruct (String.eqb c k); [reflexivity | exact IH].
Qed.

Lemma cell_with_cell_same (name : string) (v : Value) (r : Row) :
  In name (map fst r) → cell (with_cell name v r) name = v.
Proof.
  induction r as [| [k x] r IH]; simpl; [by intros [] |].
  destruct (String.eqb k name) eqn:Hk; simpl.
  - intros _. by rewrite String.eqb_refl.
  - intros [-> | Hin]; [by rewrite String.eqb_refl in Hk |].
    rewrite String.eqb_sym, Hk. by apply IH.
Qed.

Lemma for_each_with_cell (f f' : Column → Outcome (string * Value)) (cols : list Column)
    (r0 : Row) (name : string) (v : Value) :
  for_each f cols = Accepted r0 →
  (∀ c kv, In c cols → f c = Accepted kv → kv.1 = col_name c) →
  (∀ c, In c cols → col_name c ≠ name → f' c = f c) →
  (∀ c, In c cols → col_name c = name → f' c = Accepted (name, v)) →
  for_each f' cols = Accepted (with_cell name v r0).
Proof.
  revert r0. induction cols as [| c cols IH]; intros r0; simpl.
  - by intros [= <-] _ _ _.
  - destruct (f c) as [kv | e] eqn:Hfc; [| discriminate]. simpl.
    destruct (for_each f cols) as [r1 | e] eqn:Hr; [| discriminate]. simpl.
    intros [= <-] Hname Hother Hsame.
    rewrite (IH r1 eq_refl) by (intros; first [eapply Hname | apply Hother | apply Hsame];
                                eauto).
    pose proof (Hname c kv (or_introl eq_refl) Hfc) as Hkv.
    simpl. rewrite Hkv. destruct (String.eqb (col_name c) name) eqn:Hn.
    + apply String.eqb_eq in Hn. rewrite (Hsame c (or_introl eq_refl) Hn). reflexivity.
    + apply String.eqb_neq in Hn. rewrite (Hother c (or_introl eq_refl) Hn), Hfc.
      reflexivity.
Qed.

Lemma inserted_row_keys (env : Env) (cols : list Column) (assign : list (string * Value))
    (r : Row) :
  inserted_row env cols assign = Accepted r → map fst r = map col_name cols.
Proof.
  unfold inserted_row. destruct (known_columns cols assign); [| discriminate].
  intros Hr%for_each_accepted. induction Hr as [| c kv cols r Hkv _ IH]; [reflexivity |].
  simpl. apply store_cell_ok in Hkv as [-> _]. by rewrite IH.
Qed.

Lemma unique_against_cells (cols : list Column) (rows : list Row) (r r0 : Row) :
  (∀ c, In c cols → col_unique c = true → cell r (col_name c) = cell r0 (col_name c)) →
  unique_against cols rows r0 = true → unique_against cols rows r = true.
Proof.
  unfold unique_against. rewrite !forallb_forall. intros Heq H c Hc.
  specialize (H c Hc). pose proof (Heq c Hc) as Hcell.
  destruct (col_unique c); [| reflexivity]. by rewrite (Hcell eq_refl).
Qed.

Lemma foreign_keys_hold_spec (db : Database) :
  foreign_keys_hold db = true ↔
  ∀ table def c target column r,
    In (table, def) catalog → In c (columns def) →
    col_references c = Some (target, column) → In r (rows_of db table) →
    is_null (cell r (col_name c))
    || existsb (λ r', value_eqb (cell r' column) (cell r (col_name c))) (rows_of db target)
    = true.
Proof.
  unfold foreign_keys_hold. rewrite forallb_forall. split.
  - intros H table def c target column r Ht Hc Href Hr.
    specialize (H _ Ht). simpl in H. rewrite forallb_forall in H. specialize (H _ Hc).
    rewrite Href in H. rewrite forallb_forall in H. exact (H _ Hr).
  - intros H [table def] Ht. simpl. apply forallb_forall. intros c Hc.
    destruct (col_references c) as [[target column] |] eqn:Href; [| reflexivity].
    apply forallb_forall. intros r Hr. by eapply H.
Qed.

(** The schema's foreign keys: all point at [operators] or
    [infrastructure_types], and none is on a [status] column. *)
Lemma references_of_catalog (table : string) (def : TableDef) (c : Column)
    (target column : string) :
  In (table, def) catalog → In c (columns def) →
  col_references c = Some (target, column) →
  target ≠ "infrastructure" ∧ col_name c ≠ "status".
Proof.
  intros Ht Hc Href. simpl in Ht.
  repeat (destruct Ht as [[= <- <-] | Ht];
          [simpl in Hc;
           repeat (destruct Hc as [<- | Hc]; [try (by simpl in Href) |]);
           try (by destruct Hc);
           simpl in Href; injection Href as <- <-; by split |]).
  destruct Ht.
Qed.

Lemma foreign_keys_with_status (db : Database) (rows : list Row) (r0 : Row) (v : Value) :
  foreign_keys_hold (<["infrastructure" := rows ++ [r0]]> db) = true →
  foreign_keys_hold (<["infrastructure" := rows ++ [with_cell "status" v r0]]> db) = true.
Proof.
  rewrite !foreign_keys_hold_spec.
  intros H0 table def c target column r Ht Hc Href Hr.
  destruct (references_of_catalog _ _ _ _ _ Ht Hc Href) as [Htarget Hcol].
  specialize (H0 table def c target column).
  rewrite !rows_of_insert in *.
  destruct (decide ("infrastructure" = target)) as [Heq | _]; [by destruct Htarget |].
  destruct (decide ("infrastructure" = table)) as [_ | _]; [| by apply H0].
  apply in_app_or in Hr as [Hr | [<- | []]].
  - apply H0; auto. apply in_or_app. by left.
  - rewrite cell_with_cell_other by exact Hcol. apply H0; auto.
    apply in_or_app. right. by left.
Qed.

Lemma inserted_row_with_status (env : Env) (assign : list (string * Value)) (r0 : Row)
    (v : Value) :
  inserted_row env (columns infrastructure_def) assign = Accepted r0 →
  v = VNull ∨ (∃ s, v = VText s ∧ characters s ≤ 50) →
  inserted_row env (columns infrastructure_def) (("status", v) :: assign)
  = Accepted (with_cell "status" v r0).
Proof.
  unfold inserted_row.
  destruct (known_columns (columns infrastructure_def) assign) eqn:Hknown; [| discriminate].
  intros Hrow Hv.
  replace (known_columns (columns infrastructure_def) (("status", v) :: assign)) with true
    by (unfold known_columns in *; cbn [forallb]; by rewrite Hknown).
  apply (for_each_with_cell _ _ _ r0 "status" v Hrow).
  - intros c kv _ Hkv. by apply store_cell_ok in Hkv as [? _].
  - intros c _ Hne. cbn [assigned]. apply String.eqb_neq in Hne. by rewrite Hne.
  - intros c Hc Hname. simpl in Hc.
    repeat (destruct Hc as [<- | Hc]; [try (by simpl in Hname) |]); [| destruct Hc].
    unfold store_cell. simpl.
    destruct Hv as [-> | (s & -> & Hs)]; simpl; [reflexivity |].
    by rewrite (store_varchar_fits _ _ Hs).
Qed.

(** **** Status *)

Lemma inserted_status_default (env : Env) (assign : list (string * Value)) (r : Row) :
  assigned assign "status" = None →
  inserted_row env (columns infrastructure_def) assign = Accepted r →
  cell r "status" = VText "active".
Proof.
  intros Hnone. unfold inserted_row.
  destruct (known_columns _ assign); [| discriminate].
  intros Hr%for_each_accepted.
  apply (built_row_cells (λ c v, c = status_column → v = VText "active")
           (columns infrastructure_def) r) with (c := status_column);
    [| reflexivity | simpl; tauto | reflexivity].
  eapply Forall2_impl; [exact Hr |]. intros c kv Hkv.
  split; [apply store_cell_ok in Hkv as [Hname _]; exact Hname |]. intros ->.
  simpl in Hkv. rewrite Hnone in Hkv. vm_compute in Hkv. by injection Hkv as <-.
Qed.

(** C4, as the schema has it. In every reachable state the status of an
    infrastructure row is NULL or a text of at most 50 characters, and a row
    inserted without a status holds [active].  Nothing else is required of
    a status: whenever an insert that names no status is accepted, so is
    the same insert with any text of at most 50 characters, or NULL, as its
    status, and the new row holds that status. *)
Theorem status_defaults_to_active (script : list (Env * Statement)) :
  (∀ r, In r (rows_of (run_statements script created) "infrastructure") →
        status_fits_column r)
  ∧ (∀ env assign db db',
       assigned assign "status" = None →
       execute env (Insert "infrastructure" assign) db = Accepted db' →
       ∃ r, rows_of db' "infrastructure" = rows_of db "infrastructure" ++ [r]
            ∧ cell r "status" = VText "active")
  ∧ (∀ env assign db db' v,
       assigned assign "status" = None →
       execute env (Insert "infrastructure" assign) db = Accepted db' →
       v = VNull ∨ (∃ s, v = VText s ∧ characters s ≤ 50) →
       ∃ r db'',
         execute env (Insert "infrastructure" (("status", v) :: assign)) db = Accepted db''
         ∧ rows_of db'' "infrastructure" = rows_of db "infrastructure" ++ [r]
         ∧ cell r "status" = v).
Proof.
  split; [| split].
  - intros r Hr.
    pose proof (run_statements_db_ok script created created_db_ok) as Hdb.
    pose proof (stored_cell_ok _ "infrastructure" infrastructure_def status_column r Hdb
                  eq_refl) as Hs.
    apply varchar_cell in Hs as [[_ Hnull] | [s [Hs Hlen]]];
      [by left | right; by exists s | simpl; tauto | exact Hr].
  - intros env assign db db' Hnone. unfold execute.
    change (table_def "infrastructure") with (Some infrastructure_def). cbv beta iota.
    destruct (inserted_row env (columns infrastructure_def) assign) as [r | e] eqn:Hrow;
      [| discriminate].
    unfold and_then. destruct (unique_against _ _ r); [| discriminate].
    intros Hdb'%checked_accepted. subst db'. exists r. rewrite rows_of_insert.
    split; [by destruct (decide _) |]. by eapply inserted_status_default.
  - intros env assign db db' v _ Hex Hv. unfold execute in Hex |- *.
    change (table_def "infrastructure") with (Some infrastructure_def) in Hex |- *.
    cbv beta iota in Hex |- *.
    destruct (inserted_row env (columns infrastructure_def) assign) as [r0 | e] eqn:Hrow;
      [| discriminate].
    unfold and_then in Hex.
    destruct (unique_against _ _ r0) eqn:Hunique; [| discriminate].
    unfold checked in Hex. destruct (foreign_keys_hold _) eqn:Hfk; [| discriminate].
    rewrite (inserted_row_with_status env assign r0 v Hrow Hv). unfold and_then.
    rewrite (unique_against_cells _ _ (with_cell "status" v r0) r0); [| | exact Hunique].
    + unfold checked. rewrite (foreign_keys_with_status _ _ _ v Hfk).
      eexists _, _. split; [reflexivity |]. rewrite rows_of_insert.
      split; [by destruct (decide _) |].
      apply cell_with_cell_same. rewrite (inserted_row_keys _ _ _ _ Hrow). simpl. tauto.
    + intros c Hc Hu. apply cell_with_cell_other. intros Hname. simpl in Hc.
      repeat (destruct Hc as [<- | Hc]; [by simpl in Hname, Hu |]). destruct Hc.
Qed.

Lemma status_defaults_to_active_witness :
  status_fits_column (stored_cable "2" "infra-2" "inactive")
  ∧ (∃ r, rows_of (apply_statement created (sample_env "1", insert_cable "infra-1" None))
            "infrastructure" = rows_of created "infrastructure" ++ [r]
          ∧ cell r "status" = VText "active")
  ∧ ∃ r db'',
      execute (sample_env "1")
        (Insert "infrastructure"
           [("status", VText "abandoned"); ("stac_id", VText "infra-1");
            ("geometry", VGeom sample_point)]) created = Accepted db''
      ∧ rows_of db'' "infrastructure" = rows_of created "infrastructure" ++ [r]
      ∧ cell r "status" = VText "abandoned".
Proof.
  split; [| split].
  - apply (proj1 (status_defaults_to_active sample_script)).
    rewrite (proj1 sample_rows). right. left. reflexivity.
  - apply (proj1 (proj2 (status_defaults_to_active [])) (sample_env "1")
             [("stac_id", VText "infra-1"); ("geometry", VGeom sample_point)]).
    + reflexivity.
    + vm_compute. reflexivity.
  - apply (proj2 (proj2 (status_defaults_to_active [])) (sample_env "1")
             [("stac_id", VText "infra-1"); ("geometry", VGeom sample_point)]
             created
             (apply_statement created (sample_env "1", insert_cable "infra-1" None))).
    + reflexivity.
    + vm_compute. reflexivity.
    + right. exists "abandoned". split; [reflexivity | simpl; lia].
Defined.

(** The table takes a status outside the four documented values, and NULL. *)
Lemma undocumented_status_is_stored :
  In (stored_cable "2" "infra-2" "inactive") (rows_of sample_db "infrastructure")
  ∧ cell (stored_cable "2" "infra-2" "inactive") "status" = VText "inactive"
  ∧ ¬ status_documented (stored_cable "2" "infra-2" "inactive").
Proof.
  split; [rewrite (proj1 sample_db_rows); right; left; reflexivity |].
  split; [reflexivity |].
  intros [s [Hs Hin]]. injection Hs as <-.
  simpl in Hin. repeat (destruct Hin as [Hin | Hin]; [discriminate |]). exact Hin.
Qed.

Example null_status_is_stored :
  ∃ r, rows_of (run_statements
                  [(sample_env "1",
                    Insert "infrastructure"
                      [("stac_id", VText "infra-1"); ("geometry", VGeom sample_point);
                       ("status", VNull)])] created) "infrastructure" = [r]
       ∧ cell r "status" = VNull.
Proof. eexists. split; vm_compute; reflexivity. Qed.

(** **** Building geometry *)

Lemma store_non_polygon_rejected (g : Geometry) :
  gtype g ≠ Polygon → ∃ e, store_cell building_geometry_column (VGeom g) = Rejected e.
Proof.
  intros Hty. unfold store_cell, building_geometry_column, not_null. simpl.
  unfold store_geometry.
  set (g1 := if (0 <? 4326)%Z && (srid g =? 0)%Z then set_srid 4326 g else g).
  assert (Hg1 : gtype g1 = gtype g) by (subst g1; by destruct (_ && _)).
  destruct ((0 <? 4326)%Z && negb (srid g1 =? 4326)%Z); [by eexists |].
  rewrite Hg1. destruct (gtype g); first [by destruct Hty | by eexists].
Qed.

Lemma insert_non_polygon_rejected (env : Env) (assign : list (string * Value))
    (db : Database) (g : Geometry) :
  assigned assign "geometry" = Some (VGeom g) → gtype g ≠ Polygon →
  ∃ e, execute env (Insert "buildings" assign) db = Rejected e.
Proof.
  intros Hassign Hty. unfold execute.
  change (table_def "buildings") with (Some buildings_def). cbv beta iota.
  assert (Hrow : ∃ e, inserted_row env (columns buildings_def) assign = Rejected e).
  { unfold inserted_row. destruct (known_columns _ assign); [| by eexists].
    destruct (store_non_polygon_rejected g Hty) as [e He].
    apply (for_each_rejected _ _ building_geometry_column e); [simpl; tauto |].
    simpl. rewrite Hassign. exact He. }
  destruct Hrow as [e ->]. by eexists.
Qed.

(** C6. In every reachable state each row of [urban.buildings] holds a
    Polygon of SRID 4326, and an insert that gives a geometry of any other
    type is rejected and leaves the database as it was. *)
Theorem buildings_hold_polygons_only (script : list (Env * Statement)) :
  (∀ r, In r (rows_of (run_statements script created) "buildings") → polygon_in_4326 r)
  ∧ (∀ env assign db g,
       assigned assign "geometry" = Some (VGeom g) → gtype g ≠ Polygon →
       (∃ e, execute env (Insert "buildings" assign) db = Rejected e)
       ∧ apply_statement db (env, Insert "buildings" assign) = db).
Proof.
  split.
  - intros r Hr.
    pose proof (run_statements_db_ok script created created_db_ok) as Hdb.
    apply (feature_row_identified _ "buildings" buildings_def (Some Polygon) r Hdb);
      [reflexivity | simpl; tauto | simpl; tauto | exact Hr].
  - intros env assign db g Hassign Hty.
    destruct (insert_non_polygon_rejected env assign db g Hassign Hty) as [e He].
    split; [by exists e |]. unfold apply_statement. cbn [fst snd]. by rewrite He.
Qed.

Lemma buildings_hold_polygons_only_witness :
  polygon_in_4326 (stored_square "5" "b-2")
  ∧ apply_statement created (sample_env "4", insert_building "b-1" sample_point) = created.
Proof.
  split.
  - apply (proj1 (buildings_hold_polygons_only sample_script)).
    rewrite (proj2 sample_rows). left. reflexivity.
  - apply (proj2 (buildings_hold_polygons_only []) (sample_env "4")
             [("stac_id", VText "b-1"); ("geometry", VGeom sample_point)]
             created sample_point).
    + reflexivity.
    + discriminate.
Defined.

Example update_to_point_rejected :
  execute (sample_env "6")
    (Update "buildings" (λ _, true) [("geometry", VGeom sample_point)]) sample_db
  = Rejected GeometryTypeMismatch.
Proof. vm_compute. reflexivity. Qed.

(** **** The view *)

Lemma assoc_app (k : string) (a b : list (string * Json)) :
  assoc k (a ++ b) = match assoc k a with Some v => Some v | None => assoc k b end.
Proof.
  induction a as [| [k' v] a IH]; simpl; [reflexivity |].
  destruct (String.eqb k k'); [reflexivity | exact IH].
Qed.

Lemma assoc_filter_other (k : string) (second first : list (string * Json)) :
  assoc k second = None →
  assoc k (List.filter (λ kv, negb (has_key second kv.1)) first) = assoc k first.
Proof.
  intros Hk. induction first as [| [k' v] first IH]; simpl; [reflexivity |].
  destruct (has_key second k') eqn:Hhas; simpl.
  - destruct (String.eqb k k') eqn:Heq; [| exact IH].
    apply String.eqb_eq in Heq as ->. unfold has_key in Hhas. by rewrite Hk in Hhas.
  - destruct (String.eqb k k'); [reflexivity | exact IH].
Qed.

(** Looking a key up in a merge: the second object's value if it has the
    key, the first object's otherwise. *)
Lemma assoc_merge (k : string) (first second : list (string * Json)) :
  assoc k (merge_objects first second)
  = match assoc k second with Some v => Some v | None => assoc k first end.
Proof.
  unfold merge_objects. rewrite assoc_app.
  destruct (assoc k second) eqn:Hk; [reflexivity |]. by apply assoc_filter_other.
Qed.

Lemma left_join_rows (right : list Row) (on : Row → bool) (r : Row) :
  In r (left_join right on) → r = [] ∨ (In r right ∧ on r = true).
Proof.
  unfold left_join. destruct (List.filter on right) as [| m ms] eqn:Hf.
  - intros [<- | []]. by left.
  - intros Hin. right. apply filter_In. by rewrite Hf.
Qed.

Section View.
Context `{pg : PostGIS}.

Lemma item_properties_merge (r : Row) (object : list (string * Value))
    (collection : string) (stored : list (string * Json)) :
  cell r "properties" = VJson (JObj stored) →
  item_properties (item_of r object collection)
  = VJson (JObj (merge_objects (object_fields object) stored)).
Proof. intros Hp. unfold item_of. simpl. rewrite Hp. reflexivity. Qed.

(** C7, as the view has it. Every row of [urban.stac_items] comes from an
    infrastructure row with its operator and type, or from a building row
    with its operator (a row of NULLs where the join finds none).  Its
    geometry is [ST_AsGeoJSON] of the stored geometry.  Where the stored
    properties are a JSON object, its properties are the object built from
    the joined and the row's own columns ([datetime], operator name, code
    and colour, then type name, code, category, [status], [depth_meters]
    and [material] for infrastructure, or [building_type], [floors],
    [year_built] and [name] for buildings) merged with the stored
    properties, a stored key winning over a built one.  Where the stored
    properties are NULL, so are the row's properties. *)
Theorem stac_item_geometry_and_properties (db : Database) :
  (∀ item, In item (stac_items db) →
     (∃ i o t, In i (rows_of db "infrastructure")
               ∧ In o (operator_of db i) ∧ In t (type_of db i)
               ∧ item = infrastructure_item i o t)
     ∨ (∃ b o, In b (rows_of db "buildings") ∧ In o (operator_of db b)
               ∧ item = building_item b o))
  ∧ (∀ r o, In o (operator_of db r) →
       o = [] ∨ (In o (rows_of db "operators")
                 ∧ value_eqb (cell r "operator_id") (cell o "id") = true))
  ∧ (∀ i o t g, cell i "geometry" = VGeom g →
       item_geometry (infrastructure_item i o t) = VJson (ST_AsGeoJSON g))
  ∧ (∀ b o g, cell b "geometry" = VGeom g →
       item_geometry (building_item b o) = VJson (ST_AsGeoJSON g))
  ∧ (∀ i o t stored, cell i "properties" = VJson (JObj stored) →
       ∃ merged,
         item_properties (infrastructure_item i o t) = VJson (JObj merged)
         ∧ ∀ k, assoc k merged
                = match assoc k stored with
                  | Some v => Some v
                  | None => assoc k (object_fields (infrastructure_object i o t))
                  end)
  ∧ (∀ b o stored, cell b "properties" = VJson (JObj stored) →
       ∃ merged,
         item_properties (building_item b o) = VJson (JObj merged)
         ∧ ∀ k, assoc k merged
                = match assoc k stored with
                  | Some v => Some v
                  | None => assoc k (object_fields (building_object b o))
                  end)
  ∧ (∀ i o t, cell i "properties" = VNull →
       item_properties (infrastructure_item i o t) = VNull)
  ∧ (∀ b o, cell b "properties" = VNull →
       item_properties (building_item b o) = VNull).
Proof.
  split; [| split; [| split; [| split; [| split; [| split; [| split]]]]]].
  - intros item Hin. unfold stac_items in Hin. apply in_app_or in Hin as [Hin | Hin].
    + left. apply in_flat_map in Hin as [i [Hi Hin]].
      apply in_flat_map in Hin as [o [Ho Hin]].
      apply in_map_iff in Hin as [t [<- Ht]]. by exists i, o, t.
    + right. apply in_flat_map in Hin as [b [Hb Hin]].
      apply in_map_iff in Hin as [o [<- Ho]]. by exists b, o.
  - intros r o Ho. by apply left_join_rows in Ho.
  - intros i o t g Hg. unfold infrastructure_item, item_of. simpl. by rewrite Hg.
  - intros b o g Hg. unfold building_item, item_of. simpl. by rewrite Hg.
  - intros i o t stored Hp. eexists. split.
    + apply item_properties_merge. exact Hp.
    + intros k. apply assoc_merge.
  - intros b o stored Hp. eexists. split.
    + apply item_properties_merge. exact Hp.
    + intros k. apply assoc_merge.
  - intros i o t Hp. unfold infrastructure_item, item_of. simpl. by rewrite Hp.
  - intros b o Hp. unfold building_item, item_of. simpl. by rewrite Hp.
Qed.

End View.

Lemma stac_item_geometry_and_properties_witness :
  ∃ merged,
    item_properties (infrastructure_item (pg := sample_postgis)
                       (cable_with_properties (VJson (JObj [("status", JStr "planned")])))
                       [] [])
    = VJson (JObj merged)
    ∧ assoc "status" merged = Some (JStr "planned")
    ∧ assoc "datetime" merged = Some (JStr "2025-01-01T00:00:09Z").
Proof.
  destruct (proj1 (proj2 (proj2 (proj2 (proj2
              (stac_item_geometry_and_properties (pg := sample_postgis) sample_db)))))
              (cable_with_properties (VJson (JObj [("status", JStr "planned")]))) [] []
              [("status", JStr "planned")] eq_refl) as [merged [Hitem Hkeys]].
  exists merged. split; [exact Hitem |].
  split; [exact (Hkeys "status") | exact (Hkeys "datetime")].
Defined.

(** The first item of the sample database carries [status], a column of the
    row itself, which the object of operator and type columns merged with
    the stored properties does not have; and a row whose stored properties
    are NULL gets NULL properties. *)
Lemma view_properties_hold_row_columns :
  In (infrastructure_item (pg := sample_postgis) (stored_cable "1" "infra-1" "active") [] [])
     (stac_items (pg := sample_postgis) sample_db)
  ∧ (∃ fields,
       item_properties (infrastructure_item (pg := sample_postgis)
                          (stored_cable "1" "infra-1" "active") [] [])
       = VJson (JObj fields)
       ∧ assoc "status" fields = Some (JStr "active")
       ∧ assoc "status" (merge_objects
                           (object_fields (listed_infrastructure_object [] [])) [])
         = None)
  ∧ item_properties (infrastructure_item (pg := sample_postgis)
                       (cable_with_properties VNull) [] []) = VNull.
Proof.
  split; [| split].
  - vm_compute. left. reflexivity.
  - eexists. split; [reflexivity |]. split; reflexivity.
  - reflexivity.
Qed.

End SchemaFacts.

Module ImporterFacts.
Import Importer.

(** The counters after any prefix of the pass: every feature seen is either
    stored or failed, and the stored ones are those that validate. *)
Lemma import_feature_counts (operator_category : string) (features : list Feature)
    (p : Progress) :
  let q := fold_left (import_feature operator_category) features p in
  stored q = (stored p + Z.of_nat (length (List.filter (well_formed operator_category) features)))%Z
  ∧ failed q = (failed p + Z.of_nat (length (List.filter (λ f, negb (well_formed operator_category f)) features)))%Z
  ∧ seen q = (seen p + Z.of_nat (length features))%Z
  ∧ map snd (inserted q)
    = map snd (inserted p) ++ List.filter (well_formed operator_category) features.
Proof.
  revert p. induction features as [| f features IH]; intros p; simpl.
  - rewrite !Z.add_0_r, app_nil_r. by repeat split.
  - specialize (IH (import_feature operator_category p f)). simpl in IH.
    destruct IH as (Hs & Hf & Hn & Hi). rewrite Hs, Hf, Hn, Hi.
    unfold import_feature, well_formed.
    destruct (validate (detect operator_category f) f) as [msg |]; simpl.
    + repeat split; try lia. 
    + rewrite map_app. simpl. rewrite <- app_assoc. simpl. repeat split; lia.
Qed.

(** C1. For a file that parses as a feature collection with [n] features
    that validate and [m] that do not, the reply has [imported = n],
    [errors = m] and [total = n + m]; the features inserted are the [n]
    that validate, in order. *)
Theorem import_counts (message operator_category : string) (features : list Feature)
    (n m : nat) :
  length (List.filter (well_formed operator_category) features) = n →
  length (List.filter (λ f, negb (well_formed operator_category f)) features) = m →
  Portal.imported (import_file message operator_category (Some features)) = Z.of_nat n
  ∧ Portal.errors (import_file message operator_category (Some features)) = Z.of_nat m
  ∧ Portal.total (import_file message operator_category (Some features)) = Z.of_nat (n + m)
  ∧ map snd (inserted (import_features operator_category features))
    = List.filter (well_formed operator_category) features.
Proof.
  intros Hn Hm.
  pose proof (import_feature_counts operator_category features start)
    as (Hs & Hf & Ht & Hi).
  simpl in Hs, Hf, Ht, Hi. unfold import_file, import_features. simpl.
  rewrite Hs, Hf, Ht, Hi, Hn, Hm. repeat split; try reflexivity.
  assert (Hlen : length features = n + m); [| lia].
  rewrite <- Hn, <- Hm. clear. induction features as [| f fs IH]; simpl; [reflexivity |].
  destruct (well_formed operator_category f); simpl; lia.
Qed.

Lemma import_counts_witness :
  Portal.imported (import_file "ok" "telecom" (Some sample_upload)) = 2%Z
  ∧ Portal.errors (import_file "ok" "telecom" (Some sample_upload)) = 1%Z
  ∧ Portal.total (import_file "ok" "telecom" (Some sample_upload)) = 3%Z
  ∧ map snd (inserted (import_features "telecom" sample_upload))
    = [good_cable; good_outline].
Proof.
  apply (import_counts "ok" "telecom" sample_upload 2 1); reflexivity.
Defined.

Example unparsable_file_is_one_error :
  Portal.total (import_file "failed" "water" None) = 0%Z
  ∧ Portal.imported (import_file "failed" "water" None) = 0%Z
  ∧ Portal.errors (import_file "failed" "water" None) = 1%Z.
Proof. by repeat split. Qed.

Example first_error_is_kept :
  Portal.first_error (import_file "ok" "telecom" (Some [short_cable; good_outline; short_cable]))
  = Some "malformed coordinates".
Proof. reflexivity. Qed.

End ImporterFacts.

(* ===================================================================== *)
(** * Part III: further properties of the same code *)
(* ===================================================================== *)

Module SidebarSessions.
Import Sidebar.

Lemma toggled_list_membership (code x : string) (l : list string) :
  x ∈ (if bool_decide (code ∈ l) then filter (λ o, o ≠ code) l else l ++ [code])
  ↔ if decide (x = code) then code ∉ l else x ∈ l.
Proof.
  destruct (bool_decide_reflect (code ∈ l)) as [Hin | Hnin].
  - rewrite list_elem_of_filter. destruct (decide (x = code)) as [-> | Hne].
    + split; [intros [Hne _]; by destruct Hne | intros Hn; by destruct Hn].
    + split; [by intros [_ Hx] | by intros Hx].
  - rewrite elem_of_app, list_elem_of_singleton.
    destruct (decide (x = code)) as [-> | Hne].
    + split; [by intros _ | by right].
    + split; [intros [Hx | Hx]; [exact Hx | by destruct Hne] | by left].
Qed.

(** X1. A click on an operator (resp. category) checkbox flips whether that code
    is selected and leaves every other code as it was. *)
Theorem toggle_flips_membership (prev : FilterState) (code x : string) :
  (x ∈ operators (toggleOperator code prev)
     ↔ if decide (x = code) then code ∉ operators prev else x ∈ operators prev)
  ∧ (x ∈ categories (toggleCategory code prev)
       ↔ if decide (x = code) then code ∉ categories prev else x ∈ categories prev).
Proof. split; apply toggled_list_membership. Qed.

Lemma toggled_list_NoDup (code : string) (l : list string) :
  NoDup l →
  NoDup (if bool_decide (code ∈ l) then filter (λ o, o ≠ code) l else l ++ [code]).
Proof.
  intros Hl. destruct (bool_decide_reflect (code ∈ l)) as [Hin | Hnin].
  - by apply NoDup_filter.
  - apply NoDup_app. split; [exact Hl |]. split; [| apply NoDup_singleton].
    intros x Hx ->%list_elem_of_singleton. by apply Hnin.
Qed.

Lemma act_NoDup (prev : FilterState) (a : Action) :
  NoDup (operators prev) ∧ NoDup (categories prev) →
  NoDup (operators (act prev a)) ∧ NoDup (categories (act prev a)).
Proof.
  intros [Ho Hc]. destruct a; simpl; try (split; assumption).
  - split; [by apply toggled_list_NoDup | exact Hc].
  - split; [exact Ho | by apply toggled_list_NoDup].
  - split; apply NoDup_nil_2.
Qed.

(** X2. Whatever is clicked, in whatever order, from the start of the
    application, no operator and no category is ever selected twice. *)
Theorem selections_never_repeat (acts : list Action) :
  NoDup (operators (after acts)) ∧ NoDup (categories (after acts)).
Proof.
  unfold after.
  assert (H0 : NoDup (operators initial_filters) ∧ NoDup (categories initial_filters))
    by (split; apply NoDup_nil_2).
  revert H0. generalize initial_filters.
  induction acts as [| a acts IH]; intros st Hst; simpl; [exact Hst |].
  apply IH. by apply act_NoDup.
Qed.

Lemma remove_then_append (code : string) (l : list string) :
  NoDup l → code ∈ l → filter (λ o, o ≠ code) l ++ [code] ≡ₚ l.
Proof.
  induction l as [| x l IH]; intros Hnd Hin; [by apply elem_of_nil in Hin |].
  apply NoDup_cons in Hnd as [Hx Hnd]. destruct (decide (x = code)) as [-> | Hne].
  - rewrite filter_cons_False by (intros H; by apply H).
    assert (Hsame : filter (λ o, o ≠ code) l = l).
    { clear IH Hin Hnd. induction l as [| y l IHl]; [reflexivity |].
      rewrite filter_cons_True by (intros ->; apply Hx; left).
      f_equal. apply IHl. intros Hy. apply Hx. by right. }
    rewrite Hsame. symmetry. apply Permutation_cons_append.
  - rewrite filter_cons_True by exact Hne. simpl. apply perm_skip.
    apply IH; [exact Hnd |]. apply elem_of_cons in Hin as [-> | Hin]; [by destruct Hne | exact Hin].
Qed.

Lemma toggle_list_twice_perm (code : string) (l : list string) :
  NoDup l →
  let once := if bool_decide (code ∈ l) then filter (λ o, o ≠ code) l else l ++ [code] in
  let twice := if bool_decide (code ∈ once) then filter (λ o, o ≠ code) once
               else once ++ [code] in
  twice ≡ₚ l ∧ (code ∉ l → twice = l).
Proof.
  intros Hnd. simpl. destruct (bool_decide_reflect (code ∈ l)) as [Hin | Hnin].
  - rewrite bool_decide_eq_false_2
      by (rewrite list_elem_of_filter; intros [Hne _]; by apply Hne).
    split; [by apply remove_then_append | intros Hn; by destruct Hn].
  - rewrite bool_decide_eq_true_2
      by (rewrite elem_of_app, list_elem_of_singleton; by right).
    assert (Heq : filter (λ o, o ≠ code) (l ++ [code]) = l).
    { rewrite filter_app, filter_cons_False, filter_nil, app_nil_r
        by (intros H; by apply H).
      clear Hnd. induction l as [| y l IHl]; [reflexivity |].
      rewrite filter_cons_True by (intros ->; apply Hnin; left).
      f_equal. apply IHl. intros Hy. apply Hnin. by right. }
    rewrite Heq. by split.
Qed.

(** X3. On a selection without repeats, two clicks on the same checkbox give
    back the same codes, each once: the list is a permutation of the
    original (a code that was selected moves to the end), and the very same
    list when the code was not selected. *)
Theorem toggle_twice_permutation (prev : FilterState) (code : string) :
  NoDup (operators prev) → NoDup (categories prev) →
  operators (toggleOperator code (toggleOperator code prev)) ≡ₚ operators prev
  ∧ categories (toggleCategory code (toggleCategory code prev)) ≡ₚ categories prev
  ∧ (code ∉ operators prev →
     toggleOperator code (toggleOperator code prev) = prev)
  ∧ (code ∉ categories prev →
     toggleCategory code (toggleCategory code prev) = prev).
Proof.
  intros Ho Hc.
  destruct (toggle_list_twice_perm code (operators prev) Ho) as [Hpo Heo].
  destruct (toggle_list_twice_perm code (categories prev) Hc) as [Hpc Hec].
  split; [exact Hpo |]. split; [exact Hpc |]. split.
  - intros Hn. destruct prev as [ops cats si sb]. unfold toggleOperator. simpl in *.
    f_equal. by apply Heo.
  - intros Hn. destruct prev as [ops cats si sb]. unfold toggleCategory. simpl in *.
    f_equal. by apply Hec.
Qed.

Lemma toggle_twice_permutation_witness :
  operators (toggleOperator "azersu"
               (toggleOperator "azersu" (after [ToggleOperator "azersu"; ToggleOperator "delta"])))
  ≡ₚ ["azersu"; "delta"].
Proof.
  refine (proj1 (toggle_twice_permutation
                   (after [ToggleOperator "azersu"; ToggleOperator "delta"]) "azersu" _ _)).
  - simpl. apply NoDup_cons_2; [| apply NoDup_singleton].
    intros H%list_elem_of_singleton. discriminate.
  - simpl. apply NoDup_nil_2.
Defined.

Example selected_code_moves_to_the_end :
  operators (toggleOperator "azersu"
               (toggleOperator "azersu" (after [ToggleOperator "azersu"; ToggleOperator "delta"])))
  = ["delta"; "azersu"].
Proof. reflexivity. Qed.

End SidebarSessions.

Module MapSelections.
Import MapView.

Section Loaders.
Context `{rt : Runtime, lf : Leaflet}.

Lemma infra_try_at_most_one (f : Feature) :
  match infra_try f [] with Ok l => length l ≤ 1 | Throw _ => True end.
Proof.
  destruct (MapFacts.infra_try_cases f) as [H | [[e H] | [l [H _]]]]; rewrite H;
    simpl; [lia | exact I | lia].
Qed.

Lemma building_try_at_most_one (f : Feature) :
  match building_try f [] with Ok l => length l ≤ 1 | Throw _ => True end.
Proof.
  destruct (MapFacts.building_try_cases f) as [H | [[e H] | [l [H _]]]]; rewrite H;
    simpl; [lia | exact I | lia].
Qed.

(** With a selection, a feature gives either nothing or exactly what it
    gives with nothing selected. *)
Lemma infra_layers_of_selection (filters : FilterState) (f : Feature) :
  infra_layers_of filters f = []
  ∨ infra_layers_of filters f = infra_layers_of (without_selection filters) f.
Proof.
  unfold infra_layers_of, infra_callback, without_selection.
  destruct (excluded (operators filters) 1 f "operator_code"); [by left |].
  destruct (excluded (categories filters) 1 f "category"); [by left |].
  right. reflexivity.
Qed.

Lemma building_layers_of_selection (filters : FilterState) (f : Feature) :
  building_layers_of filters f = []
  ∨ building_layers_of filters f = building_layers_of (without_selection filters) f.
Proof.
  unfold building_layers_of, building_callback, without_selection.
  destruct (excluded (operators filters) 0 f "operator_code"); [by left |].
  right. reflexivity.
Qed.

Lemma flat_map_sublist {A B} (f g : A → list B) (xs : list A) :
  (∀ x, f x = [] ∨ f x = g x) → flat_map f xs `sublist_of` flat_map g xs.
Proof.
  intros H. induction xs as [| x xs IH]; simpl; [constructor |].
  destruct (H x) as [-> | ->].
  - simpl. by apply sublist_inserts_l.
  - by apply sublist_app.
Qed.

Lemma flat_map_length_le {A B} (f : A → list B) (xs : list A) :
  (∀ x, length (f x) ≤ 1) → length (flat_map f xs) ≤ length xs.
Proof.
  intros H. induction xs as [| x xs IH]; simpl; [lia |].
  rewrite length_app. specialize (H x). lia.
Qed.

(** X4. Selecting operators or categories only takes layers away: on the same
    data, what either loader draws under a selection is a sub-list, in the
    same order, of what it draws with nothing selected; and a loader never
    draws more layers than it was given features. *)
Theorem selection_only_removes_layers (filters : FilterState) (features : list Feature) :
  (∃ shown all,
     loadInfrastructure_then filters features = Ok shown
     ∧ loadInfrastructure_then (without_selection filters) features = Ok all
     ∧ shown `sublist_of` all ∧ length all ≤ length features)
  ∧ (∃ shown all,
       loadBuildings_then filters features = Ok shown
       ∧ loadBuildings_then (without_selection filters) features = Ok all
       ∧ shown `sublist_of` all ∧ length all ≤ length features).
Proof.
  split.
  - eexists _, _. rewrite !MapFacts.loadInfrastructure_then_flat.
    split; [reflexivity |]. split; [reflexivity |]. split.
    + apply flat_map_sublist. apply infra_layers_of_selection.
    + apply flat_map_length_le. intros f.
      unfold infra_layers_of, infra_callback, without_selection. simpl.
      unfold excluded. simpl. unfold try_catch.
      pose proof (infra_try_at_most_one f) as H.
      destruct (infra_try f []); [exact H | simpl; lia].
  - eexists _, _. rewrite !MapFacts.loadBuildings_then_flat.
    split; [reflexivity |]. split; [reflexivity |]. split.
    + apply flat_map_sublist. apply building_layers_of_selection.
    + apply flat_map_length_le. intros f.
      unfold building_layers_of, building_callback, without_selection. simpl.
      unfold excluded. simpl. unfold try_catch.
      pose proof (building_try_at_most_one f) as H.
      destruct (building_try f []); [exact H | simpl; lia].
Qed.

(** X5. In the buildings loader a feature is drawn only if, when any operator
    at all is selected, its [operator_code] is a selected operator; the
    selected categories play no part; and the request never carries more
    than [limit=500], so a single selected operator is filtered here and
    not by the server. *)
Theorem building_selection_filter (filters : FilterState) (features : list Feature) :
  (∀ layer layers,
     loadBuildings_then filters features = Ok layers → layer ∈ layers →
     ∃ f, f ∈ features ∧ layer ∈ building_layers_of filters f
          ∧ (0 < length (operators filters) →
             ∃ s, get_opt (f_properties f) "operator_code" = Some (JStr s)
                  ∧ s ∈ operators filters))
  ∧ (∀ cats, loadBuildings_then (with_categories cats filters) features
             = loadBuildings_then filters features)
  ∧ (∀ params, loadBuildings_request filters = Some params → params = [("limit", "500")]).
Proof.
  split; [| split].
  - intros layer layers Hload Hin.
    rewrite MapFacts.loadBuildings_then_flat in Hload. injection Hload as <-.
    apply list_elem_of_In, in_flat_map in Hin as [f [Hf Hl]].
    exists f. split; [by apply list_elem_of_In |]. split; [by apply list_elem_of_In |].
    destruct (excluded (operators filters) 0 f "operator_code") eqn:Ho.
    { unfold building_layers_of, building_callback in Hl. rewrite Ho in Hl. destruct Hl. }
    intros Hlen. eapply MapFacts.excluded_false; eauto.
  - intros cats. rewrite !MapFacts.loadBuildings_then_flat. reflexivity.
  - intros params. unfold loadBuildings_request.
    destruct (showBuildings filters); [by intros [= <-] | discriminate].
Qed.

End Loaders.

(** X6. The query string of the infrastructure request starts with [limit=1000]
    and carries an [operator] (resp. [category]) parameter exactly when one
    single operator (resp. category) is selected, with that value; with none
    or several selected the server is asked for all of them. *)
Theorem infra_params_exactly (filters : FilterState) :
  (∃ rest, infra_params filters = ("limit", "1000") :: rest ∧ length rest ≤ 2)
  ∧ (∀ o, In ("operator", o) (infra_params filters) ↔ operators filters = [o])
  ∧ (∀ c, In ("category", c) (infra_params filters) ↔ categories filters = [c]).
Proof.
  unfold infra_params. split; [| split].
  - eexists. split; [reflexivity |]. rewrite length_app.
    destruct (categories filters) as [| c [| c' cs]], (operators filters) as [| o [| o' os]];
      simpl; lia.
  - intros o.
    destruct (categories filters) as [| c [| c' cs]],
             (operators filters) as [| o0 [| o' os]]; simpl;
      split; intros H; repeat (destruct H as [H | H]); try discriminate; try done;
      try (injection H as ->; reflexivity); try (injection H as ->; auto).
  - intros c.
    destruct (categories filters) as [| c0 [| c' cs]],
             (operators filters) as [| o [| o' os]]; simpl;
      split; intros H; repeat (destruct H as [H | H]); try discriminate; try done;
      try (injection H as ->; reflexivity); try (injection H as ->; auto).
Qed.

Lemma building_selection_filter_witness :
  ∃ f, f ∈ [sample_outline "delta"; sample_outline "azersu"]
       ∧ sample_outline_layer "azersu"
         ∈ building_layers_of (rt := plain_runtime) (lf := numeric_leaflet)
             (select_operators ["azersu"]) f
       ∧ (0 < length (operators (select_operators ["azersu"])) →
          ∃ s, get_opt (f_properties f) "operator_code" = Some (JStr s)
               ∧ s ∈ operators (select_operators ["azersu"])).
Proof.
  apply (proj1 (building_selection_filter (rt := plain_runtime) (lf := numeric_leaflet)
                  (select_operators ["azersu"])
                  [sample_outline "delta"; sample_outline "azersu"])
           (sample_outline_layer "azersu") [sample_outline_layer "azersu"]).
  - reflexivity.
  - left.
Defined.

Example single_operator_is_filtered_for_buildings_only :
  loadBuildings_then (rt := plain_runtime) (lf := numeric_leaflet)
    (select_operators ["azersu"]) [sample_outline "delta"] = Ok []
  ∧ loadInfrastructure_then (rt := plain_runtime) (lf := numeric_leaflet)
      (select_operators ["azersu"]) [sample_line "delta"] = Ok [sample_polyline "delta"].
Proof. split; reflexivity. Qed.

End MapSelections.

Module PortalSessions.
Import Portal.

Lemma handleImport_settled (reply : option ImportResult) (stats_reply : option Stats)
    (st : State) (f : File) (op : Operator) :
  selectedFile st = Some f → currentOperator st = Some op →
  importing (handleImport reply stats_reply st).1 = false
  ∧ selectedFile (handleImport reply stats_reply st).1 = None
  ∧ currentOperator (handleImport reply stats_reply st).1 = Some op
  ∧ uploaded_files (handleImport reply stats_reply st).2 = [f]
  ∧ In (PostImport (op_id op) f) (handleImport reply stats_reply st).2
  ∧ importResult (handleImport reply stats_reply st).1
    = Some match reply with
           | Some data =>
               if (0 <? imported data)%Z
               then match stats_reply with Some _ => data | None => failed_result end
               else data
           | None => failed_result
           end.
Proof.
  intros Hf Hop. unfold handleImport. rewrite Hf, Hop.
  destruct reply as [data |]; [destruct (0 <? imported data)%Z; [destruct stats_reply |] |];
    cbn [fst snd]; rewrite ?PortalFacts.uploaded_files_app,
                     ?PortalFacts.stats_effect_no_upload;
    simpl; rewrite ?Hop; repeat split; auto.
Qed.

(** X7. Pressing import with a file selected and an operator logged in always
    comes to an end with a result on screen: whatever the server does, one
    upload of that file goes to that operator's endpoint, the spinner is
    off, the selection is cleared and a result is shown, which is the
    server's summary unless a request raised.  Without a file or without an
    operator nothing happens and nothing is sent. *)
Theorem import_always_settles (reply : option ImportResult) (stats_reply : option Stats)
    (st : State) :
  (∀ f op, selectedFile st = Some f → currentOperator st = Some op →
     importing (handleImport reply stats_reply st).1 = false
     ∧ selectedFile (handleImport reply stats_reply st).1 = None
     ∧ currentOperator (handleImport reply stats_reply st).1 = Some op
     ∧ uploaded_files (handleImport reply stats_reply st).2 = [f]
     ∧ In (PostImport (op_id op) f) (handleImport reply stats_reply st).2
     ∧ importResult (handleImport reply stats_reply st).1
       = Some match reply with
              | Some data =>
                  if (0 <? imported data)%Z
                  then match stats_reply with Some _ => data | None => failed_result end
                  else data
              | None => failed_result
              end)
  ∧ (selectedFile st = None ∨ currentOperator st = None →
     handleImport reply stats_reply st = (st, [])).
Proof.
  split.
  - intros f op Hf Hop. by apply handleImport_settled.
  - unfold handleImport. intros [-> | ->]; [reflexivity |].
    by destruct (selectedFile st).
Qed.

Lemma import_always_settles_witness :
  uploaded_files (handleImport None None
                    (session [LoginClicked (Some (inl sample_operator));
                              FileChosen (Some good_file)]).1).2 = [good_file].
Proof.
  apply (proj1 (import_always_settles None None
                  (session [LoginClicked (Some (inl sample_operator));
                            FileChosen (Some good_file)]).1)
           good_file sample_operator); reflexivity.
Defined.

(** X8. The banner after an import is red whenever nothing was imported or a
    request raised, even when the server had imported everything and only
    the statistics refresh that follows failed; it is green or yellow only
    for a summary with something imported and the statistics refreshed,
    green exactly when that summary has no errors.  A rejected file choice
    is always red. *)
Theorem banner_after_import (reply : option ImportResult) (stats_reply : option Stats)
    (st : State) (f : File) (op : Operator) :
  selectedFile st = Some f → currentOperator st = Some op →
  (shown_banner (handleImport reply stats_reply st).1 = Some Failure
     ↔ ∀ data, reply = Some data → (0 < imported data)%Z → stats_reply = None)
  ∧ (shown_banner (handleImport reply stats_reply st).1 = Some Success
       ↔ ∃ data, reply = Some data ∧ (0 < imported data)%Z ∧ errors data = 0%Z
                 ∧ stats_reply ≠ None)
  ∧ (∀ g st0, accepted_name (file_name g) = false →
       shown_banner (handleFileSelect (Some g) st0).1 = Some Failure).
Proof.
  intros Hf Hop. unfold shown_banner.
  destruct (handleImport_settled reply stats_reply st f op Hf Hop)
    as (_ & _ & _ & _ & _ & ->).
  split; [| split].
  - destruct reply as [data |]; simpl.
    + destruct (Z.ltb_spec 0 (imported data)) as [Hpos | Hle].
      * destruct stats_reply as [s |]; simpl.
        -- unfold banner. destruct (Z.ltb_spec 0 (imported data)); [| lia].
           rewrite andb_true_r. split.
           ++ destruct (errors data =? 0)%Z; discriminate.
           ++ intros Hall. specialize (Hall data eq_refl Hpos). discriminate.
        -- split; [intros _ d _ _; reflexivity | reflexivity].
      * unfold banner. destruct (Z.ltb_spec 0 (imported data)); [lia |].
        rewrite andb_false_r. split; [| reflexivity].
        intros _ d [= <-] Hd. lia.
    + split; [intros _ d Hd; discriminate | reflexivity].
  - destruct reply as [data |]; simpl.
    + destruct (Z.ltb_spec 0 (imported data)) as [Hpos | Hle].
      * destruct stats_reply as [s |]; simpl.
        -- unfold banner. destruct (Z.ltb_spec 0 (imported data)); [| lia].
           rewrite andb_true_r. destruct (Z.eqb_spec (errors data) 0) as [He | He].
           ++ split; [| reflexivity]. intros _. exists data. by repeat split.
           ++ split; [discriminate |]. intros (d & [= <-] & _ & He' & _). by destruct He.
        -- split; [discriminate |]. intros (d & _ & _ & _ & Hs). by destruct Hs.
      * unfold banner. destruct (Z.ltb_spec 0 (imported data)); [lia |].
        rewrite andb_false_r. split; [discriminate |].
        intros (d & [= <-] & Hd & _). lia.
    + split; [discriminate |]. intros (d & Hd & _). discriminate.
  - intros g st0 Hg. unfold handleFileSelect. rewrite Hg. reflexivity.
Qed.

Lemma banner_after_import_witness :
  shown_banner (handleImport
                  (Some {| total := 3; imported := 3; errors := 0; message := "ok";
                           first_error := None; detected_type := None |})
                  None
                  (session [LoginClicked (Some (inl sample_operator));
                            FileChosen (Some good_file)]).1).1
  = Some Failure.
Proof.
  apply (proj1 (banner_after_import
                  (Some {| total := 3; imported := 3; errors := 0; message := "ok";
                           first_error := None; detected_type := None |})
                  None
                  (session [LoginClicked (Some (inl sample_operator));
                            FileChosen (Some good_file)]).1
                  good_file sample_operator eq_refl eq_refl)).
  intros data _ _. reflexivity.
Defined.

(** X9. Logging out does not clear the selected file: after a logout and a
    login as another operator, pressing import uploads the file chosen in
    the earlier session to the new operator's endpoint. *)
Theorem selection_survives_logout (st : State) (f : File) (next : Operator)
    (reply : option ImportResult) (stats_reply : option Stats) :
  selectedFile st = Some f →
  selectedFile (handleLogout st).1 = Some f
  ∧ (handleLogout st).2 = []
  ∧ uploaded_files
      (handleImport reply stats_reply
         (handleLogin (Some (inl next)) (handleLogout st).1).1).2 = [f]
  ∧ In (PostImport (op_id next) f)
      (handleImport reply stats_reply
         (handleLogin (Some (inl next)) (handleLogout st).1).1).2.
Proof.
  intros Hf. split; [exact Hf |]. split; [reflexivity |].
  destruct (handleImport_settled reply stats_reply
              (handleLogin (Some (inl next)) (handleLogout st).1).1 f next)
    as (_ & _ & _ & Hup & Hin & _); [exact Hf | reflexivity |].
  by split.
Qed.

Lemma selection_survives_logout_witness :
  uploaded_files
    (handleImport None None
       (handleLogin (Some (inl sample_operator))
          (handleLogout (session [LoginClicked (Some (inl sample_operator));
                                  FileChosen (Some good_file)]).1).1).1).2
  = [good_file].
Proof.
  apply (selection_survives_logout
           (session [LoginClicked (Some (inl sample_operator));
                     FileChosen (Some good_file)]).1
           good_file sample_operator None None eq_refl).
Defined.

End PortalSessions.

Module SchemaFunctions.
Import Schema.





Lemma dash_free_app (a b : string) :
  dash_free (a +:+ b) = dash_free a && dash_free b.
Proof.
  induction a as [| x a IH]; [reflexivity |].
  rewrite PortalFacts.append_String. simpl. rewrite IH. by rewrite andb_assoc.
Qed.








Example generated_identifier :
  generate_stac_id (sample_env "1") (VText "infra")
  = VText "infra-00000000000040008000000000000001".
Proof. reflexivity. Qed.

End SchemaFunctions.

Module SchemaJoins.
Import Schema.

(** **** Foreign keys in reachable states *)

Lemma checked_holds (db db' : Database) :
  checked db = Accepted db' → foreign_keys_hold db' = true.
Proof.
  unfold checked. destruct (foreign_keys_hold db) eqn:H; [| discriminate].
  by intros [= <-].
Qed.

Lemma execute_foreign_keys (env : Env) (stmt : Statement) (db db' : Database) :
  execute env stmt db = Accepted db' → foreign_keys_hold db' = true.
Proof.
  destruct stmt as [table assign | table where_ assign | table where_]; simpl;
    destruct (table_def table) as [def |]; try discriminate.
  - destruct (inserted_row env (columns def) assign) as [r | e]; [| discriminate]. simpl.
    destruct (unique_against _ _ r); [apply checked_holds | discriminate].
  - destruct (for_each _ (rows_of db table)) as [rows' | e]; [| discriminate]. simpl.
    destruct (all_unique (columns def) rows'); [apply checked_holds | discriminate].
  - apply checked_holds.
Qed.

Lemma created_foreign_keys : foreign_keys_hold created = true.
Proof. vm_compute. reflexivity. Qed.

Lemma run_statements_foreign_keys (script : list (Env * Statement)) (db : Database) :
  foreign_keys_hold db = true → foreign_keys_hold (run_statements script db) = true.
Proof.
  revert db. induction script as [| s script IH]; intros db Hdb; [exact Hdb |].
  simpl. apply IH. unfold apply_statement.
  destruct (execute s.1 s.2 db) eqn:Hex; [by eapply execute_foreign_keys | exact Hdb].
Qed.

(** What one foreign key says of one row. *)
Lemma foreign_key_of_row (db : Database) (table : string) (def : TableDef) (c : Column)
    (target column : string) (r : Row) :
  foreign_keys_hold db = true →
  In (table, def) catalog → In c (columns def) →
  col_references c = Some (target, column) →
  In r (rows_of db table) →
  is_null (cell r (col_name c))
  || existsb (λ r', value_eqb (cell r' column) (cell r (col_name c))) (rows_of db target)
  = true.
Proof.
  intros Hfk Ht Hc Href Hr. unfold foreign_keys_hold in Hfk.
  rewrite forallb_forall in Hfk. specialize (Hfk _ Ht). simpl in Hfk.
  rewrite forallb_forall in Hfk. specialize (Hfk _ Hc). rewrite Href in Hfk.
  rewrite forallb_forall in Hfk. exact (Hfk _ Hr).
Qed.

(** **** Joining on a key *)

Lemma value_eqb_true_not_null (v a : Value) : value_eqb v a = true → is_null a = false.
Proof. destruct v, a; simpl; try discriminate; reflexivity. Qed.

Lemma value_eqb_common (v a b : Value) :
  value_eqb v a = true → value_eqb v b = true → value_eqb b a = true.
Proof.
  destruct v, a; simpl; try discriminate; destruct b; simpl; try discriminate.
  all: try (intros ->%String.eqb_eq ->%String.eqb_eq; apply String.eqb_refl).
  - intros ->%Z.eqb_eq ->%Z.eqb_eq. apply Z.eqb_refl.
  - intros H1%Qeq_bool_iff H2%Qeq_bool_iff. apply Qeq_bool_iff.
    rewrite <- H1, <- H2. reflexivity.
Qed.

Lemma filter_key_at_most_one (cols : list Column) (rows : list Row) (c : Column) (v : Value) :
  all_unique cols rows = true → In c cols → col_unique c = true →
  length (List.filter (λ o, value_eqb v (cell o (col_name c))) rows) ≤ 1.
Proof.
  intros Hall Hc Hu. induction rows as [| r rows IH]; simpl; [lia |].
  simpl in Hall. apply andb_true_iff in Hall as [Hr Hall]. specialize (IH Hall).
  destruct (value_eqb v (cell r (col_name c))) eqn:Hv; [| exact IH]. simpl.
  assert (Hnone : List.filter (λ o, value_eqb v (cell o (col_name c))) rows = []);
    [| rewrite Hnone; simpl; lia].
  unfold unique_against in Hr. rewrite forallb_forall in Hr. specialize (Hr c Hc).
  rewrite Hu, (value_eqb_true_not_null _ _ Hv) in Hr. simpl in Hr.
  rewrite forallb_forall in Hr.
  clear IH Hall. induction rows as [| r' rows IH]; [reflexivity |]. simpl.
  destruct (value_eqb v (cell r' (col_name c))) eqn:Hv'.
  - specialize (Hr r' (or_introl eq_refl)).
    rewrite (value_eqb_common _ _ _ Hv Hv') in Hr. discriminate.
  - apply IH. intros x Hx. apply Hr. by right.
Qed.

Lemma left_join_one (right : list Row) (on : Row → bool) :
  length (List.filter on right) ≤ 1 →
  ∃ o, left_join right on = [o]
       ∧ (List.filter on right = [] ∧ o = [] ∨ List.filter on right = [o]).
Proof.
  unfold left_join. destruct (List.filter on right) as [| m [| m' ms]]; simpl; intros H.
  - exists []. split; [reflexivity | by left].
  - exists m. split; [reflexivity | by right].
  - lia.
Qed.

(** In a database within its constraints each feature row joins to exactly
    one operator row and one type row (possibly the row of NULLs). *)
Lemma operator_of_one (db : Database) (r : Row) :
  db_ok db →
  ∃ o, operator_of db r = [o]
       ∧ (List.filter (λ o, value_eqb (cell r "operator_id") (cell o "id"))
            (rows_of db "operators") = [] ∧ o = []
          ∨ List.filter (λ o, value_eqb (cell r "operator_id") (cell o "id"))
              (rows_of db "operators") = [o]).
Proof.
  intros Hdb. apply left_join_one.
  pose proof (Hdb "operators" operators_def eq_refl) as [_ Hall]%andb_true_iff.
  apply (filter_key_at_most_one (columns operators_def) _
           (primary_key "id" TUuid UuidGenerateV4)); [exact Hall | simpl; tauto | reflexivity].
Qed.

Lemma type_of_one (db : Database) (r : Row) :
  db_ok db →
  ∃ t, type_of db r = [t]
       ∧ (List.filter (λ t, value_eqb (cell r "type_id") (cell t "id"))
            (rows_of db "infrastructure_types") = [] ∧ t = []
          ∨ List.filter (λ t, value_eqb (cell r "type_id") (cell t "id"))
              (rows_of db "infrastructure_types") = [t]).
Proof.
  intros Hdb. apply left_join_one.
  pose proof (Hdb "infrastructure_types" infrastructure_types_def eq_refl)
    as [_ Hall]%andb_true_iff.
  apply (filter_key_at_most_one (columns infrastructure_types_def) _
           (primary_key "id" TUuid UuidGenerateV4)); [exact Hall | simpl; tauto | reflexivity].
Qed.

Section View.
Context `{pg : PostGIS}.

Lemma infrastructure_items_ids (db : Database) (rows : list Row) :
  db_ok db →
  map item_id
    (flat_map (λ i, flat_map (λ o, map (λ t, infrastructure_item i o t) (type_of db i))
                      (operator_of db i)) rows)
  = map (λ r, cell r "stac_id") rows.
Proof.
  intros Hdb. induction rows as [| i rows IH]; [reflexivity |]. simpl.
  destruct (operator_of_one db i Hdb) as [o [-> _]].
  destruct (type_of_one db i Hdb) as [t [-> _]]. simpl. by rewrite IH.
Qed.

Lemma building_items_ids (db : Database) (rows : list Row) :
  db_ok db →
  map item_id (flat_map (λ b, map (λ o, building_item b o) (operator_of db b)) rows)
  = map (λ r, cell r "stac_id") rows.
Proof.
  intros Hdb. induction rows as [| b rows IH]; [reflexivity |]. simpl.
  destruct (operator_of_one db b Hdb) as [o [-> _]]. simpl. by rewrite IH.
Qed.

(** X11. In every reachable state the view has exactly one row for each
    infrastructure row and each building row, under the row's [stac_id]:
    the ids of its rows are, in some order, the [stac_id]s of the two
    tables, so the joins neither drop a feature that has no operator or
    type nor repeat one. *)
Theorem view_one_row_per_feature (script : list (Env * Statement)) :
  map item_id (stac_items (run_statements script created))
  ≡ₚ map (λ r, cell r "stac_id") (rows_of (run_statements script created) "infrastructure")
     ++ map (λ r, cell r "stac_id") (rows_of (run_statements script created) "buildings")
  ∧ length (stac_items (run_statements script created))
    = length (rows_of (run_statements script created) "infrastructure")
      + length (rows_of (run_statements script created) "buildings").
Proof.
  pose proof (SchemaFacts.run_statements_db_ok script created SchemaFacts.created_db_ok)
    as Hdb.
  assert (Hids : map item_id (stac_items (run_statements script created))
                 = map (λ r, cell r "stac_id")
                     (rows_of (run_statements script created) "infrastructure")
                   ++ map (λ r, cell r "stac_id")
                        (rows_of (run_statements script created) "buildings")).
  { unfold stac_items. rewrite map_app.
    by rewrite infrastructure_items_ids, building_items_ids. }
  split; [by rewrite Hids |].
  apply (f_equal length) in Hids. by rewrite length_app, !length_map in Hids.
Qed.

Lemma stac_items_rows (db : Database) (item : StacItem) :
  In item (stac_items db) →
  (∃ i o t, In i (rows_of db "infrastructure") ∧ item = infrastructure_item i o t)
  ∨ (∃ b o, In b (rows_of db "buildings") ∧ item = building_item b o).
Proof.
  unfold stac_items. intros [Hin | Hin]%in_app_or.
  - left. apply in_flat_map in Hin as [i [Hi Hin]].
    apply in_flat_map in Hin as [o [Ho Hin]].
    apply in_map_iff in Hin as [t [<- Ht]]. by exists i, o, t.
  - right. apply in_flat_map in Hin as [b [Hb Hin]].
    apply in_map_iff in Hin as [o [<- Ho]]. by exists b, o.
Qed.

(** X12. In every reachable state no row of the view has a NULL identifier,
    type, geometry, collection or link: its id is the feature's [stac_id],
    its geometry is the GeoJSON of a stored geometry of SRID 4326, and its
    [self] link is [/api/stac/items/] followed by the id.  Its four box
    columns are those PostGIS gives for that geometry, and so are NULL
    exactly where PostGIS gives none, as for an empty geometry. *)
Theorem view_rows_are_complete (script : list (Env * Statement)) (item : StacItem) :
  In item (stac_items (run_statements script created)) →
  ∃ s g collection,
    item_id item = VText s
    ∧ item_type item = VText "Feature"
    ∧ srid g = 4326%Z
    ∧ item_geometry item = VJson (ST_AsGeoJSON g)
    ∧ bbox_minx item = of_number (ST_XMin g) ∧ bbox_miny item = of_number (ST_YMin g)
    ∧ bbox_maxx item = of_number (ST_XMax g) ∧ bbox_maxy item = of_number (ST_YMax g)
    ∧ (bbox_minx item = VNull ↔ ST_XMin g = None)
    ∧ (bbox_miny item = VNull ↔ ST_YMin g = None)
    ∧ (bbox_maxx item = VNull ↔ ST_XMax g = None)
    ∧ (bbox_maxy item = VNull ↔ ST_YMax g = None)
    ∧ item_collection item = [collection]
    ∧ (collection = "infrastructure" ∨ collection = "buildings")
    ∧ item_links item
      = VJson (JArr [JObj [("rel", JStr "self");
                           ("href", JStr ("/api/stac/items/" +:+ s))];
                     JObj [("rel", JStr "collection");
                           ("href", JStr ("/api/stac/collections/" +:+ collection))]]).
Proof.
  intros Hin.
  pose proof (SchemaFacts.run_statements_db_ok script created SchemaFacts.created_db_ok)
    as Hdb.
  assert (Hnull : ∀ q, of_number q = VNull ↔ q = None)
    by (intros [q |]; simpl; split; congruence).
  apply stac_items_rows in Hin as [(i & o & t & Hi & ->) | (b & o & Hb & ->)].
  - destruct (SchemaFacts.feature_row_identified _ "infrastructure" infrastructure_def
                None i Hdb eq_refl) as [[[s Hs] [g [Hg Hsrid]]] _];
      [simpl; tauto | simpl; tauto | exact Hi |].
    exists s, g, "infrastructure". unfold infrastructure_item, item_of. simpl.
    rewrite Hs, Hg. simpl. repeat split; auto; by apply Hnull.
  - destruct (SchemaFacts.feature_row_identified _ "buildings" buildings_def
                (Some Polygon) b Hdb eq_refl) as [[[s Hs] [g [Hg Hsrid]]] _];
      [simpl; tauto | simpl; tauto | exact Hb |].
    exists s, g, "buildings". unfold building_item, item_of. simpl.
    rewrite Hs, Hg. simpl. repeat split; auto; by apply Hnull.
Qed.

End View.

Lemma filter_nonempty_of_existsb {A} (p : A → bool) (l : list A) :
  existsb p l = true → List.filter p l ≠ [].
Proof.
  intros [x [Hx Hp]]%existsb_exists Hnil.
  assert (Hin : In x (List.filter p l)) by (apply filter_In; by split).
  rewrite Hnil in Hin. destruct Hin.
Qed.

(** The operator a feature row joins to. *)
Lemma operator_of_feature (db : Database) (table : string) (def : TableDef) (r : Row) :
  db_ok db → foreign_keys_hold db = true →
  In (table, def) catalog →
  In (references "operator_id" TUuid "operators" "id") (columns def) →
  In r (rows_of db table) →
  (cell r "operator_id" = VNull ∧ operator_of db r = [[]])
  ∨ (∃ o code name,
       operator_of db r = [o] ∧ In o (rows_of db "operators")
       ∧ value_eqb (cell r "operator_id") (cell o "id") = true
       ∧ cell o "code" = VText code ∧ cell o "name" = VText name).
Proof.
  intros Hdb Hfk Ht Hc Hr.
  pose proof (foreign_key_of_row db table def _ "operators" "id" r Hfk Ht Hc eq_refl Hr)
    as Hkey.
  simpl in Hkey. destruct (operator_of_one db r Hdb) as [o [Hone Hfilter]].
  destruct (is_null (cell r "operator_id")) eqn:Hnull.
  - left. destruct (cell r "operator_id") eqn:Hcell; try discriminate.
    split; [reflexivity |]. unfold operator_of, left_join. rewrite Hcell.
    replace (List.filter _ (rows_of db "operators")) with (@nil Row); [reflexivity |].
    symmetry. clear. induction (rows_of db "operators") as [| x l IH]; [reflexivity |].
    simpl. exact IH.
  - right. simpl in Hkey.
    assert (Hne : List.filter (λ o, value_eqb (cell r "operator_id") (cell o "id"))
                    (rows_of db "operators") ≠ []).
    { apply filter_nonempty_of_existsb.
      apply existsb_exists in Hkey as [x [Hx Hmatch]].
      apply existsb_exists. exists x. split; [exact Hx |].
      by rewrite SchemaFacts.value_eqb_sym. }
    destruct Hfilter as [[Hnil _] | Hsingle]; [by destruct Hne |].
    assert (Ho : In o (List.filter (λ o, value_eqb (cell r "operator_id") (cell o "id"))
                         (rows_of db "operators")))
      by (rewrite Hsingle; by left).
    apply filter_In in Ho as [Ho Hmatch].
    pose proof (SchemaFacts.stored_cell_ok db "operators" operators_def
                  (unique_not_null "code" (TVarchar 50)) o Hdb eq_refl) as Hcode.
    pose proof (SchemaFacts.stored_cell_ok db "operators" operators_def
                  (not_null "name" (TVarchar 255)) o Hdb eq_refl) as Hname.
    apply SchemaFacts.varchar_cell in Hcode as [[Hf _] | [code [Hcode _]]];
      [discriminate | | simpl; tauto | exact Ho].
    apply SchemaFacts.varchar_cell in Hname as [[Hf _] | [name [Hname _]]];
      [discriminate | | simpl; tauto | exact Ho].
    by exists o, code, name.
Qed.

(** X13. In every reachable state a feature row without an operator joins to
    the row of NULLs, and one with an operator joins to exactly one row of
    [urban.operators], the one with that id, whose code and name are not
    NULL.  Where the row's stored properties are a JSON object, the
    [operator_code] of its view row is the stored properties' own
    [operator_code] entry if they have one, and that operator's code
    otherwise. *)
Theorem feature_joins_its_operator `{pg : PostGIS} (script : list (Env * Statement))
    (r : Row) :
  In r (rows_of (run_statements script created) "infrastructure")
  ∨ In r (rows_of (run_statements script created) "buildings") →
  (cell r "operator_id" = VNull
   ∧ operator_of (run_statements script created) r = [[]])
  ∨ (∃ o code name,
       operator_of (run_statements script created) r = [o]
       ∧ In o (rows_of (run_statements script created) "operators")
       ∧ value_eqb (cell r "operator_id") (cell o "id") = true
       ∧ cell o "code" = VText code ∧ cell o "name" = VText name
       ∧ ∀ stored, cell r "properties" = VJson (JObj stored) →
           (∀ t, ∃ props,
              item_properties (infrastructure_item r o t) = VJson (JObj props)
              ∧ assoc "operator_code" props
                = Some (default (JStr code) (assoc "operator_code" stored)))
           ∧ (∃ props,
                item_properties (building_item r o) = VJson (JObj props)
                ∧ assoc "operator_code" props
                  = Some (default (JStr code) (assoc "operator_code" stored)))).
Proof.
  pose proof (SchemaFacts.run_statements_db_ok script created SchemaFacts.created_db_ok)
    as Hdb.
  pose proof (run_statements_foreign_keys script created created_foreign_keys) as Hfk.
  assert (Hview : ∀ o code, cell o "code" = VText code →
            ∀ stored, cell r "properties" = VJson (JObj stored) →
              (∀ t, ∃ props,
                 item_properties (infrastructure_item r o t) = VJson (JObj props)
                 ∧ assoc "operator_code" props
                   = Some (default (JStr code) (assoc "operator_code" stored)))
              ∧ (∃ props,
                   item_properties (building_item r o) = VJson (JObj props)
                   ∧ assoc "operator_code" props
                     = Some (default (JStr code) (assoc "operator_code" stored)))).
  { intros o code Hcode stored Hstored. split; [intros t |];
      (eexists; split;
       [apply SchemaFacts.item_properties_merge; exact Hstored |];
       rewrite SchemaFacts.assoc_merge;
       destruct (assoc "operator_code" stored); simpl; [reflexivity |];
       by rewrite Hcode). }
  intros [Hr | Hr].
  - destruct (operator_of_feature _ "infrastructure" infrastructure_def r Hdb Hfk)
      as [Hnull | (o & code & name & H1 & H2 & H3 & H4 & H5)];
      [simpl; tauto | simpl; tauto | exact Hr | by left |].
    right. exists o, code, name. repeat (split; [assumption |]). by apply Hview.
  - destruct (operator_of_feature _ "buildings" buildings_def r Hdb Hfk)
      as [Hnull | (o & code & name & H1 & H2 & H3 & H4 & H5)];
      [simpl; tauto | simpl; tauto | exact Hr | by left |].
    right. exists o, code, name. repeat (split; [assumption |]). by apply Hview.
Qed.

(** X14. An operator that some infrastructure row or building refers to cannot
    be deleted: a [DELETE] that would remove every operator row with the
    referenced id is rejected for the foreign key, and the database stays
    as it is. *)
Theorem referenced_operator_cannot_be_deleted (env : Env) (db : Database)
    (where_ : Row → bool) (r : Row) :
  In r (rows_of db "infrastructure") ∨ In r (rows_of db "buildings") →
  cell r "operator_id" ≠ VNull →
  (∀ o, In o (rows_of db "operators") →
        value_eqb (cell o "id") (cell r "operator_id") = true → where_ o = true) →
  execute env (Delete "operators" where_) db = Rejected ForeignKeyViolation
  ∧ apply_statement db (env, Delete "operators" where_) = db.
Proof.
  intros Hr Hnn Hwhere.
  assert (Hex : execute env (Delete "operators" where_) db = Rejected ForeignKeyViolation).
  { unfold execute. change (table_def "operators") with (Some operators_def).
    cbv beta iota. unfold checked.
    destruct (foreign_keys_hold _) eqn:Hfk; [| reflexivity]. exfalso.
    set (db' := <["operators" := List.filter (λ r, negb (where_ r)) (rows_of db "operators")]> db)
      in Hfk.
    assert (Hkey : is_null (cell r "operator_id")
                   || existsb (λ r', value_eqb (cell r' "id") (cell r "operator_id"))
                        (rows_of db' "operators") = true).
    { destruct Hr as [Hr | Hr].
      - apply (foreign_key_of_row db' "infrastructure" infrastructure_def
                 (references "operator_id" TUuid "operators" "id") "operators" "id" r Hfk);
          [simpl; tauto | simpl; tauto | reflexivity |].
        subst db'. by rewrite SchemaFacts.rows_of_insert.
      - apply (foreign_key_of_row db' "buildings" buildings_def
                 (references "operator_id" TUuid "operators" "id") "operators" "id" r Hfk);
          [simpl; tauto | simpl; tauto | reflexivity |].
        subst db'. by rewrite SchemaFacts.rows_of_insert. }
    destruct (cell r "operator_id") eqn:Hcell; try (by destruct Hnn); simpl in Hkey;
      apply existsb_exists in Hkey as [o [Ho Hmatch]];
      subst db'; rewrite SchemaFacts.rows_of_insert in Ho; simpl in Ho;
      apply filter_In in Ho as [Ho Hkeep];
      rewrite (Hwhere o Ho) in Hkeep by (rewrite ?Hcell; exact Hmatch); discriminate. }
  split; [exact Hex |]. unfold apply_statement. cbn [fst snd]. by rewrite Hex.
Qed.

Lemma owned_rows :
  rows_of (run_statements owned_script created) "operators" = [stored_operator]
  ∧ rows_of (run_statements owned_script created) "infrastructure" = [stored_owned_cable].
Proof. split; vm_compute; reflexivity. Qed.

Lemma view_rows_are_complete_witness :
  ∃ s, item_id (infrastructure_item (pg := sample_postgis) stored_owned_cable
                  stored_operator []) = VText s.
Proof.
  destruct (view_rows_are_complete (pg := sample_postgis) owned_script
              (infrastructure_item (pg := sample_postgis) stored_owned_cable
                 stored_operator []))
    as (s & g & collection & Hid & _).
  - vm_compute. left. reflexivity.
  - by exists s.
Defined.

Lemma feature_joins_its_operator_witness :
  (cell stored_owned_cable "operator_id" = VNull
   ∧ operator_of (run_statements owned_script created) stored_owned_cable = [[]])
  ∨ (∃ o code name,
       operator_of (run_statements owned_script created) stored_owned_cable = [o]
       ∧ In o (rows_of (run_statements owned_script created) "operators")
       ∧ value_eqb (cell stored_owned_cable "operator_id") (cell o "id") = true
       ∧ cell o "code" = VText code ∧ cell o "name" = VText name
       ∧ ∀ stored, cell stored_owned_cable "properties" = VJson (JObj stored) →
           (∀ t, ∃ props,
              item_properties (infrastructure_item (pg := sample_postgis)
                                 stored_owned_cable o t) = VJson (JObj props)
              ∧ assoc "operator_code" props
                = Some (default (JStr code) (assoc "operator_code" stored)))
           ∧ (∃ props,
                item_properties (building_item (pg := sample_postgis)
                                   stored_owned_cable o) = VJson (JObj props)
                ∧ assoc "operator_code" props
                  = Some (default (JStr code) (assoc "operator_code" stored)))).
Proof.
  apply (feature_joins_its_operator (pg := sample_postgis) owned_script
           stored_owned_cable).
  left. rewrite (proj2 owned_rows). left. reflexivity.
Defined.

(** A cable of operator [azersu] whose stored properties name another
    operator code is listed by the view under that other code. *)
Example stored_operator_code_wins :
  ∃ props,
    item_properties (infrastructure_item (pg := sample_postgis)
                       (cable_with_properties
                          (VJson (JObj [("operator_code", JStr "delta")])))
                       stored_operator []) = VJson (JObj props)
    ∧ assoc "operator_code" props = Some (JStr "delta").
Proof. eexists. split; reflexivity. Qed.

Lemma referenced_operator_cannot_be_deleted_witness :
  apply_statement (run_statements owned_script created)
    (sample_env "3", Delete "operators" (λ _, true))
  = run_statements owned_script created.
Proof.
  apply (proj2 (referenced_operator_cannot_be_deleted (sample_env "3")
                  (run_statements owned_script created) (λ _, true) stored_owned_cable
                  ltac:(left; rewrite (proj2 owned_rows); left; reflexivity)
                  ltac:(discriminate)
                  ltac:(reflexivity))).
Defined.

Example unreferenced_operator_can_be_deleted :
  rows_of (apply_statement
             (run_statements [(sample_env "1", insert_operator "azersu" "Azersu OJSC" "water")]
                created)
             (sample_env "3", Delete "operators" (λ _, true))) "operators" = [].
Proof. vm_compute. reflexivity. Qed.

(** **** The timestamp trigger *)

Lemma updated_row_cells (env : Env) (def : TableDef) (assign : list (string * Value))
    (old new : Row) :
  names_distinct (map col_name (columns def)) = true →
  update_timestamp_trigger def = true →
  In (with_default "updated_at" TTimestamptz Now) (columns def) →
  updated_row env def assign old = Accepted new →
  cell new "updated_at" = VTime (now env)
  ∧ ∀ c, In c (columns def) → col_name c ≠ "updated_at" →
         assigned assign (col_name c) = None →
         cell new (col_name c) = cell old (col_name c).
Proof.
  intros Hd Htrig Hcol. unfold updated_row. rewrite Htrig.
  destruct (known_columns (columns def) assign); [| discriminate].
  intros Hr%SchemaFacts.for_each_accepted.
  assert (Hcells : ∀ c, In c (columns def) →
            (c = with_default "updated_at" TTimestamptz Now →
             cell new (col_name c) = VTime (now env))
            ∧ (col_name c ≠ "updated_at" → assigned assign (col_name c) = None →
               cell new (col_name c) = cell old (col_name c))).
  { apply (SchemaFacts.built_row_cells
             (λ c v, (c = with_default "updated_at" TTimestamptz Now → v = VTime (now env))
                     ∧ (col_name c ≠ "updated_at" → assigned assign (col_name c) = None →
                        v = cell old (col_name c)))); [| exact Hd].
    eapply Forall2_impl; [exact Hr |]. intros c kv Hkv. simpl in Hkv.
    destruct (String.eqb (col_name c) "updated_at") eqn:Hname; simpl in Hkv.
    - split; [by apply SchemaFacts.store_cell_ok in Hkv as [Hn _] |]. split.
      + intros ->. vm_compute in Hkv. by injection Hkv as <-.
      + intros Hne. apply String.eqb_eq in Hname. by destruct Hne.
    - destruct (assigned assign (col_name c)) as [v |] eqn:Hassign.
      + split; [by apply SchemaFacts.store_cell_ok in Hkv as [Hn _] |]. split.
        * intros ->. discriminate.
        * intros _ Hnone. discriminate.
      + injection Hkv as <-. split; [reflexivity |]. split.
        * intros ->. discriminate.
        * intros _ _. reflexivity. }
  split.
  - exact (proj1 (Hcells _ Hcol) eq_refl).
  - intros c Hc Hne Hnone. exact (proj2 (Hcells c Hc) Hne Hnone).
Qed.

(** X15. An accepted [UPDATE] on a table with the timestamp trigger (operators,
    infrastructure, buildings) sets [updated_at] of every row it matches to
    [NOW()], whatever the statement assigns to that column, leaves their
    unassigned columns as they were, and leaves the rows it does not match
    and all other tables untouched. *)
Theorem update_refreshes_updated_at (env : Env) (table : string) (def : TableDef)
    (where_ : Row → bool) (assign : list (string * Value)) (db db' : Database) :
  table_def table = Some def →
  update_timestamp_trigger def = true →
  In (with_default "updated_at" TTimestamptz Now) (columns def) →
  execute env (Update table where_ assign) db = Accepted db' →
  Forall2 (λ old new,
             if where_ old
             then cell new "updated_at" = VTime (now env)
                  ∧ ∀ c, In c (columns def) → col_name c ≠ "updated_at" →
                         assigned assign (col_name c) = None →
                         cell new (col_name c) = cell old (col_name c)
             else new = old)
    (rows_of db table) (rows_of db' table)
  ∧ ∀ other, other ≠ table → rows_of db' other = rows_of db other.
Proof.
  intros Hdef Htrig Hcol. unfold execute. rewrite Hdef.
  destruct (for_each _ (rows_of db table)) as [rows' | e] eqn:Hrows; [| discriminate].
  simpl. destruct (all_unique (columns def) rows'); [| discriminate].
  intros Hdb'%SchemaFacts.checked_accepted. subst db'. split.
  - rewrite SchemaFacts.rows_of_insert. destruct (decide (table = table)); [| done].
    apply SchemaFacts.for_each_accepted in Hrows.
    eapply Forall2_impl; [exact Hrows |]. intros old new Hnew. simpl in Hnew.
    destruct (where_ old); [| by injection Hnew as <-].
    eapply updated_row_cells; eauto.
    by eapply SchemaFacts.table_def_columns_distinct.
  - intros other Hne. rewrite SchemaFacts.rows_of_insert.
    destruct (decide (table = other)); [by destruct Hne | reflexivity].
Qed.

Lemma update_refreshes_updated_at_witness :
  Forall2 (λ old new,
             cell new "updated_at" = VTime (now (sample_env "7"))
             ∧ ∀ c, In c (columns infrastructure_def) → col_name c ≠ "updated_at" →
                    assigned [("status", VText "maintenance");
                              ("updated_at", VTime "1999-01-01T00:00:00Z")]
                      (col_name c) = None →
                    cell new (col_name c) = cell old (col_name c))
    (rows_of (run_statements owned_script created) "infrastructure")
    (rows_of (apply_statement (run_statements owned_script created)
                (sample_env "7",
                 Update "infrastructure" (λ _, true)
                   [("status", VText "maintenance");
                    ("updated_at", VTime "1999-01-01T00:00:00Z")]))
       "infrastructure").
Proof.
  refine (proj1 (update_refreshes_updated_at (sample_env "7") "infrastructure"
                   infrastructure_def (λ _, true)
                   [("status", VText "maintenance");
                    ("updated_at", VTime "1999-01-01T00:00:00Z")]
                   (run_statements owned_script created) _ eq_refl eq_refl _ _)).
  - simpl. tauto.
  - vm_compute. reflexivity.
Defined.

End SchemaJoins.

Module ViewToPanel.
Import Schema FeaturePanel.

Section View.
Context `{pg : PostGIS}.

(** X16. What the detail panel shows for a feature whose properties are those
    of a view row.  A row that comes from [urban.buildings] is labelled
    [buildings] when the row's stored properties are a JSON object, as by
    default: the view then builds a [building_type] key (JSON null when the
    column is NULL).  When the stored properties are NULL the view's
    properties are NULL, and when they are an array or a scalar the view's
    are an array; the panel labels both [infrastructure].  A row that comes
    from [urban.infrastructure] is labelled [buildings] exactly when its
    stored properties are an object with a [building_type] key. *)
Theorem view_rows_in_the_panel (feature : Feature) :
  (∀ b o,
     (∀ stored props,
        cell b "properties" = VJson (JObj stored) →
        item_properties (building_item b o) = VJson props →
        f_properties feature = Some props →
        collection_label feature = "buildings")
     ∧ (∀ j props,
          cell b "properties" = VJson j → (∀ stored, j ≠ JObj stored) →
          item_properties (building_item b o) = VJson props →
          f_properties feature = Some props →
          collection_label feature = "infrastructure")
     ∧ (cell b "properties" = VNull →
        item_properties (building_item b o) = VNull
        ∧ (nullish (f_properties feature) = true →
           collection_label feature = "infrastructure")))
  ∧ (∀ i o t,
       (∀ stored props,
          cell i "properties" = VJson (JObj stored) →
          item_properties (infrastructure_item i o t) = VJson props →
          f_properties feature = Some props →
          (collection_label feature = "buildings" ↔ assoc "building_type" stored ≠ None))
       ∧ (∀ j props,
            cell i "properties" = VJson j → (∀ stored, j ≠ JObj stored) →
            item_properties (infrastructure_item i o t) = VJson props →
            f_properties feature = Some props →
            collection_label feature = "infrastructure")
       ∧ (cell i "properties" = VNull →
          item_properties (infrastructure_item i o t) = VNull
          ∧ (nullish (f_properties feature) = true →
             collection_label feature = "infrastructure"))).
Proof.
  assert (Harray : ∀ (r : Row) object collection j props,
            cell r "properties" = VJson j → (∀ stored, j ≠ JObj stored) →
            item_properties (item_of r object collection) = VJson props →
            f_properties feature = Some props →
            collection_label feature = "infrastructure").
  { intros r object collection j props Hcell Hj Hitem Hf.
    unfold item_of in Hitem. simpl in Hitem. rewrite Hcell in Hitem.
    unfold collection_label, isBuilding, props_of, js_or. rewrite Hf.
    destruct j; simpl in Hitem; injection Hitem as <-; try reflexivity.
    by destruct (Hj fields). }
  assert (Hnull : ∀ (r : Row) object collection,
            cell r "properties" = VNull →
            item_properties (item_of r object collection) = VNull
            ∧ (nullish (f_properties feature) = true →
               collection_label feature = "infrastructure")).
  { intros r object collection Hcell. split.
    - unfold item_of. simpl. by rewrite Hcell.
    - unfold collection_label, isBuilding, props_of, js_or.
      destruct (f_properties feature) as [[| | | | |] |]; try discriminate; reflexivity. }
  split.
  - intros b o. split; [| split; [apply Harray | apply Hnull]].
    intros stored props Hstored Hitem Hf.
    unfold building_item in Hitem.
    rewrite (SchemaFacts.item_properties_merge _ _ _ stored Hstored) in Hitem.
    injection Hitem as <-. unfold collection_label, isBuilding.
    rewrite (FeaturePanelFacts.props_of_object feature _ Hf). simpl member.
    rewrite SchemaFacts.assoc_merge. destruct (assoc "building_type" stored); reflexivity.
  - intros i o t. split; [| split; [apply Harray | apply Hnull]].
    intros stored props Hstored Hitem Hf.
    unfold infrastructure_item in Hitem.
    rewrite (SchemaFacts.item_properties_merge _ _ _ stored Hstored) in Hitem.
    injection Hitem as <-. unfold collection_label, isBuilding.
    rewrite (FeaturePanelFacts.props_of_object feature _ Hf). simpl member.
    rewrite SchemaFacts.assoc_merge.
    destruct (assoc "building_type" stored); simpl; split; try done.
Qed.

End View.

Lemma view_rows_in_the_panel_witness :
  collection_label
    {| f_id := Some (JStr "b-2"); f_geometry := None;
       f_properties :=
         Some (JObj (merge_objects
                       (object_fields (building_object (stored_square "5" "b-2") [])) [])) |}
  = "buildings".
Proof.
  apply (proj1 (proj1 (view_rows_in_the_panel (pg := sample_postgis)
                  {| f_id := Some (JStr "b-2"); f_geometry := None;
                     f_properties :=
                       Some (JObj (merge_objects
                                     (object_fields (building_object (stored_square "5" "b-2") []))
                                     [])) |})
           (stored_square "5" "b-2") []) []
           (JObj (merge_objects
                    (object_fields (building_object (stored_square "5" "b-2") [])) [])));
    reflexivity.
Defined.

(** A building can be stored with NULL properties; it comes out of the
    view with NULL properties, and the panel labels a feature with such
    properties [infrastructure]. *)
Example building_without_properties_in_the_panel :
  rows_of (run_statements [(sample_env "1", insert_bare_building "b-9")] created)
    "buildings" = [stored_bare_building "1" "b-9"]
  ∧ item_properties (building_item (pg := sample_postgis)
                       (stored_bare_building "1" "b-9") []) = VNull
  ∧ collection_label {| f_id := Some (JStr "b-9"); f_geometry := None;
                        f_properties := Some JNull |} = "infrastructure".
Proof. split; [vm_compute; reflexivity | split; reflexivity]. Qed.

End ViewToPanel.

Module MapPopups.
Import MapView.

(** X17. The status line of the infrastructure popup knows three statuses:
    [inactive] and [maintenance] get their own label and every other status
    text, like a missing status, is shown as [Aktiv].  Of the four statuses
    the schema documents, [planned] and [decommissioned] are therefore shown
    as active on the map. *)
Theorem popup_status_is_active_by_default `{om : ObjectModel} (props : Json) (s : string) :
  member props "status" = Some (JStr s) → inherited s = false →
  popup_status_label props
  = Some (if String.eqb s "inactive" then "Qeyri-aktiv"
          else if String.eqb s "maintenance" then "Təmirdə"
          else "Aktiv")
  ∧ (In s Schema.documented_statuses → s ≠ "maintenance" →
     popup_status_label props = Some "Aktiv").
Proof.
  intros Hs Hinh.
  assert (Hlabel : popup_status_label props
                   = Some (if String.eqb s "inactive" then "Qeyri-aktiv"
                           else if String.eqb s "maintenance" then "Təmirdə"
                           else "Aktiv")).
  { unfold popup_status_label, table_get. rewrite Hs. simpl key_of. simpl own.
    destruct (String.eqb s "active") eqn:Ha.
    { apply String.eqb_eq in Ha as ->. reflexivity. }
    destruct (String.eqb s "inactive"); [reflexivity |].
    destruct (String.eqb s "maintenance"); [reflexivity |].
    rewrite Hinh. reflexivity. }
  split; [exact Hlabel |].
  intros Hdoc Hne. rewrite Hlabel. simpl in Hdoc.
  destruct Hdoc as [<- | [<- | [<- | [<- | []]]]]; try reflexivity. by destruct Hne.
Qed.

Lemma popup_status_is_active_by_default_witness :
  popup_status_label (om := bare_objects) (JObj [("status", JStr "decommissioned")])
  = Some "Aktiv".
Proof.
  apply (proj2 (popup_status_is_active_by_default (om := bare_objects)
                  (JObj [("status", JStr "decommissioned")]) "decommissioned"
                  eq_refl eq_refl)).
  - simpl. tauto.
  - discriminate.
Defined.

End MapPopups.

Module SchemaSeeds.
Import Schema.

(** **** A multi-row insert on tables no foreign key leaves *)

Lemma foreign_keys_without_features (db : Database) :
  rows_of db "infrastructure" = [] → rows_of db "buildings" = [] →
  foreign_keys_hold db = true.
Proof.
  intros Hi Hb. unfold foreign_keys_hold, catalog.
  cbn -[rows_of existsb]. rewrite Hi, Hb. reflexivity.
Qed.

Lemma keys_distinct_earlier (l1 l2 : list Value) (v v' : Value) :
  keys_distinct (l1 ++ v :: l2) = true → In v' l1 → value_eqb v' v = false.
Proof.
  induction l1 as [| a l1 IH]; simpl; [by intros _ [] |].
  intros [Ha Hrest]%andb_true_iff [-> | Hin]; [| by apply IH].
  rewrite forallb_forall in Ha.
  apply negb_true_iff, Ha, in_or_app. right. by left.
Qed.

Lemma unique_against_of_keys (cols : list Column) (existing rest : list Row) (r : Row) :
  (∀ c, In c cols → col_unique c = true →
        keys_distinct (map (λ r', cell r' (col_name c)) (existing ++ r :: rest)) = true) →
  unique_against cols existing r = true.
Proof.
  intros Hkeys. unfold unique_against. apply forallb_forall. intros c Hc.
  destruct (col_unique c) eqn:Hu; [| reflexivity]. simpl.
  apply orb_true_iff. right. apply forallb_forall. intros r' Hr'.
  apply negb_true_iff.
  specialize (Hkeys c Hc Hu). rewrite map_app in Hkeys. simpl in Hkeys.
  eapply keys_distinct_earlier; [exact Hkeys |].
  by apply (in_map (λ r', cell r' (col_name c))).
Qed.

Lemma keys_distinct_uuids (ids : list string) :
  NoDup ids → keys_distinct (map VUuid ids) = true.
Proof.
  induction 1 as [| u ids Hu _ IH]; simpl; [reflexivity |].
  rewrite IH, andb_true_r. apply forallb_forall. intros v [u' [<- Hu']]%in_map_iff.
  simpl. apply negb_true_iff, String.eqb_neq. intros ->.
  by apply Hu, list_elem_of_In.
Qed.

Lemma insert_rows_accepted (now_ table : string) (def : TableDef)
    (rows : list (string * list (string * Value))) :
  table_def table = Some def → table ≠ "infrastructure" → table ≠ "buildings" →
  ∀ db : Database,
  rows_of db "infrastructure" = [] → rows_of db "buildings" = [] →
  (∀ u a, In (u, a) rows →
          inserted_row {| fresh_uuid := u; now := now_ |} (columns def) a
          = Accepted (stored_as u now_ def a)) →
  (∀ c, In c (columns def) → col_unique c = true →
        keys_distinct (map (λ r, cell r (col_name c))
          (rows_of db table ++ map (λ ua, stored_as ua.1 now_ def ua.2) rows)) = true) →
  ∃ db' : Database,
    insert_rows now_ table rows db = Accepted db'
    ∧ rows_of db' table = rows_of db table ++ map (λ ua, stored_as ua.1 now_ def ua.2) rows
    ∧ ∀ t, t ≠ table → rows_of db' t = rows_of db t.
Proof.
  intros Hdef Hni Hnb. induction rows as [| [u a] rows IH]; intros db Hi Hb Hrow Hkeys.
  - exists db. simpl. by rewrite app_nil_r.
  - assert (Hother : ∀ t, t ≠ table →
      rows_of (<[table := rows_of db table ++ [stored_as u now_ def a]]> db) t = rows_of db t).
    { intros t Ht. unfold rows_of. by rewrite lookup_insert_ne. }
    assert (Hself :
      rows_of (<[table := rows_of db table ++ [stored_as u now_ def a]]> db) table
      = rows_of db table ++ [stored_as u now_ def a]).
    { unfold rows_of at 1. by rewrite lookup_insert_eq. }
    destruct (IH (<[table := rows_of db table ++ [stored_as u now_ def a]]> db))
      as (db' & Hrun & Hrows & Hrest).
    + by rewrite Hother.
    + by rewrite Hother.
    + intros u' a' Hin. apply Hrow. by right.
    + intros c Hc Hu. rewrite Hself, <- app_assoc. by apply Hkeys.
    + exists db'. split; [| split].
      * simpl. unfold execute. rewrite Hdef, (Hrow u a (or_introl eq_refl)). simpl.
        rewrite (unique_against_of_keys _ _
                   (map (λ ua, stored_as ua.1 now_ def ua.2) rows)) by exact Hkeys.
        unfold checked. rewrite foreign_keys_without_features by (by rewrite Hother).
        exact Hrun.
      * rewrite Hrows, Hself, <- app_assoc. reflexivity.
      * intros t Ht. by rewrite Hrest, Hother.
Qed.

Lemma insert_rows_db_ok (now_ table : string)
    (rows : list (string * list (string * Value))) (db db' : Database) :
  db_ok db → insert_rows now_ table rows db = Accepted db' → db_ok db'.
Proof.
  revert db. induction rows as [| [u a] rows IH]; intros db Hdb; cbn [insert_rows].
  - by intros [= <-].
  - destruct (execute {| fresh_uuid := u; now := now_ |} (Insert table a) db)
      as [db1 | e] eqn:Hex; unfold and_then; [| discriminate].
    apply IH. by eapply SchemaFacts.execute_db_ok.
Qed.

Lemma seed_operators_fit (u now_ : string) (a : list (string * Value)) :
  In a seed_operators →
  inserted_row {| fresh_uuid := u; now := now_ |} (columns operators_def) a
  = Accepted (stored_as u now_ operators_def a).
Proof.
  unfold seed_operators. simpl.
  intros H. repeat (destruct H as [<- | H]; [vm_compute; reflexivity |]). destruct H.
Qed.

Lemma seed_types_fit (u now_ : string) (a : list (string * Value)) :
  In a seed_types →
  inserted_row {| fresh_uuid := u; now := now_ |} (columns infrastructure_types_def) a
  = Accepted (stored_as u now_ infrastructure_types_def a).
Proof.
  unfold seed_types. simpl.
  intros H. repeat (destruct H as [<- | H]; [vm_compute; reflexivity |]). destruct H.
Qed.

Lemma in_zip_r {A B} (l : list A) (k : list B) (x : A) (y : B) :
  In (x, y) (zip l k) → In y k.
Proof.
  revert k. induction l as [| a l IH]; intros [| b k]; simpl; try by intros [].
  intros [[= _ <-] | Hin]; [by left | right; by eapply IH].
Qed.

Lemma stored_ids (now_ : string) (def : TableDef) (ids : list string)
    (seeds : list (list (string * Value))) :
  (∃ ty d rest, columns def = primary_key "id" ty d :: rest ∧ d = UuidGenerateV4) →
  Forall (λ a, assigned a "id" = None) seeds →
  length ids = length seeds →
  map (λ r, cell r "id") (map (λ ua, stored_as ua.1 now_ def ua.2) (zip ids seeds))
  = map VUuid ids.
Proof.
  intros (ty & d & rest & Hcols & ->) Hseeds. revert ids.
  induction Hseeds as [| a seeds Ha _ IH]; intros [| u ids]; simpl; try done.
  intros [= Hlen]. rewrite IH by exact Hlen. f_equal.
  unfold stored_as. rewrite Hcols. simpl. by rewrite Ha.
Qed.

Lemma stored_codes (now_ : string) (def : TableDef) (ids : list string)
    (seeds : list (list (string * Value))) :
  (∃ ty d rest, columns def = primary_key "id" ty d :: unique_not_null "code" (TVarchar 50) :: rest) →
  length ids = length seeds →
  map (λ r, cell r "code") (map (λ ua, stored_as ua.1 now_ def ua.2) (zip ids seeds))
  = map (λ a, match assigned a "code" with Some v => v | None => VNull end) seeds.
Proof.
  intros (ty & d & rest & Hcols). revert ids.
  induction seeds as [| a seeds IH]; intros [| u ids]; simpl; try done.
  intros [= Hlen]. rewrite IH by exact Hlen. f_equal.
  unfold stored_as. rewrite Hcols. reflexivity.
Qed.

(** X18. The script's two seed statements are accepted on the freshly
    created schema, whatever pairwise different UUIDs and whatever
    timestamps the engine hands out: every seed value fits its column (no
    value is cut or rejected), no code repeats, and the ten operators and
    twelve infrastructure types are stored in the order written, every
    declared constraint holding afterwards. *)
Theorem seed_statements_are_accepted (operator_ids type_ids : list string)
    (now1 now2 : string) :
  NoDup operator_ids → length operator_ids = length seed_operators →
  NoDup type_ids → length type_ids = length seed_types →
  ∃ db : Database,
    run_seeds operator_ids type_ids now1 now2 = Accepted db
    ∧ rows_of db "operators"
      = map (λ ua, stored_as ua.1 now1 operators_def ua.2) (zip operator_ids seed_operators)
    ∧ rows_of db "infrastructure_types"
      = map (λ ua, stored_as ua.1 now2 infrastructure_types_def ua.2)
          (zip type_ids seed_types)
    ∧ db_ok db.
Proof.
  intros Hops Hlen_ops Htys Hlen_tys.
  assert (Hempty : ∀ t, rows_of created t = []) by (intros t; reflexivity).
  destruct (insert_rows_accepted now1 "operators" operators_def
              (zip operator_ids seed_operators) eq_refl
              ltac:(discriminate) ltac:(discriminate) created)
    as (db1 & Hrun1 & Hrows1 & Hrest1); try apply Hempty.
  { intros u a Hin. apply seed_operators_fit. by eapply in_zip_r. }
  { intros c Hc Hu. rewrite Hempty. simpl app.
    simpl in Hc.
    repeat (destruct Hc as [<- | Hc]; [try discriminate Hu |]); [| | destruct Hc].
    - simpl col_name. rewrite stored_ids; [by apply keys_distinct_uuids | | | exact Hlen_ops].
      + by eexists _, _, _.
      + unfold seed_operators. repeat constructor.
    - simpl col_name. rewrite stored_codes; [vm_compute; reflexivity | | exact Hlen_ops].
      by eexists _, _, _. }
  destruct (insert_rows_accepted now2 "infrastructure_types" infrastructure_types_def
              (zip type_ids seed_types) eq_refl
              ltac:(discriminate) ltac:(discriminate) db1)
    as (db2 & Hrun2 & Hrows2 & Hrest2).
  { rewrite Hrest1 by discriminate. apply Hempty. }
  { rewrite Hrest1 by discriminate. apply Hempty. }
  { intros u a Hin. apply seed_types_fit. by eapply in_zip_r. }
  { intros c Hc Hu. rewrite Hrest1 by discriminate. rewrite Hempty. simpl app.
    simpl in Hc.
    repeat (destruct Hc as [<- | Hc]; [try discriminate Hu |]); [| | destruct Hc].
    - simpl col_name. rewrite stored_ids; [by apply keys_distinct_uuids | | | exact Hlen_tys].
      + by eexists _, _, _.
      + unfold seed_types. repeat constructor.
    - simpl col_name. rewrite stored_codes; [vm_compute; reflexivity | | exact Hlen_tys].
      by eexists _, _, _. }
  exists db2. split; [| split; [| split]].
  - unfold run_seeds. rewrite Hrun1. simpl. exact Hrun2.
  - rewrite Hrest2 by discriminate. rewrite Hrows1, Hempty. reflexivity.
  - rewrite Hrows2, Hrest1 by discriminate. rewrite Hempty. reflexivity.
  - eapply insert_rows_db_ok; [| exact Hrun2].
    eapply insert_rows_db_ok; [| exact Hrun1]. exact SchemaFacts.created_db_ok.
Qed.

Lemma seed_statements_are_accepted_witness :
  ∃ db : Database,
    run_seeds sample_operator_ids sample_type_ids "2024-01-01 10:00:00+04"
      "2024-01-01 10:00:01+04" = Accepted db
    ∧ rows_of db "operators"
      = map (λ ua, stored_as ua.1 "2024-01-01 10:00:00+04" operators_def ua.2)
          (zip sample_operator_ids seed_operators)
    ∧ rows_of db "infrastructure_types"
      = map (λ ua, stored_as ua.1 "2024-01-01 10:00:01+04" infrastructure_types_def ua.2)
          (zip sample_type_ids seed_types)
    ∧ db_ok db.
Proof.
  apply seed_statements_are_accepted.
  - apply (bool_decide_unpack _). vm_compute. exact I.
  - reflexivity.
  - apply (bool_decide_unpack _). vm_compute. exact I.
  - reflexivity.
Defined.

End SchemaSeeds.
